(** * QueryMind: document ingestion and retrieval-augmented answering

    A shallow embedding of the backend of the repository
    ([backend/utils/document_processor.py], [backend/utils/database.py],
    [backend/utils/rag.py] and the [/ingest] endpoint of
    [backend/api/main.py]) together with the properties its specification
    states about it.

    Conventions of the embedding.
    - Python [str] is [string]; a character is one of the 256 code points
      of [ascii].  Python [int] is [Z] where the value may be negative
      (row ids, [top_k]) and [nat] for the counters produced by
      [enumerate] and [len].  A float is a rational [Q].
    - A Python function that touches the database, the file system or a
      remote provider is a computation [M A]: it takes the [World] and
      gives back a [Result] ([Ok] or a raised exception) and the new
      [World].  What was committed before an exception stays in the
      [World] it returns.
    - The collaborators whose code is not part of the repository (the
      text splitter, the embedding and chat providers, the distance
      operator and the ORDER BY of the database, the host platform) are
      type classes; the functions of the repository are written against
      them.
    - [print] and the closing of sessions leave no trace in the model. *)

From Stdlib Require Import List String Ascii Bool Arith ZArith QArith Lia.
From Stdlib Require Import Permutation Sorted DecimalString.
Import ListNotations.

Close Scope Q_scope.
Open Scope nat_scope.

Set Implicit Arguments.

(* ================================================================== *)
(** * Python strings *)

Module Py.

(** [str(n)] for a natural number and for an integer. *)
Definition str_nat (n : nat) : string :=
  NilEmpty.string_of_uint (Nat.to_uint n).

Definition str_int (z : Z) : string :=
  NilEmpty.string_of_int (Z.to_int z).

(** [c.isspace()] on the code points below 256: tab, line feed,
    vertical tab, form feed, carriage return, the four separators
    28..31, space, next-line (133) and no-break space (160). *)
Definition isspace (c : ascii) : bool :=
  let n := nat_of_ascii c in
  ((9 <=? n) && (n <=? 13)) || ((28 <=? n) && (n <=? 32))
  || (n =? 133) || (n =? 160).

Fixpoint lstrip_chars (l : list ascii) : list ascii :=
  match l with
  | [] => []
  | c :: t => if isspace c then lstrip_chars t else l
  end.

(** [s.strip()]: whitespace removed at both ends. *)
Definition strip (s : string) : string :=
  string_of_list_ascii
    (rev (lstrip_chars (rev (lstrip_chars (list_ascii_of_string s))))).

(** The strings [strip] empties: all their characters are whitespace. *)
Definition whitespace_only (s : string) : bool :=
  forallb isspace (list_ascii_of_string s).

(** Python truth value of a string: [not s] holds of the empty string only. *)
Definition truthy (s : string) : bool :=
  negb (String.eqb s ""%string).

Definition lower_char (c : ascii) : ascii :=
  let n := nat_of_ascii c in
  if ((65 <=? n) && (n <=? 90))
     || ((192 <=? n) && (n <=? 222) && negb (n =? 215))
  then ascii_of_nat (n + 32) else c.

Fixpoint lower (s : string) : string :=
  match s with
  | EmptyString => EmptyString
  | String c t => String (lower_char c) (lower t)
  end.

(** [s.endswith(suffix)]. *)
Definition endswith (s suffix : string) : bool :=
  (String.length suffix <=? String.length s)
  && String.eqb
       (substring (String.length s - String.length suffix)
                  (String.length suffix) s)
       suffix.

(** [sub in s]. *)
Definition contains (sub s : string) : bool :=
  match index 0 sub s with Some _ => true | None => false end.

(** [s[:n]]. *)
Definition slice_to (n : nat) (s : string) : string :=
  substring 0 n s.

(** [sep.join(parts)]. *)
Fixpoint join (sep : string) (parts : list string) : string :=
  match parts with
  | [] => ""%string
  | [p] => p
  | p :: rest => (p ++ sep ++ join sep rest)%string
  end.

(** [Path(p).name] for a path that does not end in a slash: what follows
    the last slash. *)
Fixpoint path_name_from (acc : string) (p : string) : string :=
  match p with
  | EmptyString => acc
  | String c t =>
      if Ascii.eqb c "/"%char then path_name_from t t
      else path_name_from acc t
  end.

Definition path_name (p : string) : string := path_name_from p p.

(** [enumerate(l)], counting from [start]. *)
Fixpoint enumerate_from {A} (start : nat) (l : list A) : list (nat * A) :=
  match l with
  | [] => []
  | x :: t => (start, x) :: enumerate_from (S start) t
  end.

Definition enumerate {A} (l : list A) : list (nat * A) :=
  enumerate_from 0 l.

End Py.

(* ================================================================== *)
(** * Exceptions, results and the world *)

Inductive Exn : Type :=
| HTTPException (status_code : Z) (detail : string)
| KeyError (key : string)
| IndexError (msg : string)
| FileNotFoundError (path : string)
| PdfReadError (msg : string)
| StatementError (msg : string)
| DataError (msg : string)
| IntegrityError (msg : string)
| ValueError (msg : string)
| ProviderError (msg : string).

(** [str(e)].  The text of an exception raised by a library is shortened
    to its core message. *)
Definition str_exn (e : Exn) : string :=
  match e with
  | HTTPException status_code detail =>
      (Py.str_int status_code ++ ": " ++ detail)%string
  | KeyError key => ("'" ++ key ++ "'")%string
  | IndexError msg | PdfReadError msg | StatementError msg | DataError msg
  | IntegrityError msg | ValueError msg | ProviderError msg => msg
  | FileNotFoundError path =>
      ("[Errno 2] No such file or directory: '" ++ path ++ "'")%string
  end.

Inductive Result (A : Type) : Type :=
| Ok (a : A)
| Raise (e : Exn).

Arguments Ok {A} a.
Arguments Raise {A} e.

Definition is_ok {A} (r : Result A) : bool :=
  match r with Ok _ => true | Raise _ => false end.

(** An embedding vector. *)
Definition Embedding : Type := list Q.

(** The dimension of the [embedding] column, [Vector(1536)]. *)
Definition EMBEDDING_DIM : nat := 1536.

(** Rows of the table [documents] (the [upload_timestamp] column, filled by
    the database clock, is left out). *)
Module Document.
Record t : Type := Build {
  id : Z;
  filename : string;
  total_pages : nat
}.
End Document.

(** Rows of the table [document_chunks]. *)
Module DocumentChunk.
Record t : Type := Build {
  id : Z;
  document_id : Z;
  text : string;
  chunk_index : nat;
  page_number : nat;
  embedding : Embedding
}.
End DocumentChunk.

(** What OCR gives for one page when it is attempted: a text, no image at
    all, or an exception. *)
Inductive OcrOutcome : Type :=
| OcrText (s : string)
| OcrNoImage
| OcrRaises (msg : string).

(** One page of a parsed PDF: [page.extract_text()] and the outcome OCR
    would have on it. *)
Record PdfPage : Type := {
  extract_text : string;
  ocr : OcrOutcome
}.

(** The content of a file: the pages [PdfReader] finds in it, or [None]
    when it cannot be parsed. *)
Definition FileContent : Type := option (list PdfPage).

(** Requests sent to the remote providers, in the order they were sent. *)
Inductive ProviderCall : Type :=
| EmbedQuery (text : string)
| EmbedDocuments (texts : list string)
| ChatCompletion (model system_prompt user_prompt : string).

Definition is_chat_completion (c : ProviderCall) : bool :=
  match c with ChatCompletion _ _ _ => true | _ => false end.

Record World : Type := {
  documents : list Document.t;              (* in insertion order *)
  document_chunks : list DocumentChunk.t;   (* in insertion order *)
  documents_id_seq : Z;                     (* last id handed out *)
  document_chunks_id_seq : Z;
  files : list (string * FileContent);      (* the file system *)
  temp_counter : nat;                       (* names temporary files *)
  provider_calls : list ProviderCall
}.

Definition empty_world : World :=
  {| documents := []; document_chunks := [];
     documents_id_seq := 0; document_chunks_id_seq := 0;
     files := []; temp_counter := 0; provider_calls := [] |}.

(** ** The monad of the repository's effectful functions *)

Definition M (A : Type) : Type := World -> Result A * World.

Definition ret {A} (a : A) : M A := fun w => (Ok a, w).

Definition raise {A} (e : Exn) : M A := fun w => (Raise e, w).

Definition bind {A B} (m : M A) (k : A -> M B) : M B :=
  fun w =>
    match m w with
    | (Ok a, w') => k a w'
    | (Raise e, w') => (Raise e, w')
    end.

Declare Scope monad_scope.
Delimit Scope monad_scope with monad.
Notation "x <- m ;; k" := (bind m (fun x => k))
  (at level 61, m at next level, right associativity) : monad_scope.
Notation "' pat <- m ;; k" := (bind m (fun x => match x with pat => k end))
  (at level 61, pat pattern, m at next level, right associativity)
  : monad_scope.
Notation "m ;;; k" := (bind m (fun _ => k))
  (at level 61, right associativity) : monad_scope.

(** A call that touches nothing: its result, and the world as it was. *)
Definition lift {A} (r : Result A) : M A := fun w => (r, w).

(** [try: body except Exception as e: handler(e)]. *)
Definition try_except {A} (body : M A) (handler : Exn -> M A) : M A :=
  fun w =>
    match body w with
    | (Ok a, w') => (Ok a, w')
    | (Raise e, w') => handler e w'
    end.

(** [try: body finally: cleanup]: the cleanup runs on every exit, and an
    exception of its own replaces the outcome of the body. *)
Definition try_finally {A} (body : M A) (cleanup : M unit) : M A :=
  fun w =>
    match body w with
    | (r, w') =>
        match cleanup w' with
        | (Ok _, w'') => (r, w'')
        | (Raise e, w'') => (Raise e, w'')
        end
    end.

(** [for x in l: body(x)]. *)
Fixpoint for_each {A} (l : list A) (body : A -> M unit) : M unit :=
  match l with
  | [] => ret tt
  | x :: t => bind (body x) (fun _ => for_each t body)
  end.

(** The world after one more request to a provider. *)
Definition record_call (c : ProviderCall) (w : World) : World :=
  {| documents := documents w; document_chunks := document_chunks w;
     documents_id_seq := documents_id_seq w;
     document_chunks_id_seq := document_chunks_id_seq w;
     files := files w; temp_counter := temp_counter w;
     provider_calls := provider_calls w ++ [c] |}.

(** Lift the answer of a provider into the monad, recording the call. *)
Definition call_provider {A} (c : ProviderCall) (answer : Result A) : M A :=
  fun w => (answer, record_call c w).

(** ** Elementary changes of the world *)

Definition insert_document (d : Document.t) (w : World) : World :=
  {| documents := documents w ++ [d];
     document_chunks := document_chunks w;
     documents_id_seq := Document.id d;
     document_chunks_id_seq := document_chunks_id_seq w;
     files := files w; temp_counter := temp_counter w;
     provider_calls := provider_calls w |}.

Definition insert_chunk (c : DocumentChunk.t) (w : World) : World :=
  {| documents := documents w;
     document_chunks := document_chunks w ++ [c];
     documents_id_seq := documents_id_seq w;
     document_chunks_id_seq := DocumentChunk.id c;
     files := files w; temp_counter := temp_counter w;
     provider_calls := provider_calls w |}.

(** The sequence of chunk ids after a row was given an id and then
    refused: the id is not handed out again. *)
Definition skip_chunk_id (w : World) : World :=
  {| documents := documents w;
     document_chunks := document_chunks w;
     documents_id_seq := documents_id_seq w;
     document_chunks_id_seq := (document_chunks_id_seq w + 1)%Z;
     files := files w; temp_counter := temp_counter w;
     provider_calls := provider_calls w |}.

Definition lookup_file (path : string) (w : World) : option FileContent :=
  match find (fun e => String.eqb (fst e) path) (files w) with
  | Some e => Some (snd e)
  | None => None
  end.

Definition create_temp_file (path : string) (content : FileContent)
    (w : World) : World :=
  {| documents := documents w; document_chunks := document_chunks w;
     documents_id_seq := documents_id_seq w;
     document_chunks_id_seq := document_chunks_id_seq w;
     files := (path, content) :: files w;
     temp_counter := S (temp_counter w);
     provider_calls := provider_calls w |}.

Definition remove_file (path : string) (w : World) : World :=
  {| documents := documents w; document_chunks := document_chunks w;
     documents_id_seq := documents_id_seq w;
     document_chunks_id_seq := document_chunks_id_seq w;
     files := filter (fun e => negb (String.eqb (fst e) path)) (files w);
     temp_counter := temp_counter w;
     provider_calls := provider_calls w |}.

(* ================================================================== *)
(** * The collaborators *)

(** [RecursiveCharacterTextSplitter(chunk_size, chunk_overlap,
    length_function=len).split_text(text)]. *)
Class TextSplitter : Type := {
  split_text : forall (chunk_size chunk_overlap : nat) (text : string),
      list string
}.

(** [OpenAIEmbeddings()]. *)
Class EmbeddingProvider : Type := {
  embed_query : string -> Result Embedding;
  embed_documents : list string -> Result (list Embedding)
}.

(** [openai.ChatCompletion.create(...).choices[0].message.content]. *)
Class ChatProvider : Type := {
  chat_completion : forall (model system_prompt user_prompt : string),
      Result string
}.

(** The operator [<=>] of pgvector. *)
Class VectorMetric : Type := {
  cosine_distance : Embedding -> Embedding -> Q
}.

(** The sort of [ORDER BY key LIMIT bound] as the database runs it on the
    rows of a table, given in insertion order: the rows it hands to the
    LIMIT, in the order it hands them over.  The sort is told the bound
    and need not go beyond it. *)
Class QueryEngine : Type := {
  order_by : (DocumentChunk.t -> Q) -> nat -> list DocumentChunk.t ->
             list DocumentChunk.t
}.

(** What SQL promises of ORDER BY under a LIMIT: the first [bound] rows
    handed over are the first [bound] rows of an arrangement of all the
    rows in non-decreasing order of the key.  Nothing is promised about
    rows of equal key. *)
Class OrderByContract (E : QueryEngine) : Prop := {
  order_by_sorted_prefix : forall key bound rows,
      exists sorted,
        Permutation rows sorted
        /\ StronglySorted (fun a b => (key a <= key b)%Q) sorted
        /\ firstn bound (order_by key bound rows) = firstn bound sorted
}.

(** The host: whether [pdftoppm] is found in the PATH and whether
    [pdf2image] could be imported. *)
Class Platform : Type := {
  pdftoppm_in_path : bool;
  PDF2IMAGE_AVAILABLE : bool
}.

(* ================================================================== *)
(** * [backend/utils/document_processor.py] *)

(** The chunk dictionaries passed between the layers; the key
    ["embedding"] is absent until [create_embeddings] sets it. *)
Module Chunk.
Record t : Type := Build {
  text : string;
  page_number : nat;
  chunk_index : nat;
  embedding : option Embedding
}.
End Chunk.

Module ProcessedDoc.
Record t : Type := Build {
  filename : string;
  total_pages : nat;
  chunks : list Chunk.t
}.
End ProcessedDoc.

Definition check_poppler_installed {platform : Platform} : bool :=
  pdftoppm_in_path.

(** [PdfReader(pdf_path)] followed by [pdf_reader.pages]. *)
Definition PdfReader (pdf_path : string) : M (list PdfPage) :=
  fun w =>
    match lookup_file pdf_path w with
    | None => (Raise (FileNotFoundError pdf_path), w)
    | Some None => (Raise (PdfReadError "EOF marker not found"), w)
    | Some (Some pages) => (Ok pages, w)
    end.

(** The body of the loop of [extract_text_from_pdf]: the text appended for
    the page at index [page_num]. *)
Definition extract_page_text (poppler_available : bool) (page_num : nat)
    (page : PdfPage) : string :=
  let text := extract_text page in
  if negb (Py.truthy (Py.strip text)) && poppler_available then
    match ocr page with
    | OcrText s => s
    | OcrNoImage => text
    | OcrRaises _ =>
        ("[Failed to extract text from page "
           ++ Py.str_nat (page_num + 1) ++ "]")%string
    end
  else if negb (Py.truthy (Py.strip text)) && negb poppler_available then
    ("[Text extraction failed for page " ++ Py.str_nat (page_num + 1)
       ++ ". Poppler not available for OCR.]")%string
  else text.

Definition extract_text_from_pdf {platform : Platform} (pdf_path : string)
  : M (list string * nat) :=
  (pages <- PdfReader pdf_path ;;
   let total_pages := List.length pages in
   let poppler_available := check_poppler_installed && PDF2IMAGE_AVAILABLE in
   let page_texts :=
     fold_left
       (fun page_texts '(page_num, page) =>
          page_texts ++ [extract_page_text poppler_available page_num page])
       (Py.enumerate pages) [] in
   ret (page_texts, total_pages))%monad.

(** The inner loop of [chunk_text]: the pieces of one page appended to
    [chunks]. *)
Definition append_page_chunks (page_num : nat) (page_chunks : list string)
    (chunks : list Chunk.t) : list Chunk.t :=
  fold_left
    (fun chunks '(i, chunk_text) =>
       chunks ++ [ {| Chunk.text := chunk_text;
                      Chunk.page_number := page_num + 1;
                      Chunk.chunk_index := i;
                      Chunk.embedding := None |} ])
    (Py.enumerate page_chunks) chunks.

(** The loop of [chunk_text] over the pages. *)
Definition chunk_pages {splitter : TextSplitter} (texts : list string)
    (chunk_size chunk_overlap : nat) : list Chunk.t :=
  fold_left
    (fun chunks '(page_num, page_text) =>
       if negb (Py.truthy page_text) then chunks
       else
         let page_chunks := split_text chunk_size chunk_overlap page_text in
         append_page_chunks page_num page_chunks chunks)
    (Py.enumerate texts) [].

(** [chunk_text]: the splitter is constructed first, and its constructor
    refuses an overlap larger than the chunk size; then the loop runs. *)
Definition chunk_text {splitter : TextSplitter} (texts : list string)
    (chunk_size chunk_overlap : nat) : Result (list Chunk.t) :=
  if chunk_size <? chunk_overlap then
    Raise (ValueError
             ("Got a larger chunk overlap (" ++ Py.str_nat chunk_overlap
                ++ ") than chunk size (" ++ Py.str_nat chunk_size
                ++ "), should be smaller.")%string)
  else Ok (chunk_pages texts chunk_size chunk_overlap).

(** [chunks[i]["embedding"] = embedding]. *)
Fixpoint set_embedding (i : nat) (embedding : Embedding)
    (chunks : list Chunk.t) : Result (list Chunk.t) :=
  match chunks, i with
  | [], _ => Raise (IndexError "list index out of range")
  | c :: t, O =>
      Ok ({| Chunk.text := Chunk.text c;
             Chunk.page_number := Chunk.page_number c;
             Chunk.chunk_index := Chunk.chunk_index c;
             Chunk.embedding := Some embedding |} :: t)
  | c :: t, S j =>
      match set_embedding j embedding t with
      | Ok t' => Ok (c :: t')
      | Raise e => Raise e
      end
  end.

Definition create_embeddings {embedder : EmbeddingProvider}
    (chunks : list Chunk.t)
  : M (list Chunk.t) :=
  (let texts := map Chunk.text chunks in
   chunk_embeddings <- call_provider (EmbedDocuments texts)
                                     (embed_documents texts) ;;
   fun w =>
     (fold_left
        (fun acc '(i, embedding) =>
           match acc with
           | Ok chunks => set_embedding i embedding chunks
           | Raise e => Raise e
           end)
        (Py.enumerate chunk_embeddings) (Ok chunks),
      w))%monad.

Definition process_pdf
    {platform : Platform} {splitter : TextSplitter}
    {embedder : EmbeddingProvider}
    (pdf_path : string) : M ProcessedDoc.t :=
  ('(page_texts, total_pages) <- extract_text_from_pdf pdf_path ;;
   chunks <- lift (chunk_text page_texts 1000 200) ;;
   chunks <- create_embeddings chunks ;;
   let filename := Py.path_name pdf_path in
   ret {| ProcessedDoc.filename := filename;
          ProcessedDoc.total_pages := total_pages;
          ProcessedDoc.chunks := chunks |})%monad.

(* ================================================================== *)
(** * [backend/utils/database.py] *)

(** The largest value of an [Integer] column, which has 32 bits, and of
    a LIMIT, which has 64. *)
Definition INT4_MAX : Z := 2147483647.
Definition INT8_MAX : Z := 9223372036854775807.

Definition in_int4 (z : Z) : bool :=
  ((- INT4_MAX - 1 <=? z) && (z <=? INT4_MAX))%Z.

(** ["\x00" in s]. *)
Definition has_nul (s : string) : bool :=
  existsb (Ascii.eqb Ascii.zero) (list_ascii_of_string s).

(** [store_document]: one session, one commit.  The driver refuses a
    string that holds the character NUL; the database refuses a number of
    pages that does not fit the column, and hands out no id beyond the
    largest of the column.  The session is then closed with nothing
    written.  Otherwise the row gets the next value of the id
    sequence. *)
Definition store_document (filename : string) (total_pages : nat)
  : M Document.t :=
  fun w =>
    if has_nul filename then
      (Raise (ValueError
                "A string literal cannot contain NUL (0x00) characters."), w)
    else if negb (in_int4 (Z.of_nat total_pages)) then
      (Raise (DataError "integer out of range"), w)
    else if (INT4_MAX <=? documents_id_seq w)%Z then
      (Raise (DataError "nextval: reached maximum value of sequence"), w)
    else
      let document :=
        {| Document.id := (documents_id_seq w + 1)%Z;
           Document.filename := filename;
           Document.total_pages := total_pages |} in
      (Ok document, insert_document document w).

Definition document_exists (document_id : Z) (w : World) : bool :=
  existsb (fun d => (Document.id d =? document_id)%Z) (documents w).

(** [store_chunk]: one session, one commit.  The column type refuses a
    vector whose dimension is not its own when the statement is built;
    the driver refuses a text that holds the character NUL; the database
    refuses a number that does not fit its 32-bit column, hands out no
    id beyond the largest of the column, and refuses a [document_id]
    that is the id of no document, which it finds out after the row has
    taken its id.  The session is then closed with no row written. *)
Definition store_chunk (document_id : Z) (text : string)
    (chunk_index page_number : nat) (embedding : Embedding)
  : M DocumentChunk.t :=
  fun w =>
    if negb (List.length embedding =? EMBEDDING_DIM) then
      (Raise (StatementError
                ("expected " ++ Py.str_nat EMBEDDING_DIM
                   ++ " dimensions, not "
                   ++ Py.str_nat (List.length embedding))%string), w)
    else if has_nul text then
      (Raise (ValueError
                "A string literal cannot contain NUL (0x00) characters."), w)
    else if negb (in_int4 document_id && in_int4 (Z.of_nat chunk_index)
                  && in_int4 (Z.of_nat page_number)) then
      (Raise (DataError "integer out of range"), w)
    else if (INT4_MAX <=? document_chunks_id_seq w)%Z then
      (Raise (DataError "nextval: reached maximum value of sequence"), w)
    else if negb (document_exists document_id w) then
      (Raise (IntegrityError
                "violates foreign key constraint on document_id"),
       skip_chunk_id w)
    else
      let chunk :=
        {| DocumentChunk.id := (document_chunks_id_seq w + 1)%Z;
           DocumentChunk.document_id := document_id;
           DocumentChunk.text := text;
           DocumentChunk.chunk_index := chunk_index;
           DocumentChunk.page_number := page_number;
           DocumentChunk.embedding := embedding |} in
      (Ok chunk, insert_chunk chunk w).

(** The key of the ORDER BY clause of [semantic_search]. *)
Definition distance_to {metric : VectorMetric} (query_embedding : Embedding)
    (chunk : DocumentChunk.t) : Q :=
  cosine_distance (DocumentChunk.embedding chunk) query_embedding.

(** [semantic_search]: [ORDER BY embedding <=> query LIMIT limit].  The
    database refuses a LIMIT that does not fit 64 bits and a negative
    LIMIT.  With LIMIT 0 it reads no row.  Otherwise it computes the
    distance of every row, and the operator refuses two vectors of
    different dimensions. *)
Definition semantic_search {metric : VectorMetric} {engine : QueryEngine}
    (query_embedding : Embedding) (limit : Z) : M (list DocumentChunk.t) :=
  fun w =>
    if ((limit <? - INT8_MAX - 1) || (INT8_MAX <? limit))%Z then
      (Raise (DataError "bigint out of range"), w)
    else if (limit <? 0)%Z then
      (Raise (DataError "LIMIT must not be negative"), w)
    else if (0 <? limit)%Z
            && negb (forallb
                       (fun chunk =>
                          List.length (DocumentChunk.embedding chunk)
                          =? List.length query_embedding)
                       (document_chunks w)) then
      (Raise (DataError "different vector dimensions"), w)
    else
      (Ok (firstn (Z.to_nat limit)
             (order_by (distance_to query_embedding) (Z.to_nat limit)
                       (document_chunks w))),
       w).

Definition get_document_details (document_id : Z) : M (option Document.t) :=
  fun w =>
    (Ok (find (fun d => (Document.id d =? document_id)%Z) (documents w)), w).

(* ================================================================== *)
(** * [backend/utils/rag.py] *)

Module Retrieved.
Record t : Type := Build {
  text : string;
  document_id : Z;
  page_number : nat;
  chunk_index : nat
}.
End Retrieved.

Module Source.
Record t : Type := Build {
  document_id : Z;
  page_number : nat;
  text_snippet : string
}.
End Source.

Module Answer.
Record t : Type := Build {
  answer : string;
  sources : list Source.t
}.
End Answer.

Definition nl : string := String (ascii_of_nat 10) EmptyString.
Definition dquote : string := String (ascii_of_nat 34) EmptyString.

Definition generate_query_embedding {embedder : EmbeddingProvider}
    (query : string)
  : M Embedding :=
  call_provider (EmbedQuery query) (embed_query query).

Definition retrieve_relevant_chunks
    {embedder : EmbeddingProvider} {metric : VectorMetric}
    {engine : QueryEngine}
    (query : string) (top_k : Z) : M (list Retrieved.t) :=
  (query_embedding <- generate_query_embedding query ;;
   chunks <- semantic_search query_embedding top_k ;;
   let results :=
     fold_left
       (fun results chunk =>
          results ++ [ {| Retrieved.text := DocumentChunk.text chunk;
                          Retrieved.document_id :=
                            DocumentChunk.document_id chunk;
                          Retrieved.page_number :=
                            DocumentChunk.page_number chunk;
                          Retrieved.chunk_index :=
                            DocumentChunk.chunk_index chunk |} ])
       chunks [] in
   ret results)%monad.

Definition format_context (chunks : list Retrieved.t) : string :=
  let context_parts :=
    fold_left
      (fun context_parts '(_, chunk) =>
         context_parts
           ++ [ ("[Document " ++ Py.str_int (Retrieved.document_id chunk)
                   ++ ", Page " ++ Py.str_nat (Retrieved.page_number chunk)
                   ++ ", Chunk " ++ Py.str_nat (Retrieved.chunk_index chunk)
                   ++ "]" ++ nl ++ Retrieved.text chunk ++ nl)%string ])
      (Py.enumerate chunks) [] in
  Py.join (nl ++ nl) context_parts.

Definition system_prompt : string :=
  ("You are a helpful assistant that answers questions based on "
   ++ "the provided document context."
   ++ nl ++ "Your answers should:"
   ++ nl ++ "1. Be directly based on the context information"
   ++ nl ++ "2. Be comprehensive and detailed"
   ++ nl ++ "3. Include specific references to document numbers "
   ++ "and pages where appropriate"
   ++ nl ++ "4. Say " ++ dquote ++ "I don't know" ++ dquote
   ++ " when the context doesn't contain the answer"
   ++ nl ++ nl
   ++ "Respond to the user's question based ONLY on "
   ++ "the provided context.")%string.

Definition generate_answer {chat : ChatProvider} (query : string)
    (chunks : list Retrieved.t) : M string :=
  let context := format_context chunks in
  let user_prompt :=
    ("Context:" ++ nl ++ context ++ nl ++ nl ++ "Question: " ++ query)%string in
  call_provider (ChatCompletion "gpt-3.5-turbo" system_prompt user_prompt)
                (chat_completion "gpt-3.5-turbo" system_prompt user_prompt).

Definition NO_INFORMATION_ANSWER : string :=
  ("I couldn't find any relevant information in the documents "
   ++ "to answer your question.")%string.

(** The expression given to ["text_snippet"]:
    [text[:200] + "..." if len(text) > 200 else text]. *)
Definition text_snippet_of (text : string) : string :=
  if 200 <? String.length text then (Py.slice_to 200 text ++ "...")%string
  else text.

Definition source_of (chunk : Retrieved.t) : Source.t :=
  {| Source.document_id := Retrieved.document_id chunk;
     Source.page_number := Retrieved.page_number chunk;
     Source.text_snippet := text_snippet_of (Retrieved.text chunk) |}.

Definition answer_query
    {embedder : EmbeddingProvider} {chat : ChatProvider}
    {metric : VectorMetric} {engine : QueryEngine}
    (query : string) : M Answer.t :=
  (chunks <- retrieve_relevant_chunks query 5 ;;
   answer <- match chunks with
             | [] => ret NO_INFORMATION_ANSWER
             | _ :: _ => generate_answer query chunks
             end ;;
   let sources :=
     fold_left (fun sources chunk => sources ++ [source_of chunk]) chunks [] in
   ret {| Answer.answer := answer; Answer.sources := sources |})%monad.

(* ================================================================== *)
(** * [backend/api/main.py]: the endpoint [/ingest] *)

Module UploadFile.
Record t : Type := Build {
  filename : string;
  content : FileContent      (* what [PdfReader] makes of the bytes *)
}.
End UploadFile.

Module Summary.
Record t : Type := Build {
  filename : string;
  total_pages : nat;
  total_chunks : nat
}.
End Summary.

Module IngestResponse.
Record t : Type := Build {
  message : string;
  documents : list Summary.t
}.
End IngestResponse.

Definition HTTP_400_BAD_REQUEST : Z := 400.
Definition HTTP_500_INTERNAL_SERVER_ERROR : Z := 500.

(** [tempfile.NamedTemporaryFile(delete=False, suffix=".pdf")], written
    and closed; the name is fresh. *)
Definition write_temp_file (content : FileContent) : M string :=
  fun w =>
    let temp_path :=
      ("/tmp/tmp" ++ Py.str_nat (temp_counter w) ++ ".pdf")%string in
    (Ok temp_path, create_temp_file temp_path content w).

(** [if os.path.exists(temp_path): os.unlink(temp_path)]. *)
Definition unlink_if_exists (temp_path : string) : M unit :=
  fun w =>
    match lookup_file temp_path w with
    | Some _ => (Ok tt, remove_file temp_path w)
    | None => (Ok tt, w)
    end.

(** [chunk["embedding"]]. *)
Definition get_embedding (chunk : Chunk.t) : M Embedding :=
  match Chunk.embedding chunk with
  | Some e => ret e
  | None => raise (KeyError "embedding")
  end.

(** The loop that stores the chunks of one document. *)
Definition store_chunks (document_id : Z) (chunks : list Chunk.t) : M unit :=
  for_each chunks
    (fun chunk =>
       (embedding <- get_embedding chunk ;;
        store_chunk document_id (Chunk.text chunk) (Chunk.chunk_index chunk)
                    (Chunk.page_number chunk) embedding ;;;
        ret tt)%monad).

(** The body of the [try] block for one uploaded file. *)
Definition process_and_store
    {platform : Platform} {splitter : TextSplitter}
    {embedder : EmbeddingProvider}
    (temp_path : string) : M Summary.t :=
  (processed_doc <- process_pdf temp_path ;;
   document <- store_document (ProcessedDoc.filename processed_doc)
                              (ProcessedDoc.total_pages processed_doc) ;;
   store_chunks (Document.id document) (ProcessedDoc.chunks processed_doc) ;;;
   ret {| Summary.filename := ProcessedDoc.filename processed_doc;
          Summary.total_pages := ProcessedDoc.total_pages processed_doc;
          Summary.total_chunks :=
            List.length (ProcessedDoc.chunks processed_doc) |})%monad.

(** The [except] clause for one uploaded file. *)
Definition processing_error (file : UploadFile.t) (e : Exn) : Exn :=
  let error_message := str_exn e in
  let error_message :=
    if Py.contains "poppler" (Py.lower error_message) then
      (error_message
         ++ ". Is poppler installed and in PATH? Install with "
         ++ "'brew install poppler' on macOS or "
         ++ "'apt-get install poppler-utils' on Linux.")%string
    else error_message in
  HTTPException HTTP_500_INTERNAL_SERVER_ERROR
    ("Error processing " ++ UploadFile.filename file ++ ": "
       ++ error_message)%string.

(** One turn of the loop over the uploaded files. *)
Definition ingest_file
    {platform : Platform} {splitter : TextSplitter}
    {embedder : EmbeddingProvider}
    (file : UploadFile.t) : M Summary.t :=
  (temp_path <- write_temp_file (UploadFile.content file) ;;
   try_finally
     (try_except (process_and_store temp_path)
                 (fun e => raise (processing_error file e)))
     (unlink_if_exists temp_path))%monad.

Fixpoint ingest_files
    {platform : Platform} {splitter : TextSplitter}
    {embedder : EmbeddingProvider}
    (files : list UploadFile.t) (processed_docs : list Summary.t)
  : M (list Summary.t) :=
  match files with
  | [] => ret processed_docs
  | file :: rest =>
      (summary <- ingest_file file ;;
       ingest_files rest (processed_docs ++ [summary]))%monad
  end.

(** The loop that checks the file types. *)
Fixpoint check_file_types (files : list UploadFile.t) : M unit :=
  match files with
  | [] => ret tt
  | file :: rest =>
      if negb (Py.endswith (Py.lower (UploadFile.filename file)) ".pdf") then
        raise (HTTPException HTTP_400_BAD_REQUEST
                 ("File " ++ UploadFile.filename file
                    ++ " is not a PDF")%string)
      else check_file_types rest
  end.

Definition ingest_documents
    {platform : Platform} {splitter : TextSplitter}
    {embedder : EmbeddingProvider}
    (files : list UploadFile.t) : M IngestResponse.t :=
  if List.length files <? 2 then
    raise (HTTPException HTTP_400_BAD_REQUEST
             "Please upload at least 2 PDF files")
  else
    (check_file_types files ;;;
     processed_docs <- ingest_files files [] ;;
     ret {| IngestResponse.message :=
              ("Successfully processed "
                 ++ Py.str_nat (List.length processed_docs)
                 ++ " documents")%string;
            IngestResponse.documents := processed_docs |})%monad.

(* ================================================================== *)
(** * [backend/api/main.py]: the endpoint [/answer] *)

Module AnswerRequest.
Record t : Type := Build {
  question : string
}.
End AnswerRequest.

Definition answer_question
    {embedder : EmbeddingProvider} {chat : ChatProvider}
    {metric : VectorMetric} {engine : QueryEngine}
    (request : AnswerRequest.t) : M Answer.t :=
  if negb (Py.truthy (Py.strip (AnswerRequest.question request))) then
    raise (HTTPException HTTP_400_BAD_REQUEST "Question cannot be empty")
  else
    try_except
      (result <- answer_query (AnswerRequest.question request) ;;
       ret result)%monad
      (fun e =>
         raise (HTTPException HTTP_500_INTERNAL_SERVER_ERROR
                  ("Error generating answer: " ++ str_exn e)%string)).

(* ================================================================== *)
(** * [test_api.py]: the client of [/ingest] *)

(** [os.path.basename(p)]: what follows the last slash. *)
Definition os_path_basename (p : string) : string :=
  Py.path_name_from p p.

(** The loop of the client's [ingest_documents] that prepares the files of
    the request: [None] when it prints an error and returns [False], the
    parts of the multipart request otherwise.  [os.path.exists] and
    [open] read the file system of the world. *)
Fixpoint prepare_files (w : World) (pdf_files : list string)
    (files : list UploadFile.t) : option (list UploadFile.t) :=
  match pdf_files with
  | [] => Some files
  | pdf_file :: rest =>
      match lookup_file pdf_file w with
      | None => None
      | Some content =>
          if negb (Py.endswith (Py.lower pdf_file) ".pdf") then None
          else
            prepare_files w rest
              (files ++ [ {| UploadFile.filename := os_path_basename pdf_file;
                             UploadFile.content := content |} ])
      end
  end.

(** The request the client posts to [/ingest], if it posts one. *)
Definition client_ingest_request (w : World) (pdf_files : list string)
  : option (list UploadFile.t) :=
  if List.length pdf_files <? 2 then None
  else prepare_files w pdf_files [].

(* ================================================================== *)
(** * Concrete collaborators

    Small implementations of the collaborators, used to run the model on
    concrete requests. *)

Module Demo.

(** The library's splitter in the two cases in which what it returns is
    plain.  With a chunk size of at most 1 no piece is short enough to
    be merged, so every character comes back as a piece of its own, as
    it is.  A text shorter than the chunk size is merged back into one
    piece, which is stripped, and dropped when nothing is left.  The
    runs below stay within these two cases; a longer text, which the
    library cuts, comes back in one piece here. *)
Definition recursive_splitter : TextSplitter :=
  {| split_text := fun chunk_size _ text =>
       if chunk_size <=? 1 then
         map (fun c => String c EmptyString) (list_ascii_of_string text)
       else if Py.truthy (Py.strip text) then [Py.strip text]
       else [] |}.

(** A splitter that keeps a page whole, whitespace included. *)
Definition whole_page_splitter : TextSplitter :=
  {| split_text := fun _ _ text => [text] |}.

(** The unit vector of the column's dimension along axis [i]. *)
Definition axis (i : nat) : Embedding :=
  repeat 0%Q i ++ [1%Q] ++ repeat 0%Q (EMBEDDING_DIM - 1 - i).

Fixpoint dot (a b : Embedding) : Q :=
  match a, b with
  | x :: a', y :: b' => (x * y + dot a' b')%Q
  | _, _ => 0%Q
  end.

(** Cosine distance as it is on vectors of length one. *)
Definition unit_metric : VectorMetric :=
  {| cosine_distance := fun a b => (1 - dot a b)%Q |}.

(** Texts about Gamma lie along axis 1, every other text along axis 0. *)
Definition axis_of_text (text : string) : Embedding :=
  if Py.contains "Gamma" text then axis 1 else axis 0.

Definition axis_embedder : EmbeddingProvider :=
  {| embed_query := fun q => Ok (axis_of_text q);
     embed_documents := fun texts => Ok (map axis_of_text texts) |}.

(** A provider whose vectors have the right dimension for the first text
    of a batch only. *)
Definition first_only_embedder : EmbeddingProvider :=
  {| embed_query := fun q => Ok (axis_of_text q);
     embed_documents := fun texts =>
       Ok (match texts with
           | [] => []
           | t :: rest => axis_of_text t :: map (fun _ => [1%Q; 0%Q; 0%Q]) rest
           end) |}.

Definition fixed_chat : ChatProvider :=
  {| chat_completion := fun _ _ _ => Ok "Alpha is the first letter."%string |}.

Definition no_ocr_platform : Platform :=
  {| pdftoppm_in_path := false; PDF2IMAGE_AVAILABLE := true |}.

Definition ocr_platform : Platform :=
  {| pdftoppm_in_path := true; PDF2IMAGE_AVAILABLE := true |}.

(** Insertion sort on the key.  [before kx ky] tells whether a row of key
    [kx] is put in front of a row of key [ky] that was inserted after
    it. *)
Fixpoint insert_row (before : Q -> Q -> bool) (key : DocumentChunk.t -> Q)
    (x : DocumentChunk.t) (l : list DocumentChunk.t) : list DocumentChunk.t :=
  match l with
  | [] => [x]
  | y :: t =>
      if before (key x) (key y) then x :: l
      else y :: insert_row before key x t
  end.

Definition sort_rows (before : Q -> Q -> bool) (key : DocumentChunk.t -> Q)
    (rows : list DocumentChunk.t) : list DocumentChunk.t :=
  fold_right (insert_row before key) [] rows.

Definition Qlt_bool (x y : Q) : bool := negb (Qle_bool y x).

(** A sort of the whole input in which rows of equal key come out
    oldest first. *)
Definition oldest_first_engine : QueryEngine :=
  {| order_by := fun key _ rows => sort_rows Qle_bool key rows |}.

(** ** The sort of PostgreSQL under a LIMIT

    [tuplesort.c], as far as the runs below go.  Once more than twice
    [bound] rows have arrived the sort keeps a heap of [bound] rows, the
    row of largest key on top: the first [bound] rows are inserted into
    the heap, a later row replaces the top when its key is smaller and
    is dropped otherwise, and at the end the heap is emptied from the
    top into the array, largest key last.  With fewer rows the whole
    input is sorted; on an input that is in order already, and on fewer
    than seven rows, that sort moves no row past a row of equal key. *)

(** [memtuples[i] = x]; at [i = len] the array grows by one. *)
Definition set_nth (i : nat) (x : DocumentChunk.t)
    (l : list DocumentChunk.t) : list DocumentChunk.t :=
  firstn i l ++ x :: skipn (S i) l.

(** The loop of [tuplesort_heap_insert]: the hole at [j] moves up until
    the parent's key is not smaller than that of [tuple]. *)
Fixpoint sift_up (fuel : nat) (key : DocumentChunk.t -> Q)
    (tuple : DocumentChunk.t) (j : nat) (heap : list DocumentChunk.t)
  : list DocumentChunk.t :=
  match fuel with
  | O => set_nth j tuple heap
  | S fuel' =>
      if j =? 0 then set_nth j tuple heap
      else
        let i := (j - 1) / 2 in
        let parent := nth i heap tuple in
        if Qle_bool (key tuple) (key parent) then set_nth j tuple heap
        else sift_up fuel' key tuple i (set_nth j parent heap)
  end.

Definition tuplesort_heap_insert (key : DocumentChunk.t -> Q)
    (tuple : DocumentChunk.t) (heap : list DocumentChunk.t)
  : list DocumentChunk.t :=
  sift_up (List.length heap) key tuple (List.length heap) heap.

(** The loop of [tuplesort_heap_replace_top] on the first [n] entries:
    the hole at [i] moves down to the child of larger key until that
    key is not larger than that of [tuple]. *)
Fixpoint sift_down (fuel : nat) (key : DocumentChunk.t -> Q)
    (tuple : DocumentChunk.t) (n i : nat) (heap : list DocumentChunk.t)
  : list DocumentChunk.t :=
  match fuel with
  | O => set_nth i tuple heap
  | S fuel' =>
      let j := 2 * i + 1 in
      if n <=? j then set_nth i tuple heap
      else
        let j :=
          if (j + 1 <? n)
             && Qlt_bool (key (nth j heap tuple))
                         (key (nth (j + 1) heap tuple))
          then j + 1 else j in
        if Qle_bool (key (nth j heap tuple)) (key tuple) then
          set_nth i tuple heap
        else sift_down fuel' key tuple n j (set_nth i (nth j heap tuple) heap)
  end.

Definition tuplesort_heap_replace_top (key : DocumentChunk.t -> Q)
    (tuple : DocumentChunk.t) (n : nat) (heap : list DocumentChunk.t)
  : list DocumentChunk.t :=
  sift_down n key tuple n 0 heap.

(** One more row for the bounded heap. *)
Definition bounded_heap_put (key : DocumentChunk.t -> Q) (bound : nat)
    (heap : list DocumentChunk.t) (tuple : DocumentChunk.t)
  : list DocumentChunk.t :=
  if List.length heap <? bound then tuplesort_heap_insert key tuple heap
  else
    match heap with
    | [] => heap
    | top :: _ =>
        if Qle_bool (key top) (key tuple) then heap
        else tuplesort_heap_replace_top key tuple (List.length heap) heap
    end.

(** [sort_bounded_heap]: the top is taken off [count - 1] times and put
    in the slot that frees up at the end. *)
Fixpoint sort_bounded_heap (count : nat) (key : DocumentChunk.t -> Q)
    (heap : list DocumentChunk.t) : list DocumentChunk.t :=
  match count with
  | O => heap
  | S c =>
      match c, heap with
      | O, _ => heap
      | _, [] => heap
      | _, top :: _ =>
          let last := nth c heap top in
          let heap' := tuplesort_heap_replace_top key last c heap in
          sort_bounded_heap c key (set_nth c top heap')
      end
  end.

Definition tuplesort_engine : QueryEngine :=
  {| order_by := fun key bound rows =>
       if 2 * bound <? List.length rows then
         let heap := fold_left (bounded_heap_put key bound) rows [] in
         sort_bounded_heap (List.length heap) key heap
       else sort_rows Qle_bool key rows |}.

Definition page (text : string) : PdfPage :=
  {| extract_text := text; ocr := OcrNoImage |}.

Definition upload (filename text : string) : UploadFile.t :=
  {| UploadFile.filename := filename;
     UploadFile.content := Some [page text] |}.

Definition doc_a : UploadFile.t := upload "a.pdf" "Alpha Beta".
Definition doc_b : UploadFile.t := upload "b.pdf" "Gamma Delta".

(** A document of two pages. *)
Definition doc_ab : UploadFile.t :=
  {| UploadFile.filename := "ab.pdf";
     UploadFile.content := Some [page "Alpha Beta"; page "Gamma Delta"] |}.

(** A three-page document: text, a page of blanks, an empty page. *)
Definition scanned_pdf : list PdfPage :=
  [ {| extract_text := "Alpha Beta"; ocr := OcrNoImage |};
    {| extract_text := "   "; ocr := OcrRaises "tesseract is not installed" |};
    {| extract_text := ""; ocr := OcrText "Gamma" |} ].

Definition world_with_scan : World :=
  create_temp_file "/tmp/scan.pdf" (Some scanned_pdf) empty_world.

(** The store after the two one-page documents were ingested with pages
    kept whole: one chunk each. *)
Definition two_chunk_world : World :=
  snd (ingest_documents (platform := no_ocr_platform)
         (splitter := whole_page_splitter) (embedder := axis_embedder)
         [doc_a; doc_b] empty_world).

(** The store after the same page was stored twice. *)
Definition twin_world : World :=
  snd (ingest_documents (platform := no_ocr_platform)
         (splitter := whole_page_splitter) (embedder := axis_embedder)
         [doc_a; upload "copy.pdf" "Alpha Beta"] empty_world).

(** A page of 203 characters that ends in three dots. *)
Definition dotted_text : string :=
  (string_of_list_ascii (repeat "a"%char 200) ++ "...")%string.

(** The store after that page and a second document were ingested. *)
Definition dotted_world : World :=
  snd (ingest_documents (platform := no_ocr_platform)
         (splitter := whole_page_splitter) (embedder := axis_embedder)
         [upload "dotted.pdf" dotted_text; doc_b] empty_world).

(** A document of two pages, the text of the second holding a NUL. *)
Definition doc_nul : UploadFile.t :=
  {| UploadFile.filename := "nul.pdf";
     UploadFile.content :=
       Some [ page "Alpha Beta";
              page ("Gamma" ++ String Ascii.zero "Delta") ] |}.

(** The store after the same page was stored five times. *)
Definition five_copies_world : World :=
  snd (ingest_documents (platform := no_ocr_platform)
         (splitter := whole_page_splitter) (embedder := axis_embedder)
         [ upload "a1.pdf" "Alpha Beta"; upload "a2.pdf" "Alpha Beta";
           upload "a3.pdf" "Alpha Beta"; upload "a4.pdf" "Alpha Beta";
           upload "a5.pdf" "Alpha Beta" ] empty_world).

(** An upload of the document of two pages and a second document, with
    the provider whose second vector is too short. *)
Definition interrupted_ingest : Result IngestResponse.t * World :=
  ingest_documents (platform := no_ocr_platform)
    (splitter := recursive_splitter) (embedder := first_only_embedder)
    [doc_ab; doc_b] empty_world.

(** The chunks of two pages of one piece each, as the chunker leaves
    them. *)
Definition two_page_chunks (first second : string) : list Chunk.t :=
  [ {| Chunk.text := first; Chunk.page_number := 1;
       Chunk.chunk_index := 0; Chunk.embedding := None |};
    {| Chunk.text := second; Chunk.page_number := 2;
       Chunk.chunk_index := 0; Chunk.embedding := None |} ].

(** A provider that answers a batch with the vector of its first text
    only. *)
Definition one_vector_embedder : EmbeddingProvider :=
  {| embed_query := fun q => Ok (axis_of_text q);
     embed_documents := fun texts =>
       Ok (match texts with
           | [] => []
           | t :: _ => [axis_of_text t]
           end) |}.

(** The file system of a client: two PDFs in a directory. *)
Definition client_world : World :=
  {| documents := []; document_chunks := [];
     documents_id_seq := 0; document_chunks_id_seq := 0;
     files := [ ("/docs/a.pdf"%string, Some [page "Alpha Beta"]);
                ("/docs/B.PDF"%string, Some [page "Gamma Delta"]) ];
     temp_counter := 0; provider_calls := [] |}.

End Demo.

(* ================================================================== *)
(** * Vocabulary of the properties *)

(** The pieces the splitter is asked for on one page: none for an empty
    page, which the loop of [chunk_text] passes over. *)
Definition page_pieces {splitter : TextSplitter}
    (chunk_size chunk_overlap : nat) (page_text : string) : list string :=
  if Py.truthy page_text then split_text chunk_size chunk_overlap page_text
  else [].

(** The chunks that carry a given page number. *)
Definition chunks_of_page (page_number : nat) (chunks : list Chunk.t)
  : list Chunk.t :=
  filter (fun c => Chunk.page_number c =? page_number) chunks.

(** The provenance of a chunk within its document. *)
Definition provenance (c : Chunk.t) : nat * nat :=
  (Chunk.page_number c, Chunk.chunk_index c).

(** The chunk dictionary made of the piece [snd e] at index [fst e] of the
    page at position [page_num]. *)
Definition chunk_of_piece (page_num : nat) (e : nat * string) : Chunk.t :=
  {| Chunk.text := snd e; Chunk.page_number := page_num + 1;
     Chunk.chunk_index := fst e; Chunk.embedding := None |}.

(** The chunks the page [snd e] at position [fst e] adds to the output. *)
Definition page_block {splitter : TextSplitter} (cs co : nat)
    (e : nat * string) : list Chunk.t :=
  map (chunk_of_piece (fst e)) (Py.enumerate (page_pieces cs co (snd e))).

(** Order and separation of the elements of a list by a rational key. *)
Definition key_le {A} (key : A -> Q) (a b : A) : Prop :=
  (key a <= key b)%Q.

Definition key_apart {A} (key : A -> Q) (a b : A) : Prop :=
  ~ (key a == key b)%Q.

(** The world after the rows were inserted one by one. *)
Definition insert_rows (rows : list DocumentChunk.t) (w : World) : World :=
  fold_left (fun w row => insert_chunk row w) rows w.

(** The row [a] is at most as far from the query as the row [b], by the
    cosine distance of their embeddings to the query embedding. *)
Definition nearer_or_equal {metric : VectorMetric}
    (query_embedding : Embedding) (a b : DocumentChunk.t) : Prop :=
  (cosine_distance (DocumentChunk.embedding a) query_embedding
   <= cosine_distance (DocumentChunk.embedding b) query_embedding)%Q.

(** Two rows rank differently for a query. *)
Definition distinct_distance {metric : VectorMetric}
    (query_embedding : Embedding) (a b : DocumentChunk.t) : Prop :=
  ~ (cosine_distance (DocumentChunk.embedding a) query_embedding
     == cosine_distance (DocumentChunk.embedding b) query_embedding)%Q.

(** [rows] is ranked for a query: distances never decrease along it. *)
Definition ranked {metric : VectorMetric} (query_embedding : Embedding)
    (rows : list DocumentChunk.t) : Prop :=
  StronglySorted (nearer_or_equal query_embedding) rows.

(** The query embedding has the dimension of every stored embedding. *)
Definition same_dimension (query_embedding : Embedding)
    (rows : list DocumentChunk.t) : Prop :=
  Forall (fun row => List.length (DocumentChunk.embedding row)
                     = List.length query_embedding) rows.

(** The caller-facing shape of a stored chunk. *)
Definition retrieved_of (chunk : DocumentChunk.t) : Retrieved.t :=
  {| Retrieved.text := DocumentChunk.text chunk;
     Retrieved.document_id := DocumentChunk.document_id chunk;
     Retrieved.page_number := DocumentChunk.page_number chunk;
     Retrieved.chunk_index := DocumentChunk.chunk_index chunk |}.

(** What the snippet of a source is to the text of its chunk. *)
Definition snippet_of_text (text snippet : string) : Prop :=
  (String.length text <= 200 -> snippet = text)
  /\ (200 < String.length text ->
      snippet = (Py.slice_to 200 text ++ "...")%string
      /\ String.length snippet = 203
      /\ String.prefix (Py.slice_to 200 text) text = true)
  /\ (203 < String.length text -> snippet <> text).

(** A source entry shows a retrieved chunk. *)
Definition source_shows (chunk : Retrieved.t) (source : Source.t) : Prop :=
  Source.document_id source = Retrieved.document_id chunk
  /\ Source.page_number source = Retrieved.page_number chunk
  /\ snippet_of_text (Retrieved.text chunk) (Source.text_snippet source).

(** A chunk dictionary with its key ["embedding"] set. *)
Definition embed_chunk (chunk : Chunk.t) (embedding : Embedding) : Chunk.t :=
  {| Chunk.text := Chunk.text chunk;
     Chunk.page_number := Chunk.page_number chunk;
     Chunk.chunk_index := Chunk.chunk_index chunk;
     Chunk.embedding := Some embedding |}.

(** The chunks with the vectors set position by position, as far as the
    vectors go. *)
Fixpoint embed_chunks (chunks : list Chunk.t) (embeddings : list Embedding)
  : list Chunk.t :=
  match chunks, embeddings with
  | chunk :: chunks', embedding :: embeddings' =>
      embed_chunk chunk embedding :: embed_chunks chunks' embeddings'
  | _, _ => chunks
  end.

(** The row [store_chunk] writes for a chunk dictionary. *)
Definition row_of (id document_id : Z) (chunk : Chunk.t)
    (embedding : Embedding) : DocumentChunk.t :=
  {| DocumentChunk.id := id;
     DocumentChunk.document_id := document_id;
     DocumentChunk.text := Chunk.text chunk;
     DocumentChunk.chunk_index := Chunk.chunk_index chunk;
     DocumentChunk.page_number := Chunk.page_number chunk;
     DocumentChunk.embedding := embedding |}.

(** The store takes a chunk of an existing document when its embedding
    has 1536 entries, its text holds no NUL, the document id, the chunk
    index and the page number fit 32 bits, and an id is left for the
    row.  [last_id] is the last chunk id handed out. *)
Definition store_takes (last_id document_id : Z) (chunk : Chunk.t)
    (embedding : Embedding) : bool :=
  (List.length embedding =? 1536)
  && negb (has_nul (Chunk.text chunk))
  && (- 2147483648 <=? document_id)%Z && (document_id <=? 2147483647)%Z
  && (Z.of_nat (Chunk.chunk_index chunk) <=? 2147483647)%Z
  && (Z.of_nat (Chunk.page_number chunk) <=? 2147483647)%Z
  && (last_id <? 2147483647)%Z.

(** The rows written for the chunks of a document before the first chunk
    that is not stored: one without embedding, or one the store does not
    take. *)
Fixpoint stored_rows (last_id document_id : Z) (chunks : list Chunk.t)
  : list DocumentChunk.t :=
  match chunks with
  | [] => []
  | chunk :: rest =>
      match Chunk.embedding chunk with
      | Some embedding =>
          if store_takes last_id document_id chunk embedding then
            row_of (last_id + 1) document_id chunk embedding
              :: stored_rows (last_id + 1) document_id rest
          else []
      | None => []
      end
  end.

(** The store takes the row of a document when its file name holds no
    NUL, its number of pages fits 32 bits, and an id is left for it. *)
Definition document_taken (filename : string) (total_pages : nat)
    (w : World) : bool :=
  negb (has_nul filename)
  && (Z.of_nat total_pages <=? 2147483647)%Z
  && (documents_id_seq w <? 2147483647)%Z.

(** The row [store_document] writes for a processed document. *)
Definition document_row (w : World) (processed_doc : ProcessedDoc.t)
  : Document.t :=
  {| Document.id := (documents_id_seq w + 1)%Z;
     Document.filename := ProcessedDoc.filename processed_doc;
     Document.total_pages := ProcessedDoc.total_pages processed_doc |}.

(** The path of the temporary file the next upload is written to. *)
Definition next_temp_path (w : World) : string :=
  ("/tmp/tmp" ++ Py.str_nat (temp_counter w) ++ ".pdf")%string.

(** Every stored chunk refers to a stored document. *)
Definition referential_integrity (w : World) : Prop :=
  Forall (fun c =>
            document_exists (DocumentChunk.document_id c) w = true)
         (document_chunks w).

(** Two worlds hold the same database. *)
Definition same_database (w w' : World) : Prop :=
  documents w' = documents w
  /\ document_chunks w' = document_chunks w
  /\ documents_id_seq w' = documents_id_seq w
  /\ document_chunks_id_seq w' = document_chunks_id_seq w.

(** The entry of one retrieved chunk in the context of the prompt. *)
Definition context_entry (chunk : Retrieved.t) : string :=
  ("[Document " ++ Py.str_int (Retrieved.document_id chunk)
     ++ ", Page " ++ Py.str_nat (Retrieved.page_number chunk)
     ++ ", Chunk " ++ Py.str_nat (Retrieved.chunk_index chunk)
     ++ "]" ++ nl ++ Retrieved.text chunk ++ nl)%string.

(** The prompt sent for a question with a given context. *)
Definition user_prompt_of (context query : string) : string :=
  ("Context:" ++ nl ++ context ++ nl ++ nl ++ "Question: " ++ query)%string.

(** The ids handed out so far bound the keys of both tables. *)
Definition keys_bounded (w : World) : Prop :=
  Forall (fun d => (Document.id d <= documents_id_seq w)%Z) (documents w)
  /\ Forall (fun c => (DocumentChunk.id c <= document_chunks_id_seq w)%Z)
            (document_chunks w).

(** No two rows of a table share their primary key. *)
Definition primary_keys_unique (w : World) : Prop :=
  NoDup (map Document.id (documents w))
  /\ NoDup (map DocumentChunk.id (document_chunks w)).

(** The path of the temporary file number [n]. *)
Definition temp_path_of (n : nat) : string :=
  ("/tmp/tmp" ++ Py.str_nat n ++ ".pdf")%string.

(** The names of the temporary files still to come are not taken. *)
Definition temp_names_fresh (w : World) : Prop :=
  forall n, temp_counter w <= n -> lookup_file (temp_path_of n) w = None.

(** The summary returned for a processed document. *)
Definition summary_of (processed_doc : ProcessedDoc.t) : Summary.t :=
  {| Summary.filename := ProcessedDoc.filename processed_doc;
     Summary.total_pages := ProcessedDoc.total_pages processed_doc;
     Summary.total_chunks :=
       List.length (ProcessedDoc.chunks processed_doc) |}.

(** A file name the endpoint takes for a PDF. *)
Definition has_pdf_name (file : UploadFile.t) : bool :=
  Py.endswith (Py.lower (UploadFile.filename file)) ".pdf".

(** Both tables are well keyed: keys bounded by the sequences and
    unique. *)
Definition well_keyed (w : World) : Prop :=
  keys_bounded w /\ primary_keys_unique w.

(** Two worlds hold the same files and name temporary files alike. *)
Definition same_files (w w' : World) : Prop :=
  files w' = files w /\ temp_counter w' = temp_counter w.

(** The world in which one turn of the ingestion loop ends, before its
    temporary file is removed. *)
Definition world_before_cleanup
    {platform : Platform} {splitter : TextSplitter}
    {embedder : EmbeddingProvider} (file : UploadFile.t) (w : World)
  : World :=
  let temp_path := next_temp_path w in
  let started := create_temp_file temp_path (UploadFile.content file) w in
  match process_pdf temp_path started with
  | (Ok processed_doc, w1) =>
      if document_taken (ProcessedDoc.filename processed_doc)
                        (ProcessedDoc.total_pages processed_doc) w1
      then
        let document := document_row w1 processed_doc in
        insert_rows
          (stored_rows (document_chunks_id_seq w1) (Document.id document)
                       (ProcessedDoc.chunks processed_doc))
          (insert_document document w1)
      else w1
  | (Raise _, w1) => w1
  end.


(* ================================================================== *)
(** * Facts about Python strings *)

Module PyFacts.

Lemma lstrip_chars_whitespace l :
  forallb Py.isspace l = true -> Py.lstrip_chars l = [].
Proof.
  induction l as [|c l IH]; simpl; [reflexivity|].
  destruct (Py.isspace c); simpl; [exact IH | discriminate].
Qed.

Lemma lstrip_chars_nil l :
  Py.lstrip_chars l = [] -> forallb Py.isspace l = true.
Proof.
  induction l as [|c l IH]; simpl; [reflexivity|].
  destruct (Py.isspace c); simpl; [exact IH | discriminate].
Qed.

Lemma forallb_rev {A} (f : A -> bool) l :
  forallb f (rev l) = forallb f l.
Proof.
  destruct (forallb f l) eqn:E.
  - rewrite forallb_forall in *. intros x Hx. apply E. now apply in_rev.
  - destruct (forallb f (rev l)) eqn:E'; [|reflexivity].
    rewrite <- E. symmetry. rewrite forallb_forall in *.
    intros x Hx. apply E'. now apply in_rev in Hx.
Qed.

Lemma lstrip_chars_keeps_whitespace l :
  forallb Py.isspace (Py.lstrip_chars l) = true ->
  forallb Py.isspace l = true.
Proof.
  induction l as [|c l IH]; simpl; [reflexivity|].
  destruct (Py.isspace c) eqn:E; simpl; [exact IH|].
  rewrite E. discriminate.
Qed.

Lemma string_of_list_ascii_empty l :
  string_of_list_ascii l = EmptyString -> l = [].
Proof. destruct l; [reflexivity | discriminate]. Qed.

(** [s.strip()] is empty exactly when [s] holds whitespace only. *)
Lemma strip_empty_iff s :
  Py.strip s = EmptyString <-> Py.whitespace_only s = true.
Proof.
  unfold Py.strip, Py.whitespace_only. split.
  - intros H. apply string_of_list_ascii_empty in H.
    apply (f_equal (@rev ascii)) in H. rewrite rev_involutive in H.
    simpl in H. apply lstrip_chars_nil in H. rewrite forallb_rev in H.
    now apply lstrip_chars_keeps_whitespace.
  - intros H. now rewrite (lstrip_chars_whitespace _ H).
Qed.

Lemma truthy_false s : Py.truthy s = false <-> s = EmptyString.
Proof.
  unfold Py.truthy. rewrite negb_false_iff. apply String.eqb_eq.
Qed.

Lemma length_append s1 s2 :
  String.length (s1 ++ s2) = String.length s1 + String.length s2.
Proof. induction s1 as [|c s1 IH]; simpl; [reflexivity | now rewrite IH]. Qed.

Lemma length_slice_to n s :
  n <= String.length s -> String.length (Py.slice_to n s) = n.
Proof.
  unfold Py.slice_to. revert s; induction n as [|n IH]; intros s Hn.
  - destruct s; reflexivity.
  - destruct s as [|c s]; simpl in *; [lia|]. rewrite IH; [reflexivity|lia].
Qed.

Lemma slice_to_prefix n s :
  String.prefix (Py.slice_to n s) s = true.
Proof.
  unfold Py.slice_to. revert s; induction n as [|n IH]; intros s.
  - destruct s; reflexivity.
  - destruct s as [|c s]; simpl; [reflexivity|].
    destruct (ascii_dec c c); [apply IH | congruence].
Qed.

End PyFacts.

(* ================================================================== *)
(** * Properties of the chunker *)

Section Chunker.

Context {splitter : TextSplitter}.

Lemma enumerate_from_fst {A} (l : list A) start :
  map fst (Py.enumerate_from start l) = seq start (List.length l).
Proof.
  revert start; induction l as [|x l IH]; intros start; simpl;
    [reflexivity | now rewrite IH].
Qed.

Lemma enumerate_from_snd {A} (l : list A) start :
  map snd (Py.enumerate_from start l) = l.
Proof.
  revert start; induction l as [|x l IH]; intros start; simpl;
    [reflexivity | now rewrite IH].
Qed.

Lemma append_page_chunks_from page_num pieces start chunks :
  fold_left
    (fun chunks '(i, chunk_text) =>
       chunks ++ [ {| Chunk.text := chunk_text;
                      Chunk.page_number := page_num + 1;
                      Chunk.chunk_index := i;
                      Chunk.embedding := None |} ])
    (Py.enumerate_from start pieces) chunks
  = chunks ++ map (chunk_of_piece page_num) (Py.enumerate_from start pieces).
Proof.
  revert start chunks; induction pieces as [|s pieces IH];
    intros start chunks; simpl.
  - now rewrite app_nil_r.
  - rewrite IH, <- app_assoc. reflexivity.
Qed.

Lemma append_page_chunks_eq page_num pieces chunks :
  append_page_chunks page_num pieces chunks
  = chunks ++ map (chunk_of_piece page_num) (Py.enumerate pieces).
Proof. apply append_page_chunks_from. Qed.

Lemma chunk_text_from cs co texts start chunks :
  fold_left
    (fun chunks '(page_num, page_text) =>
       if negb (Py.truthy page_text) then chunks
       else
         let page_chunks := split_text cs co page_text in
         append_page_chunks page_num page_chunks chunks)
    (Py.enumerate_from start texts) chunks
  = chunks ++ flat_map (page_block cs co) (Py.enumerate_from start texts).
Proof.
  revert start chunks; induction texts as [|t texts IH];
    intros start chunks; simpl.
  - now rewrite app_nil_r.
  - rewrite IH. unfold page_block at 2, page_pieces; simpl.
    destruct (Py.truthy t); simpl.
    + rewrite append_page_chunks_eq, <- app_assoc. reflexivity.
    + reflexivity.
Qed.

Lemma chunk_pages_eq texts cs co :
  chunk_pages texts cs co
  = flat_map (page_block cs co) (Py.enumerate texts).
Proof.
  unfold chunk_pages, Py.enumerate. now rewrite chunk_text_from.
Qed.

Lemma chunk_text_eq texts cs co :
  co <= cs -> chunk_text texts cs co = Ok (chunk_pages texts cs co).
Proof.
  intros Hle. unfold chunk_text.
  destruct (Nat.ltb_spec cs co); [lia | reflexivity].
Qed.

Lemma chunk_text_refuses texts cs co :
  cs < co -> exists msg, chunk_text texts cs co = Raise (ValueError msg).
Proof.
  intros Hlt. unfold chunk_text.
  destruct (Nat.ltb_spec cs co); [eexists; reflexivity | lia].
Qed.

Lemma page_block_page_number cs co e c :
  In c (page_block cs co e) -> Chunk.page_number c = fst e + 1.
Proof.
  unfold page_block. rewrite in_map_iff. intros (x & <- & _). reflexivity.
Qed.

Lemma filter_none {A} (f : A -> bool) l :
  (forall x, In x l -> f x = false) -> filter f l = [].
Proof.
  induction l as [|x l IH]; simpl; intros Hf; [reflexivity|].
  rewrite (Hf x (or_introl eq_refl)). apply IH. intros; apply Hf; now right.
Qed.

Lemma filter_all {A} (f : A -> bool) l :
  (forall x, In x l -> f x = true) -> filter f l = l.
Proof.
  induction l as [|x l IH]; simpl; intros Hf; [reflexivity|].
  rewrite (Hf x (or_introl eq_refl)). f_equal. apply IH.
  intros; apply Hf; now right.
Qed.

Lemma chunks_of_page_block_same cs co p t :
  chunks_of_page (p + 1) (page_block cs co (p, t)) = page_block cs co (p, t).
Proof.
  apply filter_all. intros c Hc. apply page_block_page_number in Hc.
  simpl in Hc. now apply Nat.eqb_eq.
Qed.

Lemma chunks_of_page_block_other cs co p q t :
  p <> q -> chunks_of_page (q + 1) (page_block cs co (p, t)) = [].
Proof.
  intros Hpq. apply filter_none. intros c Hc.
  apply page_block_page_number in Hc. simpl in Hc.
  apply Nat.eqb_neq. lia.
Qed.

Lemma chunks_of_page_from cs co texts start q :
  chunks_of_page (q + 1)
    (flat_map (page_block cs co) (Py.enumerate_from start texts))
  = if start <=? q
    then page_block cs co (q, nth (q - start) texts ""%string)
    else [].
Proof.
  revert start; induction texts as [|t texts IH]; intros start; simpl.
  - destruct (start <=? q); [|reflexivity].
    destruct (q - start); reflexivity.
  - unfold chunks_of_page in *. rewrite filter_app, IH. clear IH.
    fold (chunks_of_page (q + 1) (page_block cs co (start, t))).
    destruct (Nat.eq_dec start q) as [->|Hne].
    + rewrite chunks_of_page_block_same.
      destruct (Nat.leb_spec (Datatypes.S q) q); [lia|].
      destruct (Nat.leb_spec q q); [|lia].
      rewrite Nat.sub_diag, app_nil_r. reflexivity.
    + rewrite chunks_of_page_block_other by exact Hne.
      destruct (Nat.leb_spec (Datatypes.S start) q), (Nat.leb_spec start q);
        try lia; [|reflexivity].
      replace (q - start) with (Datatypes.S (q - Datatypes.S start)) by lia.
      reflexivity.
Qed.

(** The chunks of the page at position [p] (counted from 0) are the
    pieces of that page, numbered from 0. *)
Lemma chunks_of_page_chunk_pages texts cs co p :
  chunks_of_page (p + 1) (chunk_pages texts cs co)
  = map (chunk_of_piece p)
        (Py.enumerate (page_pieces cs co (nth p texts ""%string))).
Proof.
  rewrite chunk_pages_eq. unfold Py.enumerate at 1.
  rewrite chunks_of_page_from. simpl. now rewrite Nat.sub_0_r.
Qed.

Lemma provenance_block_from cs co texts start :
  NoDup (map provenance
           (flat_map (page_block cs co) (Py.enumerate_from start texts)))
  /\ Forall (fun c => start + 1 <= Chunk.page_number c
                      <= start + List.length texts)
            (flat_map (page_block cs co) (Py.enumerate_from start texts)).
Proof.
  revert start; induction texts as [|t texts IH]; intros start; simpl.
  - split; constructor.
  - destruct (IH (Datatypes.S start)) as [IHn IHf]. split.
    + rewrite map_app. apply NoDup_app; [| exact IHn |].
      * unfold page_block; simpl. rewrite map_map.
        apply (NoDup_map_inv snd). rewrite map_map; simpl.
        rewrite (map_ext _ fst) by reflexivity.
        unfold Py.enumerate. rewrite enumerate_from_fst. apply seq_NoDup.
      * intros pr Hin1 Hin2.
        apply in_map_iff in Hin1 as (c1 & <- & Hc1).
        apply in_map_iff in Hin2 as (c2 & Heq & Hc2).
        apply page_block_page_number in Hc1; simpl in Hc1.
        rewrite Forall_forall in IHf. apply IHf in Hc2.
        unfold provenance in Heq. injection Heq as Hp _. lia.
    + apply Forall_app; split.
      * apply Forall_forall. intros c Hc.
        apply page_block_page_number in Hc; simpl in Hc. lia.
      * eapply Forall_impl; [| exact IHf]. simpl. intros c Hc. lia.
Qed.

Lemma chunk_pages_texts texts cs co p :
  map Chunk.text (chunks_of_page (p + 1) (chunk_pages texts cs co))
  = page_pieces cs co (nth p texts ""%string).
Proof.
  rewrite chunks_of_page_chunk_pages, map_map; simpl.
  rewrite (map_ext _ snd) by reflexivity. apply enumerate_from_snd.
Qed.

(** C6. For every sequence of page texts, every chunk size and every
    overlap that is not larger, [chunk_text] returns a list of chunks,
    and for every page position [p] (counted from 0) the chunks it tags
    with page number [p + 1] are exactly the pieces of the page at
    position [p], in order, and their [chunk_index] values are 0, 1, 2,
    ... without gap or repetition; every chunk carries the 1-based
    number of a page of the input, and no two chunks share
    (page_number, chunk_index). *)
Theorem chunk_text_contiguous_indices
    (texts : list string) (chunk_size chunk_overlap p : nat) :
  chunk_overlap <= chunk_size ->
  exists chunks,
    chunk_text texts chunk_size chunk_overlap = Ok chunks
    /\ let pieces :=
         page_pieces chunk_size chunk_overlap (nth p texts ""%string) in
       map Chunk.text (chunks_of_page (p + 1) chunks) = pieces
       /\ map Chunk.chunk_index (chunks_of_page (p + 1) chunks)
          = seq 0 (List.length pieces)
       /\ Forall (fun c => 1 <= Chunk.page_number c <= List.length texts)
                 chunks
       /\ NoDup (map provenance chunks).
Proof.
  intros Hle. exists (chunk_pages texts chunk_size chunk_overlap).
  split; [now apply chunk_text_eq|].
  intros pieces; subst pieces.
  split; [apply chunk_pages_texts|].
  rewrite chunks_of_page_chunk_pages, !map_map; simpl.
  split; [| split].
  - rewrite (map_ext _ fst) by reflexivity. apply enumerate_from_fst.
  - rewrite chunk_pages_eq.
    apply (provenance_block_from chunk_size chunk_overlap texts 0).
  - rewrite chunk_pages_eq.
    apply (provenance_block_from chunk_size chunk_overlap texts 0).
Qed.

(** C7, as amended. For every sequence of page texts and every splitter:
    with an overlap larger than the chunk size [chunk_text] raises
    ValueError, whatever the pages; otherwise it returns a list of
    chunks in which an empty page has no chunk, while a page that is
    not empty, a page of whitespace included, is handed to the splitter
    and has exactly the pieces the splitter returns for it: a page of
    whitespace is without chunk if and only if the splitter returns no
    piece for it. *)
Theorem chunk_text_blank_pages
    (texts : list string) (chunk_size chunk_overlap p : nat) :
  let page_text := nth p texts ""%string in
  (chunk_size < chunk_overlap ->
   exists msg,
     chunk_text texts chunk_size chunk_overlap = Raise (ValueError msg))
  /\ (chunk_overlap <= chunk_size ->
      exists chunks,
        chunk_text texts chunk_size chunk_overlap = Ok chunks
        /\ (page_text = ""%string -> chunks_of_page (p + 1) chunks = [])
        /\ (page_text <> ""%string ->
            map Chunk.text (chunks_of_page (p + 1) chunks)
            = split_text chunk_size chunk_overlap page_text)
        /\ (Py.whitespace_only page_text = true ->
            page_text <> ""%string ->
            (chunks_of_page (p + 1) chunks = []
             <-> split_text chunk_size chunk_overlap page_text = []))).
Proof.
  intros page_text. split; [apply chunk_text_refuses|].
  intros Hle. exists (chunk_pages texts chunk_size chunk_overlap).
  split; [now apply chunk_text_eq|].
  pose proof (chunk_pages_texts texts chunk_size chunk_overlap p) as Htexts.
  fold page_text in Htexts. unfold page_pieces in Htexts.
  split; [| split].
  - intros Hempty. rewrite Hempty in Htexts. cbn in Htexts.
    now apply map_eq_nil in Htexts.
  - intros Hne. destruct (Py.truthy page_text) eqn:Ht; [exact Htexts|].
    apply PyFacts.truthy_false in Ht. contradiction.
  - intros _ Hne. destruct (Py.truthy page_text) eqn:Ht.
    2:{ apply PyFacts.truthy_false in Ht. contradiction. }
    rewrite <- Htexts. split.
    + intros ->. reflexivity.
    + apply map_eq_nil.
Qed.

End Chunker.

(* ================================================================== *)
(** * Properties of text extraction *)

Section Extraction.

Context {platform : Platform}.

Lemma nth_error_enumerate_from {A} (l : list A) start i x :
  nth_error l i = Some x ->
  nth_error (Py.enumerate_from start l) i = Some (start + i, x).
Proof.
  revert start i; induction l as [|y l IH]; intros start [|i] H;
    simpl in *; try discriminate.
  - injection H as ->. now rewrite Nat.add_0_r.
  - rewrite (IH (Datatypes.S start) i H). f_equal. f_equal. lia.
Qed.

Lemma length_enumerate_from {A} (l : list A) start :
  List.length (Py.enumerate_from start l) = List.length l.
Proof.
  revert start; induction l as [|y l IH]; intros start; simpl;
    [reflexivity | now rewrite IH].
Qed.

Lemma extract_loop_from avail pages start page_texts :
  fold_left
    (fun page_texts '(page_num, page) =>
       page_texts ++ [extract_page_text avail page_num page])
    (Py.enumerate_from start pages) page_texts
  = page_texts
      ++ map (fun e => extract_page_text avail (fst e) (snd e))
             (Py.enumerate_from start pages).
Proof.
  revert start page_texts; induction pages as [|pg pages IH];
    intros start page_texts; simpl.
  - now rewrite app_nil_r.
  - rewrite IH, <- app_assoc. reflexivity.
Qed.

Lemma extract_page_text_direct avail i page :
  Py.strip (extract_text page) <> EmptyString ->
  extract_page_text avail i page = extract_text page.
Proof.
  intros Hne. unfold extract_page_text.
  destruct (Py.truthy (Py.strip (extract_text page))) eqn:E;
    [reflexivity|].
  apply PyFacts.truthy_false in E. contradiction.
Qed.

Lemma extract_page_text_no_ocr i page :
  Py.strip (extract_text page) = EmptyString ->
  extract_page_text false i page
  = ("[Text extraction failed for page " ++ Py.str_nat (i + 1)
       ++ ". Poppler not available for OCR.]")%string.
Proof.
  intros He. unfold extract_page_text. rewrite He. reflexivity.
Qed.

Lemma extract_page_text_ocr_raises i page msg :
  Py.strip (extract_text page) = EmptyString ->
  ocr page = OcrRaises msg ->
  extract_page_text true i page
  = ("[Failed to extract text from page " ++ Py.str_nat (i + 1)
       ++ "]")%string.
Proof.
  intros He Ho. unfold extract_page_text. rewrite He, Ho. reflexivity.
Qed.

(** C10. For every PDF the reader can parse, [extract_text_from_pdf]
    returns the pair (page_texts, total_pages) where total_pages is the
    number of pages and page_texts has exactly that length, its entry
    at position i being the text of page i: the text read directly when
    it is not blank; when it is blank, the placeholder naming the page
    if OCR is unavailable or raises.  No page is left without an
    entry, and the world is unchanged. *)
Theorem extract_text_from_pdf_one_text_per_page
    (pdf_path : string) (pages : list PdfPage) (w : World) :
  lookup_file pdf_path w = Some (Some pages) ->
  let poppler_available := check_poppler_installed && PDF2IMAGE_AVAILABLE in
  exists page_texts,
    extract_text_from_pdf pdf_path w
    = (Ok (page_texts, List.length pages), w)
    /\ List.length page_texts = List.length pages
    /\ forall i page, nth_error pages i = Some page ->
         exists text,
           nth_error page_texts i = Some text
           /\ (Py.strip (extract_text page) <> EmptyString ->
               text = extract_text page)
           /\ (Py.strip (extract_text page) = EmptyString ->
               poppler_available = false ->
               text = ("[Text extraction failed for page "
                         ++ Py.str_nat (i + 1)
                         ++ ". Poppler not available for OCR.]")%string)
           /\ (Py.strip (extract_text page) = EmptyString ->
               poppler_available = true ->
               forall msg, ocr page = OcrRaises msg ->
               text = ("[Failed to extract text from page "
                         ++ Py.str_nat (i + 1) ++ "]")%string).
Proof.
  intros Hfile poppler_available.
  unfold extract_text_from_pdf, bind, PdfReader, ret. rewrite Hfile.
  fold poppler_available. unfold Py.enumerate.
  rewrite extract_loop_from. simpl.
  eexists. split; [reflexivity|]. split.
  - now rewrite length_map, length_enumerate_from.
  - intros i page Hi.
    exists (extract_page_text poppler_available i page). split.
    + rewrite nth_error_map,
        (nth_error_enumerate_from pages 0 i Hi). reflexivity.
    + split; [| split].
      * intros Hne. now apply extract_page_text_direct.
      * intros He ->. now apply extract_page_text_no_ocr.
      * intros He -> msg Ho. now apply extract_page_text_ocr_raises with msg.
Qed.

End Extraction.

(* ================================================================== *)
(** * Properties of the vector store *)

Section SortedLists.

Variable A : Type.
Variable key : A -> Q.

Lemma StronglySorted_firstn (R : A -> A -> Prop) n l :
  StronglySorted R l -> StronglySorted R (firstn n l).
Proof.
  intros Hs; revert n; induction Hs as [|a l Hs IH Hf]; intros [|n];
    simpl; try constructor.
  - apply IH.
  - rewrite Forall_forall in *. intros x Hx. apply Hf.
    eapply (In_nth_error) in Hx as [i Hi].
    rewrite nth_error_firstn in Hi. destruct (i <? n); [|discriminate].
    eapply nth_error_In; exact Hi.
Qed.

Lemma StronglySorted_app_le (R : A -> A -> Prop) l1 l2 :
  StronglySorted R (l1 ++ l2) ->
  forall a b, In a l1 -> In b l2 -> R a b.
Proof.
  induction l1 as [|x l1 IH]; simpl; intros Hs a b Ha Hb; [contradiction|].
  apply StronglySorted_inv in Hs as [Hs Hx].
  destruct Ha as [<- | Ha].
  - rewrite Forall_forall in Hx. apply Hx, in_or_app. now right.
  - now apply IH.
Qed.

Lemma key_apart_sym a b : key_apart key a b -> key_apart key b a.
Proof. unfold key_apart. intros H E. apply H. now symmetry. Qed.

Lemma ForallOrdPairs_apart_perm l l' :
  Permutation l l' ->
  ForallOrdPairs (key_apart key) l -> ForallOrdPairs (key_apart key) l'.
Proof.
  induction 1 as [| x l l' Hp IH | x y l | l l' l'' _ IH1 _ IH2];
    intros Hfop.
  - constructor.
  - inversion Hfop as [|? ? Hx Hl]; subst. constructor.
    + now rewrite <- Hp.
    + now apply IH.
  - inversion Hfop as [|? ? Hy Hxl]; subst.
    inversion Hxl as [|? ? Hx Hl]; subst.
    inversion Hy as [|? ? Hyx Hyl]; subst.
    constructor; [constructor; [now apply key_apart_sym | exact Hx]|].
    constructor; assumption.
  - auto.
Qed.

(** A list without two elements of equal key has one sorted
    arrangement only. *)
Lemma sorted_arrangement_unique l1 :
  forall l2,
    Permutation l1 l2 ->
    StronglySorted (key_le key) l1 -> StronglySorted (key_le key) l2 ->
    ForallOrdPairs (key_apart key) l1 ->
    l1 = l2.
Proof.
  induction l1 as [|a l1 IH]; intros l2 Hp Hs1 Hs2 Hd.
  - symmetry. now apply Permutation_nil.
  - destruct l2 as [|b l2].
    { apply Permutation_sym, Permutation_nil in Hp. discriminate. }
    apply StronglySorted_inv in Hs1 as [Hs1 Ha].
    apply StronglySorted_inv in Hs2 as [Hs2 Hb].
    inversion Hd as [|? ? Hda Hd1]; subst.
    assert (Hab : a = b).
    { assert (Hin_a : In a (b :: l2))
        by (eapply Permutation_in; [exact Hp | now left]).
      assert (Hin_b : In b (a :: l1))
        by (eapply Permutation_in;
            [apply Permutation_sym; exact Hp | now left]).
      destruct Hin_b as [Heq | Hin_b]; [exact Heq|].
      destruct Hin_a as [Heq | Hin_a]; [now symmetry|].
      exfalso.
      rewrite Forall_forall in Ha, Hb, Hda.
      apply (Hda b Hin_b). apply Qle_antisym.
      - apply (Ha b Hin_b).
      - apply (Hb a Hin_a). }
    subst b. f_equal. apply IH; try assumption.
    eapply Permutation_cons_inv; exact Hp.
Qed.

End SortedLists.

Section VectorStore.

Context {metric : VectorMetric}.

Lemma same_dimension_forallb query_embedding rows :
  forallb (fun chunk =>
             List.length (DocumentChunk.embedding chunk)
             =? List.length query_embedding) rows = true
  <-> same_dimension query_embedding rows.
Proof.
  unfold same_dimension. rewrite forallb_forall, Forall_forall.
  split; intros H row Hrow; apply Nat.eqb_eq; now apply H.
Qed.

Lemma semantic_search_runs {engine : QueryEngine}
    query_embedding limit w :
  (0 <= limit <= 9223372036854775807)%Z ->
  same_dimension query_embedding (document_chunks w) ->
  semantic_search query_embedding limit w
  = (Ok (firstn (Z.to_nat limit)
           (order_by (distance_to query_embedding) (Z.to_nat limit)
                     (document_chunks w))),
     w).
Proof.
  intros Hl Hdim. unfold semantic_search.
  destruct (Z.ltb_spec limit (- INT8_MAX - 1)); [unfold INT8_MAX in *; lia|].
  destruct (Z.ltb_spec INT8_MAX limit); [unfold INT8_MAX in *; lia|].
  destruct (Z.ltb_spec limit 0); [lia|]. cbn [orb].
  apply same_dimension_forallb in Hdim. rewrite Hdim.
  cbn [negb]. now rewrite andb_false_r.
Qed.

Lemma semantic_search_zero {engine : QueryEngine} query_embedding w :
  semantic_search query_embedding 0 w = (Ok [], w).
Proof. reflexivity. Qed.

Lemma semantic_search_negative {engine : QueryEngine}
    query_embedding limit w :
  (limit < 0)%Z ->
  exists msg,
    semantic_search query_embedding limit w = (Raise (DataError msg), w).
Proof.
  intros Hl. unfold semantic_search.
  destruct (_ || _)%bool; [eexists; reflexivity|].
  destruct (Z.ltb_spec limit 0); [eexists; reflexivity | lia].
Qed.

Lemma semantic_search_refuses {engine : QueryEngine}
    query_embedding limit w :
  (1 <= limit)%Z ->
  (9223372036854775807 < limit)%Z
  \/ ~ same_dimension query_embedding (document_chunks w) ->
  exists msg,
    semantic_search query_embedding limit w = (Raise (DataError msg), w).
Proof.
  intros Hl Hbad. unfold semantic_search.
  destruct (Z.ltb_spec limit (- INT8_MAX - 1)); [unfold INT8_MAX in *; lia|].
  destruct (Z.ltb_spec INT8_MAX limit) as [|Hfits];
    [eexists; reflexivity|].
  destruct Hbad as [Hlarge | Hdim]; [unfold INT8_MAX in *; lia|].
  destruct (Z.ltb_spec limit 0); [lia|].
  destruct (Z.ltb_spec 0 limit); [|lia]. cbn [orb andb].
  destruct (forallb _ _) eqn:Hall; [|eexists; reflexivity].
  apply same_dimension_forallb in Hall. contradiction.
Qed.

Lemma semantic_search_world {engine : QueryEngine}
    query_embedding limit w :
  snd (semantic_search query_embedding limit w) = w.
Proof.
  unfold semantic_search.
  destruct (_ || _)%bool; [reflexivity|].
  destruct (limit <? 0)%Z; [reflexivity|].
  destruct (_ && _)%bool; reflexivity.
Qed.

Lemma semantic_search_length {engine : QueryEngine}
    query_embedding limit w rows :
  fst (semantic_search query_embedding limit w) = Ok rows ->
  List.length rows <= Z.to_nat limit.
Proof.
  unfold semantic_search.
  destruct (_ || _)%bool; [discriminate|].
  destruct (limit <? 0)%Z; [discriminate|].
  destruct (_ && _)%bool; [discriminate|].
  cbn [fst]. intros H; injection H as <-. apply firstn_le_length.
Qed.

Lemma semantic_search_empty
    {engine : QueryEngine} {contract : OrderByContract engine}
    query_embedding limit w :
  (0 <= limit <= 9223372036854775807)%Z ->
  document_chunks w = [] ->
  semantic_search query_embedding limit w = (Ok [], w).
Proof.
  intros Hl Hempty. rewrite semantic_search_runs;
    [| exact Hl | rewrite Hempty; constructor].
  rewrite Hempty.
  destruct (order_by_sorted_prefix (distance_to query_embedding)
              (Z.to_nat limit) []) as (sorted & Hperm & _ & ->).
  apply Permutation_nil in Hperm. subst sorted. now rewrite firstn_nil.
Qed.

(** C5, as amended. For every store holding N chunks and every k with
    k >= 1 and k > N: when k fits the 64 bits of a LIMIT and the query
    embedding has the dimension of the stored embeddings, the search
    returns without error all N chunks, each once, ranked by distance to
    the query, and the empty list when the store is empty; when k does
    not fit, or the store holds an embedding of another dimension than
    the query, the search ends in an error of the database.  The store
    is left as it was. *)
Theorem semantic_search_limit_beyond_count
    {engine : QueryEngine} {contract : OrderByContract engine}
    (query_embedding : Embedding) (k : Z) (w : World) :
  (1 <= k)%Z ->
  (Z.of_nat (List.length (document_chunks w)) < k)%Z ->
  ((k <= 9223372036854775807)%Z ->
   same_dimension query_embedding (document_chunks w) ->
   exists rows,
     semantic_search query_embedding k w = (Ok rows, w)
     /\ Permutation (document_chunks w) rows
     /\ List.length rows = List.length (document_chunks w)
     /\ ranked query_embedding rows
     /\ (document_chunks w = [] -> rows = []))
  /\ ((9223372036854775807 < k)%Z
      \/ ~ same_dimension query_embedding (document_chunks w) ->
      exists msg,
        semantic_search query_embedding k w = (Raise (DataError msg), w)).
Proof.
  intros Hk HN. split; [| now apply semantic_search_refuses].
  intros Hfits Hdim.
  destruct (order_by_sorted_prefix (distance_to query_embedding)
              (Z.to_nat k) (document_chunks w))
    as (sorted & Hperm & Hsorted & Hprefix).
  exists sorted.
  assert (Hall : firstn (Z.to_nat k) sorted = sorted).
  { apply firstn_all2. rewrite <- (Permutation_length Hperm). lia. }
  split; [| split; [| split; [| split]]].
  - rewrite semantic_search_runs by (try lia; exact Hdim).
    now rewrite Hprefix, Hall.
  - exact Hperm.
  - symmetry. now apply Permutation_length.
  - exact Hsorted.
  - intros He. rewrite He in Hperm. now apply Permutation_nil.
Qed.

(** X1. The search returns the nearest chunks. For every store, every
    limit k from 0 to the largest a LIMIT can hold, and every query
    embedding that has the dimension of the stored embeddings, the
    search returns without error the first k rows of the ranking (all
    rows when the store holds fewer): the rows returned and the rows
    left out make up the store, the rows returned are ranked by cosine
    distance to the query, and no row left out is nearer to the query
    than a row returned.  The store is left as it was. *)
Theorem semantic_search_returns_nearest
    {engine : QueryEngine} {contract : OrderByContract engine}
    (query_embedding : Embedding) (limit : Z) (w : World) :
  (0 <= limit <= 9223372036854775807)%Z ->
  same_dimension query_embedding (document_chunks w) ->
  exists rows rest,
    semantic_search query_embedding limit w = (Ok rows, w)
    /\ Permutation (document_chunks w) (rows ++ rest)
    /\ List.length rows
       = Nat.min (Z.to_nat limit) (List.length (document_chunks w))
    /\ ranked query_embedding rows
    /\ forall a b, In a rows -> In b rest ->
         (cosine_distance (DocumentChunk.embedding a) query_embedding
          <= cosine_distance (DocumentChunk.embedding b) query_embedding)%Q.
Proof.
  intros Hl Hdim.
  destruct (order_by_sorted_prefix (distance_to query_embedding)
              (Z.to_nat limit) (document_chunks w))
    as (sorted & Hperm & Hsorted & Hprefix).
  exists (firstn (Z.to_nat limit) sorted), (skipn (Z.to_nat limit) sorted).
  split; [rewrite semantic_search_runs by assumption; now rewrite Hprefix|].
  split; [now rewrite firstn_skipn|].
  split; [rewrite length_firstn, <- (Permutation_length Hperm); reflexivity|].
  split; [now apply StronglySorted_firstn|].
  intros a b Ha Hb.
  rewrite <- (firstn_skipn (Z.to_nat limit) sorted) in Hsorted.
  exact (StronglySorted_app_le _ _ Hsorted a b Ha Hb).
Qed.

(** C3, as amended. For every store whose chunks lie at pairwise
    different cosine distances from the query, the search has one
    possible outcome: whatever sort meets the contract of ORDER BY, the
    rows returned are the first [limit] rows of the one arrangement of
    the stored chunks by increasing distance.  The code fixes no order
    among chunks at equal distance: which of them come first is left to
    the sort of the database. *)
Theorem semantic_search_unique_without_ties
    {engine : QueryEngine} {contract : OrderByContract engine}
    (query_embedding : Embedding) (limit : Z) (w : World)
    (arrangement : list DocumentChunk.t) :
  (0 <= limit <= 9223372036854775807)%Z ->
  same_dimension query_embedding (document_chunks w) ->
  ForallOrdPairs (distinct_distance query_embedding) (document_chunks w) ->
  Permutation (document_chunks w) arrangement ->
  ranked query_embedding arrangement ->
  semantic_search query_embedding limit w
  = (Ok (firstn (Z.to_nat limit) arrangement), w).
Proof.
  intros Hl Hdim Hd Hperm Hranked.
  destruct (order_by_sorted_prefix (distance_to query_embedding)
              (Z.to_nat limit) (document_chunks w))
    as (sorted & Hperm' & Hsorted & Hprefix).
  rewrite semantic_search_runs by assumption. rewrite Hprefix.
  do 3 f_equal.
  apply sorted_arrangement_unique with (key := distance_to query_embedding).
  - eapply Permutation_trans; [apply Permutation_sym; exact Hperm'|].
    exact Hperm.
  - exact Hsorted.
  - exact Hranked.
  - eapply ForallOrdPairs_apart_perm; [exact Hperm' | exact Hd].
Qed.

End VectorStore.

(** ** The sort of the whole input meets the contract of ORDER BY *)

Section InsertionSort.

Variable before : Q -> Q -> bool.
Hypothesis before_true : forall x y, before x y = true -> (x <= y)%Q.
Hypothesis before_false : forall x y, before x y = false -> (y <= x)%Q.

Variable key : DocumentChunk.t -> Q.

Lemma insert_row_permutation x l :
  Permutation (x :: l) (Demo.insert_row before key x l).
Proof.
  induction l as [|y l IH]; simpl; [apply Permutation_refl|].
  destruct (before (key x) (key y)); [apply Permutation_refl|].
  eapply Permutation_trans; [apply perm_swap|]. now apply perm_skip.
Qed.

Lemma sort_rows_permutation rows :
  Permutation rows (Demo.sort_rows before key rows).
Proof.
  induction rows as [|x rows IH]; simpl; [constructor|].
  eapply Permutation_trans; [apply perm_skip, IH|].
  apply insert_row_permutation.
Qed.

Lemma insert_row_sorted x l :
  StronglySorted (fun a b => (key a <= key b)%Q) l ->
  StronglySorted (fun a b => (key a <= key b)%Q)
                 (Demo.insert_row before key x l).
Proof.
  induction 1 as [|y l Hs IH Hy]; simpl.
  - repeat constructor.
  - destruct (before (key x) (key y)) eqn:E.
    + apply before_true in E. constructor; [now constructor|].
      constructor; [exact E|].
      eapply Forall_impl; [| exact Hy]. simpl; intros b Hb.
      now apply Qle_trans with (key y).
    + apply before_false in E. constructor; [exact IH|].
      rewrite <- (insert_row_permutation x l).
      now constructor.
Qed.

Lemma sort_rows_sorted rows :
  StronglySorted (fun a b => (key a <= key b)%Q)
                 (Demo.sort_rows before key rows).
Proof.
  induction rows as [|x rows IH]; simpl; [constructor|].
  now apply insert_row_sorted.
Qed.

End InsertionSort.

Lemma oldest_first_contract : OrderByContract Demo.oldest_first_engine.
Proof.
  assert (Ht : forall x y, Qle_bool x y = true -> (x <= y)%Q)
    by (intros x y; apply Qle_bool_iff).
  assert (Hf : forall x y, Qle_bool x y = false -> (y <= x)%Q).
  { intros x y E. apply Qlt_le_weak, Qnot_le_lt. intros Hle.
    apply Qle_bool_iff in Hle. congruence. }
  split; intros key bound rows; simpl.
  exists (Demo.sort_rows Qle_bool key rows).
  split; [apply sort_rows_permutation|].
  split; [now apply sort_rows_sorted | reflexivity].
Qed.

(* ================================================================== *)
(** * Properties of retrieval and answering *)

Lemma fold_left_append_map {A B} (f : A -> B) (l : list A) (acc : list B) :
  fold_left (fun acc x => acc ++ [f x]) l acc = acc ++ map f l.
Proof.
  revert acc; induction l as [|x l IH]; intros acc; simpl.
  - now rewrite app_nil_r.
  - rewrite IH, <- app_assoc. reflexivity.
Qed.

Section Retrieval.

Context {embedder : EmbeddingProvider} {chat : ChatProvider}.
Context {metric : VectorMetric} {engine : QueryEngine}.

Lemma retrieve_relevant_chunks_eq query top_k w :
  retrieve_relevant_chunks query top_k w
  = match embed_query query with
    | Raise e => (Raise e, record_call (EmbedQuery query) w)
    | Ok query_embedding =>
        match semantic_search query_embedding top_k
                (record_call (EmbedQuery query) w) with
        | (Ok chunks, w') => (Ok (map retrieved_of chunks), w')
        | (Raise e, w') => (Raise e, w')
        end
    end.
Proof.
  unfold retrieve_relevant_chunks, bind, generate_query_embedding,
    call_provider, ret.
  destruct (embed_query query); [|reflexivity].
  destruct (semantic_search _ _ _) as [[chunks|e] w']; [|reflexivity].
  rewrite (fold_left_append_map retrieved_of). reflexivity.
Qed.

(** C4, as amended. For every question whose embedding the provider
    returns: with top_k = 0 the retrieve operation returns the empty
    list, not an error; with top_k < 0 it ends in the error of the
    store, which refuses a negative LIMIT.  In both cases the question
    has been sent to the embedding provider first: there is no
    validation of top_k ahead of the pipeline. *)
Theorem retrieve_relevant_chunks_nonpositive_top_k
    (query : string) (top_k : Z) (w : World) (query_embedding : Embedding) :
  (top_k <= 0)%Z ->
  embed_query query = Ok query_embedding ->
  (top_k = 0%Z ->
   retrieve_relevant_chunks query top_k w
   = (Ok [], record_call (EmbedQuery query) w))
  /\ ((top_k < 0)%Z ->
      exists msg,
        retrieve_relevant_chunks query top_k w
        = (Raise (DataError msg), record_call (EmbedQuery query) w)).
Proof.
  intros Hk He. rewrite retrieve_relevant_chunks_eq, He. split.
  - intros ->. now rewrite semantic_search_zero.
  - intros Hneg.
    destruct (semantic_search_negative query_embedding
                (record_call (EmbedQuery query) w) Hneg) as [msg ->].
    now exists msg.
Qed.

Lemma text_snippet_of_spec text :
  snippet_of_text text (text_snippet_of text).
Proof.
  unfold snippet_of_text, text_snippet_of.
  destruct (Nat.ltb_spec 200 (String.length text)) as [Hlong | Hshort].
  - split; [lia|]. split.
    + intros _. split; [reflexivity|]. split.
      * rewrite PyFacts.length_append, PyFacts.length_slice_to by lia.
        reflexivity.
      * apply PyFacts.slice_to_prefix.
    + intros Hl Heq. apply (f_equal String.length) in Heq.
      rewrite PyFacts.length_append, PyFacts.length_slice_to in Heq by lia.
      simpl in Heq. lia.
  - split; [reflexivity|]. split; lia.
Qed.

Lemma sources_show_chunks chunks :
  Forall2 source_shows chunks (map source_of chunks).
Proof.
  induction chunks as [|c chunks IH]; simpl; constructor; [|exact IH].
  split; [reflexivity | split; [reflexivity | apply text_snippet_of_spec]].
Qed.

(** C8, as amended. For every non-empty retrieval result for which the
    language model answers, the sources of the response are the
    retrieved chunks, one entry each in the same order, carrying the
    document id and page number of the chunk and a text snippet: the
    full text when it has at most 200 characters, otherwise its first
    200 characters followed by three dots, 203 characters in all, which
    is not the stored text when that is longer than 203 characters. *)
Theorem answer_query_sources
    (query : string) (w w1 w2 : World)
    (chunks : list Retrieved.t) (answer : string) :
  retrieve_relevant_chunks query 5 w = (Ok chunks, w1) ->
  chunks <> [] ->
  generate_answer query chunks w1 = (Ok answer, w2) ->
  exists sources,
    answer_query query w
    = (Ok {| Answer.answer := answer; Answer.sources := sources |}, w2)
    /\ Forall2 source_shows chunks sources.
Proof.
  intros Hr Hne Hg. exists (map source_of chunks).
  split; [| apply sources_show_chunks].
  unfold answer_query, bind. rewrite Hr.
  destruct chunks as [|c chunks]; [contradiction|].
  rewrite Hg. unfold ret.
  rewrite (fold_left_append_map source_of). reflexivity.
Qed.

(** X5. One generation request, and its failure is not the fallback. For every
    non-empty retrieval result, [answer_query] sends exactly one request
    to the language model, after the retrieval; when that request fails
    the exception is raised to the caller, and the fallback answer is
    returned for an empty retrieval result only. *)
Theorem answer_query_single_generation_request
    (query : string) (w w1 : World) (chunks : list Retrieved.t) :
  retrieve_relevant_chunks query 5 w = (Ok chunks, w1) ->
  chunks <> [] ->
  exists user_prompt,
    provider_calls (snd (answer_query query w))
    = provider_calls w1
        ++ [ChatCompletion "gpt-3.5-turbo" system_prompt user_prompt]
    /\ (forall e,
          chat_completion "gpt-3.5-turbo" system_prompt user_prompt = Raise e ->
          fst (answer_query query w) = Raise e)
    /\ (forall response,
          fst (answer_query query w) = Ok response ->
          chat_completion "gpt-3.5-turbo" system_prompt user_prompt
          = Ok (Answer.answer response)).
Proof.
  intros Hr Hne.
  destruct chunks as [|c chunks]; [contradiction|].
  eexists. unfold answer_query, bind. rewrite Hr.
  unfold generate_answer, call_provider.
  split; [| split].
  - destruct (chat_completion _ _ _); reflexivity.
  - intros e He. now rewrite He.
  - intros response. destruct (chat_completion _ _ _); cbn [fst ret].
    + intros H. injection H as <-. reflexivity.
    + discriminate.
Qed.

Context {contract : OrderByContract engine}.

(** C1. For every query against a store without chunks, once the
    provider has returned the embedding of the question, [answer_query]
    returns the fixed fallback answer with an empty list of sources and
    raises nothing; the only request sent to a provider is that
    embedding request, so the language model is not called. *)
Theorem answer_query_empty_corpus
    (query : string) (w : World) (query_embedding : Embedding) :
  document_chunks w = [] ->
  embed_query query = Ok query_embedding ->
  answer_query query w
  = (Ok {| Answer.answer := NO_INFORMATION_ANSWER; Answer.sources := [] |},
     record_call (EmbedQuery query) w)
  /\ filter is_chat_completion
       (provider_calls (snd (answer_query query w)))
     = filter is_chat_completion (provider_calls w).
Proof.
  intros Hempty He.
  assert (Heq : answer_query query w
                = (Ok {| Answer.answer := NO_INFORMATION_ANSWER;
                         Answer.sources := [] |},
                   record_call (EmbedQuery query) w)).
  { unfold answer_query, bind.
    rewrite retrieve_relevant_chunks_eq, He.
    rewrite semantic_search_empty by (try lia; exact Hempty).
    reflexivity. }
  split; [exact Heq|].
  rewrite Heq. simpl. rewrite filter_app. simpl. apply app_nil_r.
Qed.


End Retrieval.

(* ================================================================== *)
(** * Properties of batch embedding *)

Section BatchEmbedding.

Context {embedder : EmbeddingProvider}.

Lemma set_embedding_at prefix chunk rest embedding :
  set_embedding (List.length prefix) embedding (prefix ++ chunk :: rest)
  = Ok (prefix ++ embed_chunk chunk embedding :: rest).
Proof.
  induction prefix as [|c prefix IH]; simpl; [reflexivity|].
  now rewrite IH.
Qed.

Lemma assign_embeddings_from embeddings :
  forall prefix suffix,
    List.length embeddings <= List.length suffix ->
    fold_left
      (fun acc '(i, embedding) =>
         match acc with
         | Ok chunks => set_embedding i embedding chunks
         | Raise e => Raise e
         end)
      (Py.enumerate_from (List.length prefix) embeddings)
      (Ok (prefix ++ suffix))
    = Ok (prefix ++ embed_chunks suffix embeddings).
Proof.
  induction embeddings as [|embedding embeddings IH];
    intros prefix suffix Hlen.
  - destruct suffix; reflexivity.
  - destruct suffix as [|chunk suffix]; simpl in Hlen; [lia|].
    cbn [Py.enumerate_from fold_left embed_chunks].
    rewrite set_embedding_at.
    replace (Datatypes.S (List.length prefix))
      with (List.length (prefix ++ [embed_chunk chunk embedding]))
      by (rewrite length_app; simpl; lia).
    replace (prefix ++ embed_chunk chunk embedding :: suffix)
      with ((prefix ++ [embed_chunk chunk embedding]) ++ suffix)
      by (now rewrite <- app_assoc).
    rewrite IH by lia. now rewrite <- app_assoc.
Qed.

Lemma embed_chunks_fields chunks :
  forall embeddings,
    List.length embeddings = List.length chunks ->
    map Chunk.embedding (embed_chunks chunks embeddings) = map Some embeddings
    /\ map Chunk.text (embed_chunks chunks embeddings) = map Chunk.text chunks
    /\ map provenance (embed_chunks chunks embeddings)
       = map provenance chunks.
Proof.
  induction chunks as [|chunk chunks IH]; intros [|embedding embeddings] Hlen;
    simpl in Hlen; try discriminate; [repeat split|].
  destruct (IH embeddings) as (He & Ht & Hp); [lia|].
  cbn [embed_chunks map]. rewrite He, Ht, Hp. repeat split.
Qed.

(** X4. Batch embedding keeps order and correspondence. For every list of
    chunks for which the provider returns as many vectors as there are
    chunks, [create_embeddings] sends one request holding the texts of
    the chunks in order and returns the same chunks in the same order,
    the chunk at position i carrying the vector at position i, with
    text, page number and index unchanged. *)
Theorem create_embeddings_in_order
    (chunks : list Chunk.t) (embeddings : list Embedding) (w : World) :
  embed_documents (map Chunk.text chunks) = Ok embeddings ->
  List.length embeddings = List.length chunks ->
  exists embedded,
    create_embeddings chunks w
    = (Ok embedded, record_call (EmbedDocuments (map Chunk.text chunks)) w)
    /\ map Chunk.embedding embedded = map Some embeddings
    /\ map Chunk.text embedded = map Chunk.text chunks
    /\ map provenance embedded = map provenance chunks.
Proof.
  intros Hprovider Hlen. exists (embed_chunks chunks embeddings).
  split; [| now apply embed_chunks_fields].
  unfold create_embeddings, bind, call_provider. rewrite Hprovider.
  unfold Py.enumerate.
  pose proof (assign_embeddings_from embeddings [] chunks) as Hfold.
  cbn [List.length app] in Hfold. rewrite Hfold by lia. reflexivity.
Qed.

End BatchEmbedding.

(* ================================================================== *)
(** * Properties of ingestion *)

Section Ingestion.

Context {platform : Platform} {splitter : TextSplitter}.
Context {embedder : EmbeddingProvider}.

(** C9. For every request that uploads exactly one file, whatever the
    file, [ingest_documents] raises the HTTP error 400 asking for at
    least two PDF files and leaves the world exactly as it was: no
    temporary file, no request to a provider, no row in the store. *)
Theorem ingest_documents_rejects_single_upload
    (file : UploadFile.t) (w : World) :
  ingest_documents [file] w
  = (Raise (HTTPException HTTP_400_BAD_REQUEST
              "Please upload at least 2 PDF files"), w).
Proof.
  unfold ingest_documents.
  change (List.length [file]) with 1.
  destruct (Nat.ltb_spec 1 2) as [_ | Habsurd]; [reflexivity | lia].
Qed.

Lemma same_database_refl w : same_database w w.
Proof. repeat split. Qed.

Lemma same_database_trans w1 w2 w3 :
  same_database w1 w2 -> same_database w2 w3 -> same_database w1 w3.
Proof.
  unfold same_database. intros (a & b & c & d) (a' & b' & c' & d').
  repeat split; congruence.
Qed.

Lemma process_pdf_same_database pdf_path w :
  same_database w (snd (process_pdf pdf_path w)).
Proof.
  unfold process_pdf, bind, extract_text_from_pdf, bind, PdfReader, ret.
  destruct (lookup_file pdf_path w) as [[pages|]|]; simpl;
    try apply same_database_refl.
  unfold create_embeddings, bind, call_provider.
  destruct (embed_documents _); simpl; [|repeat split].
  destruct (fold_left _ _ _); simpl; repeat split.
Qed.

Lemma unlink_if_exists_same_database temp_path w :
  same_database w (snd (unlink_if_exists temp_path w))
  /\ fst (unlink_if_exists temp_path w) = Ok tt.
Proof.
  unfold unlink_if_exists. destruct (lookup_file temp_path w); simpl;
    repeat split.
Qed.

Lemma insert_rows_database rows w :
  documents (insert_rows rows w) = documents w
  /\ document_chunks (insert_rows rows w) = document_chunks w ++ rows.
Proof.
  revert w; induction rows as [|row rows IH]; intros w; simpl.
  - now rewrite app_nil_r.
  - destruct (IH (insert_chunk row w)) as [Hd Hc]. split.
    + rewrite Hd. reflexivity.
    + rewrite Hc. simpl. now rewrite <- app_assoc.
Qed.

Lemma store_document_cases filename total_pages w :
  let document :=
    {| Document.id := (documents_id_seq w + 1)%Z;
       Document.filename := filename;
       Document.total_pages := total_pages |} in
  (document_taken filename total_pages w = true ->
   store_document filename total_pages w
   = (Ok document, insert_document document w))
  /\ (document_taken filename total_pages w = false ->
      exists e, store_document filename total_pages w = (Raise e, w)).
Proof.
  intros document. unfold store_document, document_taken, in_int4.
  destruct (has_nul filename); cbn [negb andb].
  { split; [discriminate | intros _; eexists; reflexivity]. }
  destruct (Z.leb_spec (- INT4_MAX - 1) (Z.of_nat total_pages));
    [| unfold INT4_MAX in *; lia].
  destruct (Z.leb_spec (Z.of_nat total_pages) INT4_MAX),
    (Z.leb_spec (Z.of_nat total_pages) 2147483647);
    try (unfold INT4_MAX in *; lia); cbn [negb andb].
  2:{ split; [discriminate | intros _; eexists; reflexivity]. }
  destruct (Z.leb_spec INT4_MAX (documents_id_seq w)),
    (Z.ltb_spec (documents_id_seq w) 2147483647);
    try (unfold INT4_MAX in *; lia).
  - split; [discriminate | intros _; eexists; reflexivity].
  - split; [reflexivity | discriminate].
Qed.

Lemma store_chunk_cases document_id chunk embedding w :
  let row :=
    row_of (document_chunks_id_seq w + 1) document_id chunk embedding in
  (store_takes (document_chunks_id_seq w) document_id chunk embedding
   = true ->
   document_exists document_id w = true ->
   store_chunk document_id (Chunk.text chunk) (Chunk.chunk_index chunk)
               (Chunk.page_number chunk) embedding w
   = (Ok row, insert_chunk row w))
  /\ (store_takes (document_chunks_id_seq w) document_id chunk embedding
      = false ->
      exists e,
        store_chunk document_id (Chunk.text chunk) (Chunk.chunk_index chunk)
                    (Chunk.page_number chunk) embedding w
        = (Raise e, w)).
Proof.
  intros row. unfold store_chunk, store_takes, in_int4, EMBEDDING_DIM.
  destruct (List.length embedding =? 1536); cbn [negb andb].
  2:{ split; [discriminate | intros _; eexists; reflexivity]. }
  destruct (has_nul (Chunk.text chunk)); cbn [negb andb].
  { split; [discriminate | intros _; eexists; reflexivity]. }
  destruct (Z.leb_spec (- INT4_MAX - 1) document_id),
    (Z.leb_spec (-2147483648) document_id);
    try (unfold INT4_MAX in *; lia); cbn [negb andb].
  2:{ split; [discriminate | intros _; eexists; reflexivity]. }
  destruct (Z.leb_spec document_id INT4_MAX),
    (Z.leb_spec document_id 2147483647);
    try (unfold INT4_MAX in *; lia); cbn [negb andb].
  2:{ split; [discriminate | intros _; eexists; reflexivity]. }
  destruct (Z.leb_spec (- INT4_MAX - 1) (Z.of_nat (Chunk.chunk_index chunk)));
    [| unfold INT4_MAX in *; lia].
  destruct (Z.leb_spec (Z.of_nat (Chunk.chunk_index chunk)) INT4_MAX),
    (Z.leb_spec (Z.of_nat (Chunk.chunk_index chunk)) 2147483647);
    try (unfold INT4_MAX in *; lia); cbn [negb andb].
  2:{ split; [discriminate | intros _; eexists; reflexivity]. }
  destruct (Z.leb_spec (- INT4_MAX - 1) (Z.of_nat (Chunk.page_number chunk)));
    [| unfold INT4_MAX in *; lia].
  destruct (Z.leb_spec (Z.of_nat (Chunk.page_number chunk)) INT4_MAX),
    (Z.leb_spec (Z.of_nat (Chunk.page_number chunk)) 2147483647);
    try (unfold INT4_MAX in *; lia); cbn [negb andb].
  2:{ split; [discriminate | intros _; eexists; reflexivity]. }
  destruct (Z.leb_spec INT4_MAX (document_chunks_id_seq w)),
    (Z.ltb_spec (document_chunks_id_seq w) 2147483647);
    try (unfold INT4_MAX in *; lia).
  - split; [discriminate | intros _; eexists; reflexivity].
  - split; [| discriminate]. intros _ ->. reflexivity.
Qed.

Lemma store_chunks_cons document_id chunk rest w :
  store_chunks document_id (chunk :: rest) w
  = match Chunk.embedding chunk with
    | None => (Raise (KeyError "embedding"), w)
    | Some embedding =>
        match store_chunk document_id (Chunk.text chunk)
                (Chunk.chunk_index chunk) (Chunk.page_number chunk)
                embedding w with
        | (Ok _, w') => store_chunks document_id rest w'
        | (Raise e, w') => (Raise e, w')
        end
    end.
Proof.
  unfold store_chunks. cbn [for_each]. unfold bind, get_embedding, ret, raise.
  destruct (Chunk.embedding chunk); [|reflexivity].
  destruct (store_chunk _ _ _ _ _ _) as [[?|?] ?]; reflexivity.
Qed.

Lemma store_chunks_spec document_id chunks w :
  document_exists document_id w = true ->
  snd (store_chunks document_id chunks w)
  = insert_rows
      (stored_rows (document_chunks_id_seq w) document_id chunks) w
  /\ (is_ok (fst (store_chunks document_id chunks w)) = true
      <-> List.length
            (stored_rows (document_chunks_id_seq w) document_id chunks)
          = List.length chunks).
Proof.
  revert w; induction chunks as [|chunk rest IH]; intros w Hdoc.
  - split; [reflexivity | split; reflexivity].
  - rewrite store_chunks_cons. cbn [stored_rows].
    destruct (Chunk.embedding chunk) as [embedding|].
    2:{ split; [reflexivity | split; discriminate]. }
    destruct (store_chunk_cases document_id chunk embedding w)
      as [Htaken Hrefused].
    destruct (store_takes _ _ _ _).
    2:{ destruct (Hrefused eq_refl) as [e ->].
        split; [reflexivity | split; discriminate]. }
    rewrite (Htaken eq_refl Hdoc).
    destruct (IH (insert_chunk
                    (row_of (document_chunks_id_seq w + 1) document_id
                            chunk embedding) w) Hdoc) as [IHw IHr].
    split.
    + exact IHw.
    + unfold row_of in IHr. rewrite IHr. cbn [List.length insert_chunk
        document_chunks_id_seq DocumentChunk.id]. split; intros H; lia.
Qed.

(** A chunk without embedding stops the loop, wherever the rows go. *)
Lemma store_chunks_missing_embedding n :
  forall document_id chunks chunk w,
    nth_error chunks n = Some chunk ->
    Chunk.embedding chunk = None ->
    is_ok (fst (store_chunks document_id chunks w)) = false.
Proof.
  induction n as [|n IH]; intros document_id [|c chunks] chunk w Hn He;
    simpl in Hn; try discriminate; rewrite store_chunks_cons.
  - injection Hn as ->. now rewrite He.
  - destruct (Chunk.embedding c) as [embedding|]; [|reflexivity].
    destruct (store_chunk _ _ _ _ _ _) as [[row|e] w1]; [|reflexivity].
    eapply IH; eassumption.
Qed.

Lemma stored_rows_document_id last_id document_id chunks :
  Forall (fun row => DocumentChunk.document_id row = document_id)
         (stored_rows last_id document_id chunks).
Proof.
  revert last_id; induction chunks as [|chunk rest IH]; intros last_id;
    simpl; [constructor|].
  destruct (Chunk.embedding chunk) as [embedding|]; [|constructor].
  destruct (store_takes _ _ _ _); constructor;
    [reflexivity | apply IH].
Qed.

Lemma document_exists_after_insert document w :
  document_exists (Document.id document) (insert_document document w)
  = true.
Proof.
  unfold document_exists. simpl. rewrite existsb_app. simpl.
  rewrite Z.eqb_refl. apply orb_true_iff. right. reflexivity.
Qed.

Lemma unlink_if_exists_eq temp_path w :
  unlink_if_exists temp_path w
  = (Ok tt, snd (unlink_if_exists temp_path w)).
Proof.
  unfold unlink_if_exists. destruct (lookup_file temp_path w); reflexivity.
Qed.

(** One turn of the loop, step by step. *)
Lemma ingest_file_eq file w :
  ingest_file file w
  = let temp_path := next_temp_path w in
    let started := create_temp_file temp_path (UploadFile.content file) w in
    match process_and_store temp_path started with
    | (Raise e, w1) =>
        (Raise (processing_error file e),
         snd (unlink_if_exists temp_path w1))
    | (Ok summary, w1) =>
        (Ok summary, snd (unlink_if_exists temp_path w1))
    end.
Proof.
  unfold ingest_file, write_temp_file, try_finally, try_except, bind, raise.
  fold (next_temp_path w). cbv zeta.
  destruct (process_and_store _ _) as [[summary|e] w1];
    rewrite unlink_if_exists_eq; reflexivity.
Qed.

(** The body of the [try] block, step by step. *)
Lemma process_and_store_eq temp_path w :
  process_and_store temp_path w
  = match process_pdf temp_path w with
    | (Raise e, w1) => (Raise e, w1)
    | (Ok processed_doc, w1) =>
        if document_taken (ProcessedDoc.filename processed_doc)
                          (ProcessedDoc.total_pages processed_doc) w1
        then
          let document := document_row w1 processed_doc in
          match store_chunks (Document.id document)
                  (ProcessedDoc.chunks processed_doc)
                  (insert_document document w1) with
          | (Ok _, w2) => (Ok (summary_of processed_doc), w2)
          | (Raise e, w2) => (Raise e, w2)
          end
        else
          (Raise (match fst (store_document
                               (ProcessedDoc.filename processed_doc)
                               (ProcessedDoc.total_pages processed_doc) w1)
                  with
                  | Raise e => e
                  | Ok _ => KeyError ""
                  end), w1)
    end.
Proof.
  unfold process_and_store, bind.
  destruct (process_pdf temp_path w) as [[processed_doc|e] w1];
    [|reflexivity].
  destruct (store_document_cases (ProcessedDoc.filename processed_doc)
              (ProcessedDoc.total_pages processed_doc) w1)
    as [Htaken Hrefused].
  destruct (document_taken _ _ w1).
  - rewrite (Htaken eq_refl). fold (document_row w1 processed_doc).
    cbv zeta. destruct (store_chunks _ _ _) as [[u|e] w2]; reflexivity.
  - destruct (Hrefused eq_refl) as [e ->]. reflexivity.
Qed.

Lemma document_taken_same_database filename total_pages w w' :
  same_database w w' ->
  document_taken filename total_pages w'
  = document_taken filename total_pages w.
Proof.
  intros (_ & _ & Hds & _). unfold document_taken. now rewrite Hds.
Qed.

(** The store after one turn of the loop. *)
Lemma ingest_file_world file w :
  let temp_path := next_temp_path w in
  let started := create_temp_file temp_path (UploadFile.content file) w in
  let w' := snd (ingest_file file w) in
  match fst (process_pdf temp_path started) with
  | Raise e =>
      documents w' = documents w /\ document_chunks w' = document_chunks w
  | Ok processed_doc =>
      if document_taken (ProcessedDoc.filename processed_doc)
                        (ProcessedDoc.total_pages processed_doc) w
      then
        let document := document_row w processed_doc in
        documents w' = documents w ++ [document]
        /\ document_chunks w'
           = document_chunks w
               ++ stored_rows (document_chunks_id_seq w)
                              (Document.id document)
                              (ProcessedDoc.chunks processed_doc)
      else
        documents w' = documents w /\ document_chunks w' = document_chunks w
  end.
Proof.
  intros temp_path started w'.
  pose proof (process_pdf_same_database temp_path started) as Hdb.
  subst w'. rewrite ingest_file_eq. cbv zeta.
  fold temp_path. fold started. rewrite process_and_store_eq.
  destruct (process_pdf temp_path started) as [[processed_doc|e] w1];
    cbn [fst snd] in Hdb |- *.
  - rewrite (document_taken_same_database _ _ Hdb).
    change (document_taken (ProcessedDoc.filename processed_doc)
              (ProcessedDoc.total_pages processed_doc) started)
      with (document_taken (ProcessedDoc.filename processed_doc)
              (ProcessedDoc.total_pages processed_doc) w).
    destruct Hdb as (Hd & Hc & Hds & Hcs).
    change (documents started) with (documents w) in Hd.
    change (document_chunks started) with (document_chunks w) in Hc.
    change (documents_id_seq started) with (documents_id_seq w) in Hds.
    change (document_chunks_id_seq started)
      with (document_chunks_id_seq w) in Hcs.
    destruct (document_taken _ _ w).
    + assert (Hdocument : document_row w1 processed_doc
                          = document_row w processed_doc)
        by (unfold document_row; now rewrite Hds).
      rewrite Hdocument. cbv zeta.
      set (document := document_row w processed_doc).
      set (chunks := ProcessedDoc.chunks processed_doc).
      pose proof (store_chunks_spec (Document.id document) chunks
                    (insert_document document w1)
                    (document_exists_after_insert document w1))
        as [Hw _].
      change (document_chunks_id_seq (insert_document document w1))
        with (document_chunks_id_seq w1) in Hw.
      rewrite Hcs in Hw.
      set (rows := stored_rows (document_chunks_id_seq w)
                     (Document.id document) chunks) in *.
      destruct (insert_rows_database rows (insert_document document w1))
        as [Hdi Hci].
      change (documents (insert_document document w1))
        with (documents w1 ++ [document]) in Hdi.
      change (document_chunks (insert_document document w1))
        with (document_chunks w1) in Hci.
      rewrite Hd in Hdi. rewrite Hc in Hci.
      assert (Hfinal : forall w2,
                 w2 = insert_rows rows (insert_document document w1) ->
                 documents (snd (unlink_if_exists temp_path w2))
                 = documents w ++ [document]
                 /\ document_chunks (snd (unlink_if_exists temp_path w2))
                    = document_chunks w ++ rows).
      { intros w2 ->.
        destruct (unlink_if_exists_same_database temp_path
                    (insert_rows rows (insert_document document w1)))
          as [(Hd2 & Hc2 & _) _].
        rewrite Hd2, Hc2. now split. }
      destruct (store_chunks (Document.id document) chunks
                  (insert_document document w1)) as [[u|e] w2];
        cbn [fst snd] in Hw |- *; exact (Hfinal w2 Hw).
    + cbn [snd].
      destruct (unlink_if_exists_same_database temp_path w1)
        as [(Hd2 & Hc2 & _) _].
      rewrite Hd2, Hc2, Hd, Hc. now split.
  - destruct Hdb as (Hd & Hc & _).
    destruct (unlink_if_exists_same_database temp_path w1)
      as [(Hd2 & Hc2 & _) _].
    rewrite Hd2, Hc2, Hd, Hc. now split.
Qed.

(** The outcome of one turn of the loop. *)
Lemma ingest_file_outcome file w :
  let temp_path := next_temp_path w in
  let started := create_temp_file temp_path (UploadFile.content file) w in
  let outcome := fst (ingest_file file w) in
  match fst (process_pdf temp_path started) with
  | Raise e => outcome = Raise (processing_error file e)
  | Ok processed_doc =>
      if document_taken (ProcessedDoc.filename processed_doc)
                        (ProcessedDoc.total_pages processed_doc) w
      then
        let rows :=
          stored_rows (document_chunks_id_seq w) (documents_id_seq w + 1)
                      (ProcessedDoc.chunks processed_doc) in
        (is_ok outcome = true
         <-> List.length rows
             = List.length (ProcessedDoc.chunks processed_doc))
        /\ (is_ok outcome = true -> outcome = Ok (summary_of processed_doc))
        /\ (is_ok outcome = false ->
            exists e, outcome = Raise (processing_error file e))
      else exists e, outcome = Raise (processing_error file e)
  end.
Proof.
  intros temp_path started outcome.
  pose proof (process_pdf_same_database temp_path started) as Hdb.
  subst outcome. rewrite ingest_file_eq. cbv zeta.
  fold temp_path. fold started. rewrite process_and_store_eq.
  destruct (process_pdf temp_path started) as [[processed_doc|e] w1];
    cbn [fst snd] in Hdb |- *; [|reflexivity].
  rewrite (document_taken_same_database _ _ Hdb).
  change (document_taken (ProcessedDoc.filename processed_doc)
            (ProcessedDoc.total_pages processed_doc) started)
    with (document_taken (ProcessedDoc.filename processed_doc)
            (ProcessedDoc.total_pages processed_doc) w).
  destruct Hdb as (_ & _ & Hds & Hcs).
  change (documents_id_seq started) with (documents_id_seq w) in Hds.
  change (document_chunks_id_seq started)
    with (document_chunks_id_seq w) in Hcs.
  destruct (document_taken _ _ w); [| eexists; reflexivity].
  cbv zeta. set (document := document_row w1 processed_doc).
  pose proof (store_chunks_spec (Document.id document)
                (ProcessedDoc.chunks processed_doc)
                (insert_document document w1)
                (document_exists_after_insert document w1))
    as [_ Hok].
  change (document_chunks_id_seq (insert_document document w1))
    with (document_chunks_id_seq w1) in Hok.
  rewrite Hcs in Hok.
  assert (Hid : Document.id document = (documents_id_seq w + 1)%Z)
    by (unfold document, document_row; cbn [Document.id]; now rewrite Hds).
  destruct (store_chunks (Document.id document)
              (ProcessedDoc.chunks processed_doc)
              (insert_document document w1)) as [[u|e] w2];
    cbn [fst snd is_ok] in Hok |- *; rewrite Hid in Hok;
    (split; [exact Hok|]); split.
  - reflexivity.
  - discriminate.
  - discriminate.
  - intros _. now exists e.
Qed.

(** C2, as amended. For every uploaded file and every world, one turn of
    ingestion leaves in the store exactly what had been committed when
    it ended, and nothing is rolled back.  If extraction, chunking or
    embedding fails, or the store does not take the document row, no row
    is written.  Otherwise the document row is written, followed by the
    rows of the chunks that precede the first chunk that is not stored,
    for want of an embedding or because the store does not take it (an
    embedding of another dimension than 1536, a text that holds NUL, a
    number beyond 32 bits): all the chunks when the turn succeeds, a
    strict prefix of them, possibly none, when it fails with the HTTP
    error 500.  Every chunk row written refers to that document row. *)
Theorem ingest_file_keeps_committed_rows
    (file : UploadFile.t) (w : World) :
  let temp_path := next_temp_path w in
  let started := create_temp_file temp_path (UploadFile.content file) w in
  let outcome := fst (ingest_file file w) in
  let w' := snd (ingest_file file w) in
  match fst (process_pdf temp_path started) with
  | Raise e =>
      outcome = Raise (processing_error file e)
      /\ documents w' = documents w
      /\ document_chunks w' = document_chunks w
  | Ok processed_doc =>
      let document := document_row w processed_doc in
      let rows :=
        stored_rows (document_chunks_id_seq w) (Document.id document)
                    (ProcessedDoc.chunks processed_doc) in
      if document_taken (ProcessedDoc.filename processed_doc)
                        (ProcessedDoc.total_pages processed_doc) w
      then
        documents w' = documents w ++ [document]
        /\ document_chunks w' = document_chunks w ++ rows
        /\ Forall (fun row => DocumentChunk.document_id row
                              = Document.id document) rows
        /\ (outcome = Ok (summary_of processed_doc)
            <-> List.length rows
                = List.length (ProcessedDoc.chunks processed_doc))
        /\ (is_ok outcome = false ->
            exists detail,
              outcome = Raise (HTTPException HTTP_500_INTERNAL_SERVER_ERROR
                                 detail))
      else
        documents w' = documents w
        /\ document_chunks w' = document_chunks w
        /\ exists detail,
             outcome = Raise (HTTPException HTTP_500_INTERNAL_SERVER_ERROR
                                detail)
  end.
Proof.
  intros temp_path started outcome w'.
  pose proof (ingest_file_world file w) as Hworld.
  pose proof (ingest_file_outcome file w) as Hout.
  cbv zeta in Hworld, Hout.
  fold temp_path started in Hworld, Hout. fold w' in Hworld.
  fold outcome in Hout.
  destruct (fst (process_pdf temp_path started)) as [processed_doc|e].
  - cbv zeta. destruct (document_taken _ _ w).
    + destruct Hworld as [Hd Hc]. destruct Hout as (Hok & Hsum & Hfail).
      split; [exact Hd|]. split; [exact Hc|].
      split; [apply stored_rows_document_id|].
      split.
      * split.
        -- intros Heq. apply Hok. now rewrite Heq.
        -- intros Hlen. apply Hsum. now apply Hok.
      * intros Hf. destruct (Hfail Hf) as [e ->]. eexists. reflexivity.
    + destruct Hworld as [Hd Hc]. destruct Hout as [e ->].
      split; [exact Hd|]. split; [exact Hc|]. eexists. reflexivity.
  - destruct Hworld as [Hd Hc]. now repeat split.
Qed.

(** ** Referential integrity *)

Lemma document_exists_app document_id w w' extra :
  documents w' = documents w ++ extra ->
  document_exists document_id w = true ->
  document_exists document_id w' = true.
Proof.
  unfold document_exists. intros -> H. rewrite existsb_app, H. reflexivity.
Qed.

Lemma referential_integrity_grows w w' extra rows :
  documents w' = documents w ++ extra ->
  document_chunks w' = document_chunks w ++ rows ->
  Forall (fun row =>
            document_exists (DocumentChunk.document_id row) w' = true) rows ->
  referential_integrity w -> referential_integrity w'.
Proof.
  unfold referential_integrity. intros Hd Hc Hrows Hw.
  rewrite Hc. apply Forall_app. split; [|exact Hrows].
  eapply Forall_impl; [| exact Hw]. simpl. intros c Hex.
  now apply document_exists_app with w extra.
Qed.

Lemma ingest_file_referential_integrity file w :
  referential_integrity w ->
  referential_integrity (snd (ingest_file file w)).
Proof.
  intros Hw. pose proof (ingest_file_world file w) as Hworld.
  cbv zeta in Hworld.
  assert (Hsame : documents (snd (ingest_file file w)) = documents w ->
                  document_chunks (snd (ingest_file file w))
                  = document_chunks w ->
                  referential_integrity (snd (ingest_file file w))).
  { intros Hd Hc.
    eapply referential_integrity_grows with (extra := []) (rows := []);
      [rewrite app_nil_r; exact Hd | rewrite app_nil_r; exact Hc
      | constructor | exact Hw]. }
  destruct (fst (process_pdf _ _)) as [processed_doc|e].
  - destruct (document_taken _ _ w); [| now apply Hsame].
    destruct Hworld as [Hd Hc].
    eapply referential_integrity_grows; [exact Hd | exact Hc | | exact Hw].
    eapply Forall_impl; [| apply stored_rows_document_id].
    simpl. intros row ->. unfold document_exists. rewrite Hd, existsb_app.
    simpl. rewrite Z.eqb_refl. apply orb_true_iff. right. reflexivity.
  - now apply Hsame.
Qed.

Lemma ingest_files_referential_integrity files processed_docs w :
  referential_integrity w ->
  referential_integrity (snd (ingest_files files processed_docs w)).
Proof.
  revert processed_docs w; induction files as [|file rest IH];
    intros processed_docs w Hw; [exact Hw|].
  cbn [ingest_files]. unfold bind.
  pose proof (ingest_file_referential_integrity file Hw) as Hfile.
  destruct (ingest_file file w) as [[summary|e] w1]; cbn [snd] in Hfile |- *.
  - now apply IH.
  - exact Hfile.
Qed.

Lemma check_file_types_world files w :
  snd (check_file_types files w) = w.
Proof.
  induction files as [|file rest IH]; [reflexivity|]. cbn [check_file_types].
  destruct (negb _); [reflexivity | exact IH].
Qed.

(** X2. Referential integrity is an invariant of ingestion. For every upload
    request and every world in which each stored chunk refers to a
    stored document, the same holds of the world [ingest_documents]
    leaves, whether the request succeeds, is rejected, or fails half
    way: no chunk is ever stored without its document row. *)
Theorem ingest_documents_referential_integrity
    (files : list UploadFile.t) (w : World) :
  referential_integrity w ->
  referential_integrity (snd (ingest_documents files w)).
Proof.
  intros Hw. unfold ingest_documents.
  destruct (List.length files <? 2); [exact Hw|].
  unfold bind.
  pose proof (check_file_types_world files w) as Hcheck.
  destruct (check_file_types files w) as [[u|e] w0]; cbn [snd] in Hcheck;
    subst w0; [|exact Hw].
  pose proof (ingest_files_referential_integrity files [] Hw) as Hfiles.
  destruct (ingest_files files [] w) as [[processed_docs|e] w1];
    cbn [snd] in Hfiles |- *; exact Hfiles.
Qed.

(** ** Validation of the request *)

Lemma check_file_types_rejects files w :
  forallb (fun file =>
             Py.endswith (Py.lower (UploadFile.filename file)) ".pdf") files
  = false ->
  exists detail,
    check_file_types files w
    = (Raise (HTTPException HTTP_400_BAD_REQUEST detail), w).
Proof.
  induction files as [|file rest IH]; [discriminate|].
  cbn [forallb check_file_types].
  destruct (Py.endswith _ _); cbn [negb andb].
  - exact IH.
  - intros _. eexists. reflexivity.
Qed.

(** X3. Invalid requests are rejected before any work. For every request
    with fewer than two files, or with a file whose name does not end
    in .pdf (in any letter case), [ingest_documents] raises an HTTP
    error 400 and leaves the world exactly as it was. *)
Theorem ingest_documents_rejects_invalid_request
    (files : list UploadFile.t) (w : World) :
  List.length files < 2
  \/ forallb (fun file =>
                Py.endswith (Py.lower (UploadFile.filename file)) ".pdf")
             files = false ->
  exists detail,
    ingest_documents files w
    = (Raise (HTTPException HTTP_400_BAD_REQUEST detail), w).
Proof.
  intros Hbad. unfold ingest_documents.
  destruct (Nat.ltb_spec (List.length files) 2) as [Hlt | Hge].
  - eexists. reflexivity.
  - destruct Hbad as [Hlt | Hpdf]; [lia|].
    destruct (check_file_types_rejects files w Hpdf) as [detail Hc].
    exists detail. unfold bind. now rewrite Hc.
Qed.

End Ingestion.

(* ================================================================== *)
(** * Further properties of answering *)

Lemma string_append_assoc (s1 s2 s3 : string) :
  ((s1 ++ s2) ++ s3 = s1 ++ (s2 ++ s3))%string.
Proof. induction s1 as [|c s1 IH]; simpl; [reflexivity | now rewrite IH]. Qed.

Lemma string_append_empty_r (s : string) : (s ++ "" = s)%string.
Proof. induction s as [|c s IH]; simpl; [reflexivity | now rewrite IH]. Qed.

Lemma join_contains sep (parts : list string) part :
  In part parts ->
  exists before after,
    Py.join sep parts = (before ++ part ++ after)%string.
Proof.
  induction parts as [|p rest IH]; intros Hin; [contradiction|].
  destruct Hin as [-> | Hin].
  - exists ""%string. destruct rest as [|p' rest'].
    + exists ""%string. simpl. now rewrite string_append_empty_r.
    + exists (sep ++ Py.join sep (p' :: rest'))%string. reflexivity.
  - destruct (IH Hin) as (before & after & Hjoin).
    destruct rest as [|p' rest']; [contradiction|].
    exists (p ++ sep ++ before)%string, after.
    change (Py.join sep (p :: p' :: rest'))
      with (p ++ sep ++ Py.join sep (p' :: rest'))%string.
    rewrite Hjoin. now rewrite !string_append_assoc.
Qed.

Lemma context_parts_from (chunks : list Retrieved.t) start parts :
  fold_left
    (fun context_parts '(_, chunk) =>
       context_parts
         ++ [ ("[Document " ++ Py.str_int (Retrieved.document_id chunk)
                 ++ ", Page " ++ Py.str_nat (Retrieved.page_number chunk)
                 ++ ", Chunk " ++ Py.str_nat (Retrieved.chunk_index chunk)
                 ++ "]" ++ nl ++ Retrieved.text chunk ++ nl)%string ])
    (Py.enumerate_from start chunks) parts
  = parts ++ map context_entry chunks.
Proof.
  revert start parts; induction chunks as [|c chunks IH];
    intros start parts; simpl.
  - now rewrite app_nil_r.
  - rewrite IH, <- app_assoc. reflexivity.
Qed.

Lemma format_context_eq chunks :
  format_context chunks = Py.join (nl ++ nl) (map context_entry chunks).
Proof.
  unfold format_context, Py.enumerate. now rewrite context_parts_from.
Qed.

Lemma text_snippet_of_length text :
  String.length (text_snippet_of text) <= 203.
Proof.
  unfold text_snippet_of.
  destruct (Nat.ltb_spec 200 (String.length text)) as [Hlong | Hshort].
  - rewrite PyFacts.length_append, PyFacts.length_slice_to by lia.
    simpl. lia.
  - lia.
Qed.

Section Answering.

Context {embedder : EmbeddingProvider} {chat : ChatProvider}.
Context {metric : VectorMetric} {engine : QueryEngine}.

(** [answer_query], step by step. *)
Lemma answer_query_eq query w :
  answer_query query w
  = match retrieve_relevant_chunks query 5 w with
    | (Raise e, w1) => (Raise e, w1)
    | (Ok [], w1) =>
        (Ok {| Answer.answer := NO_INFORMATION_ANSWER;
               Answer.sources := [] |}, w1)
    | (Ok chunks, w1) =>
        let request :=
          ChatCompletion "gpt-3.5-turbo" system_prompt
            (user_prompt_of (format_context chunks) query) in
        match chat_completion "gpt-3.5-turbo" system_prompt
                (user_prompt_of (format_context chunks) query) with
        | Ok answer =>
            (Ok {| Answer.answer := answer;
                   Answer.sources := map source_of chunks |},
             record_call request w1)
        | Raise e => (Raise e, record_call request w1)
        end
    end.
Proof.
  unfold answer_query, bind.
  destruct (retrieve_relevant_chunks query 5 w) as [[chunks|e] w1];
    [|reflexivity].
  destruct chunks as [|c chunks]; [reflexivity|].
  unfold generate_answer, call_provider. fold (user_prompt_of
    (format_context (c :: chunks)) query). cbv zeta.
  destruct (chat_completion _ _ _); [|reflexivity].
  unfold ret. rewrite (fold_left_append_map source_of). reflexivity.
Qed.

Lemma retrieve_relevant_chunks_world query top_k w :
  snd (retrieve_relevant_chunks query top_k w)
  = record_call (EmbedQuery query) w.
Proof.
  rewrite retrieve_relevant_chunks_eq.
  destruct (embed_query query) as [query_embedding|]; [|reflexivity].
  pose proof (semantic_search_world query_embedding top_k
                (record_call (EmbedQuery query) w)) as Hw.
  destruct (semantic_search _ _ _) as [[chunks|e] w']; exact Hw.
Qed.

Lemma answer_query_same_database query w :
  same_database w (snd (answer_query query w)).
Proof.
  rewrite answer_query_eq.
  pose proof (retrieve_relevant_chunks_world query 5 w) as Hw1.
  destruct (retrieve_relevant_chunks query 5 w) as [[chunks|e] w1];
    cbn [snd] in Hw1; subst w1; [|repeat split].
  destruct chunks as [|c chunks]; [repeat split|].
  cbv zeta. destruct (chat_completion _ _ _); repeat split.
Qed.

(** X6. Answering only reads. For every question and every world,
    [answer_query] leaves the database, the files and the id sequences
    as they were, whatever its outcome; what it adds to the world is the
    request for the embedding of the question, followed by at most one
    request to the language model, whose prompt is built from the
    question and the retrieved chunks. *)
Theorem answer_query_read_only (query : string) (w : World) :
  let w' := snd (answer_query query w) in
  same_database w w'
  /\ files w' = files w
  /\ temp_counter w' = temp_counter w
  /\ (provider_calls w' = provider_calls w ++ [EmbedQuery query]
      \/ exists chunks,
           provider_calls w'
           = provider_calls w
               ++ [EmbedQuery query;
                   ChatCompletion "gpt-3.5-turbo" system_prompt
                     (user_prompt_of (format_context chunks) query)]).
Proof.
  intros w'. subst w'. rewrite answer_query_eq.
  pose proof (retrieve_relevant_chunks_world query 5 w) as Hw1.
  destruct (retrieve_relevant_chunks query 5 w) as [[chunks|e] w1];
    cbn [snd] in Hw1; subst w1.
  - destruct chunks as [|c chunks].
    + repeat split. now left.
    + cbv zeta. destruct (chat_completion _ _ _); cbn [snd];
        (repeat split; right; exists (c :: chunks);
         cbn [provider_calls record_call]; now rewrite <- app_assoc).
  - repeat split. now left.
Qed.

(** X7. The response is bounded. For every question and every world in
    which [answer_query] returns a response, the response lists at most
    5 sources and no text snippet is longer than 203 characters. *)
Theorem answer_query_response_bounded
    (query : string) (w w' : World) (response : Answer.t) :
  answer_query query w = (Ok response, w') ->
  List.length (Answer.sources response) <= 5
  /\ Forall (fun source =>
               String.length (Source.text_snippet source) <= 203)
            (Answer.sources response).
Proof.
  rewrite answer_query_eq, retrieve_relevant_chunks_eq.
  destruct (embed_query query) as [query_embedding|e]; [|discriminate].
  pose proof (@semantic_search_length metric engine query_embedding 5
                (record_call (EmbedQuery query) w)) as Hlen.
  destruct (semantic_search _ _ _) as [[rows|e] w1]; [|discriminate].
  specialize (Hlen rows eq_refl).
  assert (Hrows : List.length (map retrieved_of rows) <= 5)
    by (rewrite length_map; exact Hlen).
  destruct (map retrieved_of rows) as [|c chunks].
  - intros H. injection H as <- _. split; [simpl; lia | constructor].
  - cbv zeta. destruct (chat_completion _ _ _); [|discriminate].
    intros H. injection H as <- _. cbn [Answer.sources].
    change (source_of c :: map source_of chunks)
      with (map source_of (c :: chunks)). split.
    + now rewrite length_map.
    + apply Forall_forall. intros source Hin.
      apply in_map_iff in Hin as (chunk & <- & _).
      apply text_snippet_of_length.
Qed.

(** X8. The prompt holds every retrieved chunk in full. For every
    question and every chunk of the list [generate_answer] is given,
    the one request it sends to the language model carries the fixed
    system prompt and a user prompt that starts with the context, holds
    the entry of that chunk (its document id, page number and chunk
    index, then its whole text) and ends with the question. *)
Theorem generate_answer_prompt_holds_chunk
    (query : string) (chunks : list Retrieved.t) (w : World)
    (chunk : Retrieved.t) :
  In chunk chunks ->
  exists before after,
    snd (generate_answer query chunks w)
    = record_call
        (ChatCompletion "gpt-3.5-turbo" system_prompt
           ("Context:" ++ nl ++ before ++ context_entry chunk ++ after
              ++ nl ++ nl ++ "Question: " ++ query)%string) w.
Proof.
  intros Hin.
  destruct (join_contains (nl ++ nl) (map context_entry chunks)
              (context_entry chunk) (in_map context_entry _ _ Hin))
    as (before & after & Hjoin).
  exists before, after.
  unfold generate_answer, call_provider. cbn [snd].
  rewrite format_context_eq, Hjoin. do 2 f_equal.
  now rewrite !string_append_assoc.
Qed.

(** X9. The endpoint [/answer] raises HTTP errors only, and only reads.
    For every request and every world: a question that is empty or
    blank is refused with the HTTP error 400 and the world is left
    untouched; any other question is passed to [answer_query], whose
    response is returned unchanged and whose every exception becomes
    the HTTP error 500 with the text of the exception in its detail.
    The database is the same after the call as before. *)
Theorem answer_question_outcomes (request : AnswerRequest.t) (w : World) :
  let question := AnswerRequest.question request in
  same_database w (snd (answer_question request w))
  /\ (Py.whitespace_only question = true ->
      answer_question request w
      = (Raise (HTTPException HTTP_400_BAD_REQUEST
                  "Question cannot be empty"), w))
  /\ (Py.whitespace_only question = false ->
      match answer_query question w with
      | (Ok response, w') => answer_question request w = (Ok response, w')
      | (Raise e, w') =>
          answer_question request w
          = (Raise (HTTPException HTTP_500_INTERNAL_SERVER_ERROR
                      ("Error generating answer: " ++ str_exn e)%string),
             w')
      end).
Proof.
  intros question.
  assert (Hblank : Py.truthy (Py.strip question)
                   = negb (Py.whitespace_only question)).
  { destruct (Py.whitespace_only question) eqn:Hws.
    - apply PyFacts.strip_empty_iff in Hws. unfold question in Hws |- *.
      now rewrite Hws.
    - destruct (Py.truthy (Py.strip question)) eqn:Ht; [reflexivity|].
      apply PyFacts.truthy_false, PyFacts.strip_empty_iff in Ht.
      congruence. }
  pose proof (answer_query_same_database question w) as Hdb.
  unfold answer_question. fold question. rewrite Hblank.
  destruct (Py.whitespace_only question); cbn [negb].
  - split; [apply same_database_refl|]. split; [reflexivity | discriminate].
  - unfold try_except, bind, raise, ret.
    destruct (answer_query question w) as [[response|e] w'];
      cbn [snd] in Hdb |- *; (split; [exact Hdb|]);
      (split; [discriminate | reflexivity]).
Qed.

End Answering.

(* ================================================================== *)
(** * Further properties of the database *)

Lemma find_app_last {A} (f : A -> bool) (l : list A) (x : A) :
  find f (l ++ [x])
  = match find f l with
    | Some y => Some y
    | None => if f x then Some x else None
    end.
Proof.
  induction l as [|y l IH]; simpl; [reflexivity|].
  destruct (f y); [reflexivity | exact IH].
Qed.

Lemma find_document_above_bound bound id (rows : list Document.t) :
  Forall (fun d => (Document.id d <= bound)%Z) rows ->
  (bound < id)%Z ->
  find (fun d => (Document.id d =? id)%Z) rows = None.
Proof.
  induction 1 as [|d rows Hd _ IH]; intros Hid; simpl; [reflexivity|].
  destruct (Z.eqb_spec (Document.id d) id); [lia | now apply IH].
Qed.

(** X10. A stored document is found again by its id. For every world in
    which no document id exceeds the id sequence: when the file name
    holds no NUL, the number of pages fits the 32 bits of its column and
    an id is left, [store_document] returns a row with the file name
    and page count it was given and a new id; [get_document_details] on
    that id then returns exactly this row, gives the same answer as
    before the insertion on every other id, and [None] on every id not
    handed out yet.  In every other case [store_document] raises and
    writes no row. *)
Theorem store_document_then_get_document_details
    (filename : string) (total_pages : nat) (w : World) :
  Forall (fun d => (Document.id d <= documents_id_seq w)%Z) (documents w) ->
  (document_taken filename total_pages w = true ->
   exists document w',
     store_document filename total_pages w = (Ok document, w')
     /\ Document.filename document = filename
     /\ Document.total_pages document = total_pages
     /\ get_document_details (Document.id document) w'
        = (Ok (Some document), w')
     /\ (forall other,
           other <> Document.id document ->
           fst (get_document_details other w')
           = fst (get_document_details other w))
     /\ (forall unused,
           (Document.id document < unused)%Z ->
           fst (get_document_details unused w') = Ok None))
  /\ (document_taken filename total_pages w = false ->
      exists e,
        fst (store_document filename total_pages w) = Raise e
        /\ documents (snd (store_document filename total_pages w))
           = documents w).
Proof.
  intros Hbound.
  destruct (store_document_cases filename total_pages w)
    as [Htaken Hrefused].
  split.
  2:{ intros Hno. destruct (Hrefused Hno) as [e ->]. now exists e. }
  intros Hyes.
  set (document := {| Document.id := (documents_id_seq w + 1)%Z;
                      Document.filename := filename;
                      Document.total_pages := total_pages |}).
  exists document, (insert_document document w).
  split; [exact (Htaken Hyes)|].
  split; [reflexivity|]. split; [reflexivity|].
  unfold get_document_details. cbn [fst documents insert_document].
  split; [| split].
  - rewrite find_app_last.
    rewrite (@find_document_above_bound (documents_id_seq w)
               (Document.id document) _ Hbound) by (simpl; lia).
    now rewrite Z.eqb_refl.
  - intros other Hother. rewrite find_app_last.
    destruct (find _ (documents w)); [reflexivity|].
    destruct (Z.eqb_spec (Document.id document) other); congruence.
  - intros unused Hunused. rewrite find_app_last.
    rewrite (@find_document_above_bound (documents_id_seq w) unused _
               Hbound) by (simpl in Hunused; lia).
    destruct (Z.eqb_spec (Document.id document) unused); [lia | reflexivity].
Qed.

(** ** The keys of the two tables *)

Lemma well_keyed_same_database w w' :
  same_database w w' -> well_keyed w -> well_keyed w'.
Proof.
  unfold same_database, well_keyed, keys_bounded, primary_keys_unique.
  intros (Hd & Hc & Hds & Hcs). now rewrite Hd, Hc, Hds, Hcs.
Qed.

Lemma NoDup_map_snoc {A} (key : A -> Z) (rows : list A) (row : A) bound :
  Forall (fun r => (key r <= bound)%Z) rows ->
  (bound < key row)%Z ->
  NoDup (map key rows) -> NoDup (map key (rows ++ [row])).
Proof.
  intros Hb Hrow Hn. rewrite map_app. apply NoDup_app; [exact Hn | |].
  - simpl. constructor; [intros [] | constructor].
  - intros k Hin [<- | []].
    apply in_map_iff in Hin as (r & Hk & Hr).
    rewrite Forall_forall in Hb. specialize (Hb r Hr). lia.
Qed.

Lemma well_keyed_insert_document document w :
  Document.id document = (documents_id_seq w + 1)%Z ->
  well_keyed w -> well_keyed (insert_document document w).
Proof.
  intros Hid [[Hbd Hbc] [Hud Huc]]. repeat split; cbn.
  - apply Forall_app. split.
    + eapply Forall_impl; [| exact Hbd]. simpl. intros d Hd. lia.
    + constructor; [lia | constructor].
  - exact Hbc.
  - eapply NoDup_map_snoc; [exact Hbd | lia | exact Hud].
  - exact Huc.
Qed.

Lemma well_keyed_insert_chunk chunk w :
  DocumentChunk.id chunk = (document_chunks_id_seq w + 1)%Z ->
  well_keyed w -> well_keyed (insert_chunk chunk w).
Proof.
  intros Hid [[Hbd Hbc] [Hud Huc]]. repeat split; cbn.
  - exact Hbd.
  - apply Forall_app. split.
    + eapply Forall_impl; [| exact Hbc]. simpl. intros c Hc. lia.
    + constructor; [lia | constructor].
  - exact Hud.
  - eapply NoDup_map_snoc; [exact Hbc | lia | exact Huc].
Qed.

Lemma well_keyed_insert_rows document_id chunks :
  forall w,
    well_keyed w ->
    well_keyed
      (insert_rows
         (stored_rows (document_chunks_id_seq w) document_id chunks) w).
Proof.
  induction chunks as [|chunk rest IH]; intros w Hw; [exact Hw|].
  cbn [stored_rows].
  destruct (Chunk.embedding chunk) as [embedding|]; [|exact Hw].
  destruct (store_takes _ _ _ _); [|exact Hw].
  cbn [insert_rows fold_left].
  apply (IH (insert_chunk
               (row_of (document_chunks_id_seq w + 1) document_id chunk
                       embedding) w)).
  now apply well_keyed_insert_chunk.
Qed.

(* ================================================================== *)
(** * Further properties of ingestion *)

Section IngestionRuns.

Context {platform : Platform} {splitter : TextSplitter}.
Context {embedder : EmbeddingProvider}.

Lemma same_files_refl w : same_files w w.
Proof. split; reflexivity. Qed.

Lemma process_pdf_same_files pdf_path w :
  same_files w (snd (process_pdf pdf_path w)).
Proof.
  unfold process_pdf, bind, extract_text_from_pdf, bind, PdfReader, ret.
  destruct (lookup_file pdf_path w) as [[pages|]|]; simpl;
    try apply same_files_refl.
  unfold create_embeddings, bind, call_provider.
  destruct (embed_documents _); simpl; [|split; reflexivity].
  destruct (fold_left _ _ _); simpl; split; reflexivity.
Qed.

Lemma insert_rows_same_files rows w : same_files w (insert_rows rows w).
Proof.
  revert w; induction rows as [|row rows IH]; intros w;
    [apply same_files_refl|].
  cbn [insert_rows fold_left].
  destruct (IH (insert_chunk row w)) as [Hf Hc]. split; assumption.
Qed.

(** The world one turn of the loop leaves: the temporary file removed
    from the world in which the work ended. *)
Lemma ingest_file_world_eq file w :
  snd (ingest_file file w)
  = snd (unlink_if_exists (next_temp_path w) (world_before_cleanup file w)).
Proof.
  rewrite ingest_file_eq. unfold world_before_cleanup. cbv zeta.
  rewrite process_and_store_eq.
  destruct (process_pdf _ _) as [[processed_doc|e] w1]; [|reflexivity].
  destruct (document_taken _ _ w1); [|reflexivity]. cbv zeta.
  pose proof (store_chunks_spec
                (Document.id (document_row w1 processed_doc))
                (ProcessedDoc.chunks processed_doc)
                (insert_document (document_row w1 processed_doc) w1)
                (document_exists_after_insert
                   (document_row w1 processed_doc) w1)) as [Hw _].
  change (document_chunks_id_seq
            (insert_document (document_row w1 processed_doc) w1))
    with (document_chunks_id_seq w1) in Hw.
  destruct (store_chunks _ _ _) as [[u|e] w2]; cbn [snd] in Hw |- *;
    now rewrite Hw.
Qed.

(** A property of worlds kept by every turn of the loop is kept by the
    endpoint. *)
Lemma ingest_files_invariant (P : World -> Prop) :
  (forall file w, P w -> P (snd (ingest_file file w))) ->
  forall files processed_docs w,
    P w -> P (snd (ingest_files files processed_docs w)).
Proof.
  intros Hstep files; induction files as [|file rest IH];
    intros processed_docs w Hw; [exact Hw|].
  cbn [ingest_files]. unfold bind.
  pose proof (Hstep file w Hw) as Hfile.
  destruct (ingest_file file w) as [[summary|e] w1]; cbn [snd] in Hfile |- *.
  - now apply IH.
  - exact Hfile.
Qed.

Lemma ingest_documents_invariant (P : World -> Prop) :
  (forall file w, P w -> P (snd (ingest_file file w))) ->
  forall files w, P w -> P (snd (ingest_documents files w)).
Proof.
  intros Hstep files w Hw. unfold ingest_documents.
  destruct (List.length files <? 2); [exact Hw|].
  unfold bind.
  pose proof (check_file_types_world files w) as Hcheck.
  destruct (check_file_types files w) as [[u|e] w0]; cbn [snd] in Hcheck;
    subst w0; [|exact Hw].
  pose proof (ingest_files_invariant P Hstep files [] w Hw) as Hfiles.
  destruct (ingest_files files [] w) as [[processed_docs|e] w1];
    cbn [snd] in Hfiles |- *; exact Hfiles.
Qed.

(** ** Primary keys *)

Lemma world_before_cleanup_well_keyed file w :
  well_keyed w -> well_keyed (world_before_cleanup file w).
Proof.
  intros Hw. unfold world_before_cleanup. cbv zeta.
  pose proof (process_pdf_same_database (next_temp_path w)
                (create_temp_file (next_temp_path w)
                   (UploadFile.content file) w)) as Hdb.
  assert (Hstarted : well_keyed
                       (create_temp_file (next_temp_path w)
                          (UploadFile.content file) w)) by exact Hw.
  destruct (process_pdf _ _) as [[processed_doc|e] w1]; cbn [snd] in Hdb.
  - pose proof (well_keyed_same_database Hdb Hstarted) as Hw1.
    destruct (document_taken _ _ w1); [|exact Hw1].
    set (document := document_row w1 processed_doc).
    change (document_chunks_id_seq w1)
      with (document_chunks_id_seq (insert_document document w1)).
    apply well_keyed_insert_rows.
    now apply well_keyed_insert_document.
  - exact (well_keyed_same_database Hdb Hstarted).
Qed.

Lemma ingest_file_well_keyed file w :
  well_keyed w -> well_keyed (snd (ingest_file file w)).
Proof.
  intros Hw. rewrite ingest_file_world_eq.
  destruct (unlink_if_exists_same_database (next_temp_path w)
              (world_before_cleanup file w)) as [Hdb _].
  exact (well_keyed_same_database Hdb
           (world_before_cleanup_well_keyed file Hw)).
Qed.

(** X11. Primary keys stay unique. For every upload request and every
    world in which the ids of both tables are unique and bounded by
    their sequences, the same holds of the world [ingest_documents]
    leaves, on every outcome: a row is never written under an id already
    in use. *)
Theorem ingest_documents_keeps_primary_keys
    (files : list UploadFile.t) (w : World) :
  well_keyed w -> well_keyed (snd (ingest_documents files w)).
Proof.
  apply (ingest_documents_invariant well_keyed).
  intros file w0. apply ingest_file_well_keyed.
Qed.

(** ** Temporary files *)

Lemma lookup_file_same_files path w w' :
  files w' = files w -> lookup_file path w' = lookup_file path w.
Proof. unfold lookup_file. now intros ->. Qed.

Lemma filter_absent_key path (entries : list (string * FileContent)) :
  find (fun e => String.eqb (fst e) path) entries = None ->
  filter (fun e => negb (String.eqb (fst e) path)) entries = entries.
Proof.
  induction entries as [|e entries IH]; simpl; [reflexivity|].
  destruct (String.eqb (fst e) path); [discriminate|].
  intros H. simpl. now rewrite IH.
Qed.

Lemma lookup_file_none path w :
  lookup_file path w = None ->
  find (fun e => String.eqb (fst e) path) (files w) = None.
Proof.
  unfold lookup_file. destruct (find _ _); [discriminate | reflexivity].
Qed.

Lemma world_before_cleanup_files file w :
  files (world_before_cleanup file w)
  = (next_temp_path w, UploadFile.content file) :: files w
  /\ temp_counter (world_before_cleanup file w) = S (temp_counter w).
Proof.
  unfold world_before_cleanup. cbv zeta.
  pose proof (process_pdf_same_files (next_temp_path w)
                (create_temp_file (next_temp_path w)
                   (UploadFile.content file) w)) as [Hf Hc].
  destruct (process_pdf _ _) as [[processed_doc|e] w1];
    cbn [snd] in Hf, Hc.
  - destruct (document_taken _ _ w1); [| now rewrite Hf, Hc].
    destruct (insert_rows_same_files
                (stored_rows (document_chunks_id_seq w1)
                   (Document.id (document_row w1 processed_doc))
                   (ProcessedDoc.chunks processed_doc))
                (insert_document (document_row w1 processed_doc) w1))
      as [Hf2 Hc2].
    rewrite Hf2, Hc2. cbn [files temp_counter insert_document].
    now rewrite Hf, Hc.
  - now rewrite Hf, Hc.
Qed.

Lemma ingest_file_files file w :
  temp_names_fresh w ->
  files (snd (ingest_file file w)) = files w
  /\ temp_counter (snd (ingest_file file w)) = S (temp_counter w).
Proof.
  intros Hfresh. rewrite ingest_file_world_eq.
  destruct (world_before_cleanup_files file w) as [Hf Hc].
  pose proof (Hfresh (temp_counter w) (Nat.le_refl _)) as Hnone.
  change (temp_path_of (temp_counter w)) with (next_temp_path w) in Hnone.
  unfold unlink_if_exists, lookup_file. rewrite Hf. cbn [find fst].
  rewrite String.eqb_refl. cbn [snd remove_file files temp_counter].
  rewrite Hf. cbn [filter fst]. rewrite String.eqb_refl. cbn [negb].
  split; [| exact Hc].
  apply filter_absent_key. now apply lookup_file_none.
Qed.

(** X12. No temporary file is left behind. For every upload request and
    every world in which the names of the temporary files to come are not
    taken, [ingest_documents] leaves the file system exactly as it found
    it, on every outcome: each temporary file is removed again, also when
    the processing of its document fails. *)
Theorem ingest_documents_removes_temporary_files
    (uploads : list UploadFile.t) (w : World) :
  temp_names_fresh w ->
  files (snd (ingest_documents uploads w)) = files w
  /\ temp_names_fresh (snd (ingest_documents uploads w)).
Proof.
  intros Hfresh.
  apply (ingest_documents_invariant
           (fun w' => files w' = files w /\ temp_names_fresh w'));
    [| split; [reflexivity | exact Hfresh]].
  intros file w0 [Hfiles Hfresh0].
  destruct (ingest_file_files file Hfresh0) as [Hf Hc].
  split; [congruence|].
  intros n Hn. rewrite (@lookup_file_same_files (temp_path_of n) _ _ Hf).
  apply Hfresh0. lia.
Qed.

End IngestionRuns.

Section IngestionOutcomes.

Context {platform : Platform} {splitter : TextSplitter}.
Context {embedder : EmbeddingProvider}.

(** What one turn of the loop returns and writes. *)
Lemma ingest_file_result file w :
  match ingest_file file w with
  | (Ok summary, w') =>
      exists document rows,
        documents w' = documents w ++ [document]
        /\ document_chunks w' = document_chunks w ++ rows
        /\ List.length rows = Summary.total_chunks summary
  | (Raise e, w') =>
      (exists cause, e = processing_error file cause)
      /\ exists new_documents new_chunks,
           documents w' = documents w ++ new_documents
           /\ List.length new_documents <= 1
           /\ document_chunks w' = document_chunks w ++ new_chunks
  end.
Proof.
  pose proof (ingest_file_world file w) as Hworld.
  pose proof (ingest_file_outcome file w) as Hout.
  cbv zeta in Hworld, Hout.
  assert (Hsame : forall e,
             fst (ingest_file file w) = Raise e ->
             documents (snd (ingest_file file w)) = documents w ->
             document_chunks (snd (ingest_file file w)) = document_chunks w ->
             exists new_documents new_chunks,
               documents (snd (ingest_file file w))
               = documents w ++ new_documents
               /\ List.length new_documents <= 1
               /\ document_chunks (snd (ingest_file file w))
                  = document_chunks w ++ new_chunks).
  { intros e _ Hd Hc. exists [], []. rewrite !app_nil_r.
    split; [exact Hd|]. split; [simpl; lia | exact Hc]. }
  destruct (fst (process_pdf _ _)) as [processed_doc|cause].
  - destruct (document_taken _ _ w).
    + destruct Hworld as [Hd Hc]. destruct Hout as (Hok & Hsum & Hfail).
      destruct (ingest_file file w) as [[summary|e] w'];
        cbn [fst snd is_ok] in Hd, Hc, Hok, Hsum, Hfail |- *.
      * eexists. eexists. split; [exact Hd|]. split; [exact Hc|].
        specialize (Hsum eq_refl). injection Hsum as ->.
        cbn [Summary.total_chunks summary_of]. now apply Hok.
      * destruct (Hfail eq_refl) as [cause Hcause]. injection Hcause as ->.
        split; [now exists cause|].
        eexists. eexists. split; [exact Hd|]. split; [simpl; lia | exact Hc].
    + destruct Hworld as [Hd Hc]. destruct Hout as [cause Hout].
      destruct (ingest_file file w) as [[summary|e] w'];
        cbn [fst snd] in Hd, Hc, Hout, Hsame |- *; [discriminate|].
      injection Hout as ->. split; [now exists cause|].
      exact (Hsame _ eq_refl Hd Hc).
  - destruct Hworld as [Hd Hc].
    destruct (ingest_file file w) as [[summary|e] w'];
      cbn [fst snd] in Hd, Hc, Hout, Hsame |- *; [discriminate|].
    injection Hout as ->. split; [now exists cause|].
    exact (Hsame _ eq_refl Hd Hc).
Qed.

(** What the loop over the uploaded files returns and writes. *)
Lemma ingest_files_result uploads :
  forall processed_docs w,
    match ingest_files uploads processed_docs w with
    | (Ok summaries, w') =>
        exists new new_documents new_chunks,
          summaries = processed_docs ++ new
          /\ List.length new = List.length uploads
          /\ documents w' = documents w ++ new_documents
          /\ List.length new_documents = List.length uploads
          /\ document_chunks w' = document_chunks w ++ new_chunks
          /\ List.length new_chunks
             = list_sum (map Summary.total_chunks new)
    | (Raise e, w') =>
        (exists file cause,
            In file uploads /\ e = processing_error file cause)
        /\ exists new_documents new_chunks,
             documents w' = documents w ++ new_documents
             /\ List.length new_documents <= List.length uploads
             /\ document_chunks w' = document_chunks w ++ new_chunks
    end.
Proof.
  induction uploads as [|file rest IH]; intros processed_docs w.
  - cbn [ingest_files]. unfold ret. exists [], [], [].
    rewrite !app_nil_r. repeat split.
  - cbn [ingest_files]. unfold bind.
    pose proof (ingest_file_result file w) as Hfile.
    destruct (ingest_file file w) as [[summary|e] w1].
    + destruct Hfile as (document & rows & Hd & Hc & Hrows).
      specialize (IH (processed_docs ++ [summary]) w1).
      destruct (ingest_files rest (processed_docs ++ [summary]) w1)
        as [[summaries|e] w2].
      * destruct IH as (new & nd & nc & Hs & Hn & Hd2 & Hnd & Hc2 & Hnc).
        exists (summary :: new), (document :: nd), (rows ++ nc).
        rewrite Hs, Hd2, Hc2, Hd, Hc, <- !app_assoc.
        repeat split; cbn [List.length map list_sum app];
          try (f_equal; assumption).
        rewrite length_app. simpl. lia.
      * destruct IH
          as [(file' & cause & Hin & He) (nd & nc & Hd2 & Hnd & Hc2)].
        split; [exists file', cause; split; [now right | exact He]|].
        exists (document :: nd), (rows ++ nc).
        rewrite Hd2, Hc2, Hd, Hc, <- !app_assoc.
        repeat split. cbn [List.length]. lia.
    + destruct Hfile as [(cause & He) (nd & nc & Hd & Hnd & Hc)].
      split; [exists file, cause; split; [now left | exact He]|].
      exists nd, nc. split; [exact Hd|]. split; [cbn [List.length]; lia|].
      exact Hc.
Qed.

Lemma check_file_types_accepts uploads w :
  forallb has_pdf_name uploads = true ->
  check_file_types uploads w = (Ok tt, w).
Proof.
  induction uploads as [|file rest IH]; [reflexivity|].
  cbn [forallb check_file_types]. unfold has_pdf_name at 1.
  destruct (Py.endswith _ _); cbn [negb andb]; [exact IH | discriminate].
Qed.

(** The endpoint, case by case. *)
Lemma ingest_documents_eq uploads w :
  ingest_documents uploads w
  = if List.length uploads <? 2 then
      (Raise (HTTPException HTTP_400_BAD_REQUEST
                "Please upload at least 2 PDF files"), w)
    else if forallb has_pdf_name uploads then
      match ingest_files uploads [] w with
      | (Ok processed_docs, w') =>
          (Ok {| IngestResponse.message :=
                   ("Successfully processed "
                      ++ Py.str_nat (List.length processed_docs)
                      ++ " documents")%string;
                 IngestResponse.documents := processed_docs |}, w')
      | (Raise e, w') => (Raise e, w')
      end
    else
      (Raise (match fst (check_file_types uploads w) with
              | Raise e => e
              | Ok _ => HTTPException HTTP_400_BAD_REQUEST ""
              end), w).
Proof.
  unfold ingest_documents. destruct (List.length uploads <? 2);
    [reflexivity|].
  unfold bind. destruct (forallb has_pdf_name uploads) eqn:Hpdf.
  - rewrite (check_file_types_accepts uploads w Hpdf).
    destruct (ingest_files uploads [] w) as [[processed_docs|e] w'];
      reflexivity.
  - destruct (check_file_types_rejects uploads w Hpdf) as [detail Hc].
    now rewrite Hc.
Qed.

(** X13. A successful upload is accounted for. For every upload request
    that [ingest_documents] answers with a response, the request had at
    least two files, all with PDF names; the response lists one summary
    per file and its message gives their number; the store has gained
    exactly one document row per file and exactly as many chunk rows as
    the [total_chunks] of the summaries add up to. *)
Theorem ingest_documents_success_accounting
    (uploads : list UploadFile.t) (w w' : World)
    (response : IngestResponse.t) :
  ingest_documents uploads w = (Ok response, w') ->
  let summaries := IngestResponse.documents response in
  2 <= List.length uploads
  /\ forallb has_pdf_name uploads = true
  /\ List.length summaries = List.length uploads
  /\ IngestResponse.message response
     = ("Successfully processed " ++ Py.str_nat (List.length uploads)
          ++ " documents")%string
  /\ List.length (documents w')
     = List.length (documents w) + List.length uploads
  /\ List.length (document_chunks w')
     = List.length (document_chunks w)
       + list_sum (map Summary.total_chunks summaries).
Proof.
  rewrite ingest_documents_eq.
  destruct (Nat.ltb_spec (List.length uploads) 2) as [|Hlen];
    [discriminate|].
  destruct (forallb has_pdf_name uploads) eqn:Hpdf.
  2:{ discriminate. }
  pose proof (ingest_files_result uploads [] w) as Hfiles.
  destruct (ingest_files uploads [] w) as [[summaries|e] w1];
    [|discriminate].
  intros H. injection H as <- <-. cbv zeta. cbn [IngestResponse.documents
    IngestResponse.message].
  destruct Hfiles as (new & nd & nc & Hs & Hn & Hd & Hnd & Hc & Hnc).
  cbn [app] in Hs. subst summaries.
  rewrite Hd, Hc, !length_app, Hn, Hnd, Hnc. repeat split; lia.
Qed.

(** X14. Ingestion only appends. For every upload request and every
    world, on every outcome of [ingest_documents], the rows that were in
    the two tables are still there, unchanged and in the same order, in
    front of the rows the request has added; at most one document row is
    added per uploaded file. *)
Theorem ingest_documents_only_appends
    (uploads : list UploadFile.t) (w : World) :
  exists new_documents new_chunks,
    documents (snd (ingest_documents uploads w))
    = documents w ++ new_documents
    /\ List.length new_documents <= List.length uploads
    /\ document_chunks (snd (ingest_documents uploads w))
       = document_chunks w ++ new_chunks.
Proof.
  rewrite ingest_documents_eq.
  destruct (List.length uploads <? 2).
  { exists [], []. rewrite !app_nil_r. repeat split. simpl; lia. }
  destruct (forallb has_pdf_name uploads).
  2:{ exists [], []. rewrite !app_nil_r. repeat split. simpl; lia. }
  pose proof (ingest_files_result uploads [] w) as Hfiles.
  destruct (ingest_files uploads [] w) as [[summaries|e] w1]; cbn [snd].
  - destruct Hfiles as (new & nd & nc & _ & _ & Hd & Hnd & Hc & _).
    exists nd, nc. split; [exact Hd|]. split; [lia | exact Hc].
  - destruct Hfiles as [_ (nd & nc & Hd & Hnd & Hc)].
    exists nd, nc. split; [exact Hd|]. split; [exact Hnd | exact Hc].
Qed.




End IngestionOutcomes.

(* ================================================================== *)
(** * Further properties of document processing *)

Lemma set_embedding_fields i embedding :
  forall chunks chunks',
    set_embedding i embedding chunks = Ok chunks' ->
    map provenance chunks' = map provenance chunks
    /\ map Chunk.text chunks' = map Chunk.text chunks.
Proof.
  induction i as [|i IH]; intros [|c chunks] chunks' H; simpl in H;
    try discriminate.
  - injection H as <-. split; reflexivity.
  - destruct (set_embedding i embedding chunks) as [t'|e] eqn:Hset;
      [|discriminate].
    injection H as <-. destruct (IH chunks t' Hset) as [Hp Ht].
    cbn [map]. now rewrite Hp, Ht.
Qed.

Lemma set_embedding_out_of_range i embedding :
  forall chunks,
    List.length chunks <= i ->
    set_embedding i embedding chunks
    = Raise (IndexError "list index out of range").
Proof.
  induction i as [|i IH]; intros [|c chunks] Hlen; simpl in *;
    try reflexivity; try lia.
  rewrite IH by lia. reflexivity.
Qed.

Lemma assign_embeddings_raise (pairs : list (nat * Embedding)) e :
  fold_left
    (fun acc '(i, embedding) =>
       match acc with
       | Ok chunks => set_embedding i embedding chunks
       | Raise e => Raise e
       end)
    pairs (Raise e)
  = Raise e.
Proof.
  induction pairs as [|[i embedding] pairs IH]; [reflexivity | exact IH].
Qed.

Lemma assign_embeddings_fields (pairs : list (nat * Embedding)) :
  forall chunks chunks',
    fold_left
      (fun acc '(i, embedding) =>
         match acc with
         | Ok chunks => set_embedding i embedding chunks
         | Raise e => Raise e
         end)
      pairs (Ok chunks)
    = Ok chunks' ->
    map provenance chunks' = map provenance chunks
    /\ map Chunk.text chunks' = map Chunk.text chunks.
Proof.
  induction pairs as [|[i embedding] pairs IH]; intros chunks chunks' H.
  - injection H as <-. split; reflexivity.
  - cbn [fold_left] in H.
    destruct (set_embedding i embedding chunks) as [chunks1|e] eqn:Hset.
    + destruct (set_embedding_fields _ _ _ Hset) as [Hp Ht].
      destruct (IH chunks1 chunks' H) as [Hp' Ht']. split; congruence.
    + rewrite assign_embeddings_raise in H. discriminate.
Qed.

Lemma assign_embeddings_too_many embeddings :
  forall prefix suffix,
    List.length suffix < List.length embeddings ->
    fold_left
      (fun acc '(i, embedding) =>
         match acc with
         | Ok chunks => set_embedding i embedding chunks
         | Raise e => Raise e
         end)
      (Py.enumerate_from (List.length prefix) embeddings)
      (Ok (prefix ++ suffix))
    = Raise (IndexError "list index out of range").
Proof.
  induction embeddings as [|embedding embeddings IH];
    intros prefix suffix Hlen; simpl in Hlen; [lia|].
  cbn [Py.enumerate_from fold_left].
  destruct suffix as [|chunk suffix].
  - rewrite set_embedding_out_of_range
      by (rewrite length_app; simpl; lia).
    apply assign_embeddings_raise.
  - rewrite set_embedding_at.
    replace (Datatypes.S (List.length prefix))
      with (List.length (prefix ++ [embed_chunk chunk embedding]))
      by (rewrite length_app; simpl; lia).
    replace (prefix ++ embed_chunk chunk embedding :: suffix)
      with ((prefix ++ [embed_chunk chunk embedding]) ++ suffix)
      by (now rewrite <- app_assoc).
    apply IH. simpl in Hlen. lia.
Qed.

Lemma embed_chunks_beyond chunks :
  forall embeddings,
    nth_error (embed_chunks chunks embeddings) (List.length embeddings)
    = nth_error chunks (List.length embeddings).
Proof.
  induction chunks as [|chunk chunks IH]; intros [|embedding embeddings];
    try reflexivity.
  cbn [embed_chunks List.length nth_error]. apply IH.
Qed.

Section DocumentProcessing.

Context {platform : Platform} {splitter : TextSplitter}.
Context {embedder : EmbeddingProvider}.

Lemma create_embeddings_eq chunks w :
  create_embeddings chunks w
  = match embed_documents (map Chunk.text chunks) with
    | Ok chunk_embeddings =>
        (fold_left
           (fun acc '(i, embedding) =>
              match acc with
              | Ok chunks => set_embedding i embedding chunks
              | Raise e => Raise e
              end)
           (Py.enumerate chunk_embeddings) (Ok chunks),
         record_call (EmbedDocuments (map Chunk.text chunks)) w)
    | Raise e =>
        (Raise e, record_call (EmbedDocuments (map Chunk.text chunks)) w)
    end.
Proof.
  unfold create_embeddings, bind, call_provider.
  destruct (embed_documents _); reflexivity.
Qed.

(** X16. A batch of the wrong size. For every list of chunks for which
    the provider returns a number of vectors other than the number of
    chunks: with more vectors than chunks [create_embeddings] raises
    IndexError after the request was sent; with fewer it returns the
    chunks without complaint, the later ones left as they were, and when
    the first of those has no embedding, storing the chunks fails,
    whatever the document id and the state of the store. *)
Theorem create_embeddings_wrong_count
    (chunks : list Chunk.t) (embeddings : list Embedding) (w : World) :
  embed_documents (map Chunk.text chunks) = Ok embeddings ->
  (List.length chunks < List.length embeddings ->
   create_embeddings chunks w
   = (Raise (IndexError "list index out of range"),
      record_call (EmbedDocuments (map Chunk.text chunks)) w))
  /\ (List.length embeddings < List.length chunks ->
      create_embeddings chunks w
      = (Ok (embed_chunks chunks embeddings),
         record_call (EmbedDocuments (map Chunk.text chunks)) w)
      /\ nth_error (embed_chunks chunks embeddings) (List.length embeddings)
         = nth_error chunks (List.length embeddings)
      /\ forall chunk document_id w2,
           nth_error chunks (List.length embeddings) = Some chunk ->
           Chunk.embedding chunk = None ->
           is_ok (fst (store_chunks document_id
                         (embed_chunks chunks embeddings) w2)) = false).
Proof.
  intros Hprovider. rewrite create_embeddings_eq, Hprovider.
  unfold Py.enumerate. split.
  - intros Hmany.
    pose proof (assign_embeddings_too_many embeddings [] chunks Hmany)
      as Hfold.
    cbn [List.length app] in Hfold. now rewrite Hfold.
  - intros Hfew.
    pose proof (assign_embeddings_from embeddings [] chunks) as Hfold.
    cbn [List.length app] in Hfold. rewrite Hfold by lia.
    split; [reflexivity|]. split; [apply embed_chunks_beyond|].
    intros chunk document_id w2 Hnth Hnone.
    rewrite <- embed_chunks_beyond in Hnth.
    exact (@store_chunks_missing_embedding (List.length embeddings)
             document_id (embed_chunks chunks embeddings) chunk w2
             Hnth Hnone).
Qed.

Lemma extract_text_from_pdf_result pdf_path w page_texts total_pages w' :
  extract_text_from_pdf pdf_path w = (Ok (page_texts, total_pages), w') ->
  exists pages,
    lookup_file pdf_path w = Some (Some pages)
    /\ total_pages = List.length pages
    /\ page_texts
       = map (fun e =>
                extract_page_text
                  (check_poppler_installed && PDF2IMAGE_AVAILABLE)
                  (fst e) (snd e))
             (Py.enumerate pages)
    /\ w' = w.
Proof.
  unfold extract_text_from_pdf, bind, PdfReader, ret.
  destruct (lookup_file pdf_path w) as [[pages|]|]; try discriminate.
  unfold Py.enumerate. rewrite extract_loop_from. cbn [app].
  intros H. injection H as <- <- <-. exists pages. repeat split.
Qed.

(** X17. What processing a PDF yields. For every path and world in
    which [process_pdf] returns a processed document: the file holds a
    PDF the reader could parse; [total_pages] is its number of pages and
    [filename] the last component of the path; every chunk carries a
    page number between 1 and [total_pages]; no two chunks share page
    number and chunk index; and the only trace in the world is a single
    request to the embedding provider, holding the texts of the chunks
    in order. *)
Theorem process_pdf_result
    (pdf_path : string) (w w' : World) (processed_doc : ProcessedDoc.t) :
  process_pdf pdf_path w = (Ok processed_doc, w') ->
  exists pages,
    lookup_file pdf_path w = Some (Some pages)
    /\ ProcessedDoc.total_pages processed_doc = List.length pages
    /\ ProcessedDoc.filename processed_doc = Py.path_name pdf_path
    /\ Forall (fun c =>
                 1 <= Chunk.page_number c
                 <= ProcessedDoc.total_pages processed_doc)
              (ProcessedDoc.chunks processed_doc)
    /\ NoDup (map provenance (ProcessedDoc.chunks processed_doc))
    /\ w' = record_call
              (EmbedDocuments
                 (map Chunk.text (ProcessedDoc.chunks processed_doc))) w.
Proof.
  unfold process_pdf, bind at 1.
  destruct (extract_text_from_pdf pdf_path w)
    as [[[page_texts total_pages]|e] w1] eqn:Hextract; [|discriminate].
  destruct (extract_text_from_pdf_result _ _ Hextract)
    as (pages & Hfile & Htotal & Htexts & ->).
  unfold bind, lift. rewrite chunk_text_eq by lia.
  rewrite create_embeddings_eq.
  set (chunks := chunk_pages page_texts 1000 200).
  destruct (embed_documents (map Chunk.text chunks)) as [embeddings|e];
    [|discriminate].
  destruct (fold_left _ _ _) as [embedded|e] eqn:Hfold; [|discriminate].
  unfold ret. intros H. injection H as <- <-.
  cbn [ProcessedDoc.total_pages ProcessedDoc.filename ProcessedDoc.chunks].
  destruct (assign_embeddings_fields _ _ Hfold) as [Hprov Htext].
  assert (Hlen : List.length page_texts = total_pages).
  { rewrite Htexts, Htotal, length_map. apply length_enumerate_from. }
  destruct (provenance_block_from 1000 200 page_texts 0) as [Hnodup Hpages].
  change (Py.enumerate_from 0 page_texts)
    with (Py.enumerate page_texts) in Hnodup, Hpages.
  rewrite <- chunk_pages_eq in Hnodup, Hpages.
  fold chunks in Hnodup, Hpages.
  exists pages. split; [exact Hfile|]. split; [exact Htotal|].
  split; [reflexivity|]. split; [| split].
  - change (fun c => 1 <= Chunk.page_number c <= total_pages)
      with (fun c => (fun pr => 1 <= fst pr <= total_pages) (provenance c)).
    apply Forall_map. rewrite Hprov. apply Forall_map.
    eapply Forall_impl; [| exact Hpages].
    intros c Hc. unfold provenance. cbn [fst]. cbv beta in Hc. lia.
  - now rewrite Hprov.
  - now rewrite Htext.
Qed.

Lemma extract_page_text_without_ocr_not_blank page_num page :
  Py.whitespace_only (extract_page_text false page_num page) = false.
Proof.
  destruct (Py.whitespace_only (extract_text page)) eqn:Hws.
  - apply PyFacts.strip_empty_iff in Hws.
    now rewrite extract_page_text_no_ocr.
  - rewrite extract_page_text_direct; [exact Hws|].
    intros Hstrip. apply PyFacts.strip_empty_iff in Hstrip. congruence.
Qed.

(** X18. Without OCR no page text is blank. For every platform on which
    OCR is not available and every PDF the reader can parse, none of the
    page texts [extract_text_from_pdf] returns is empty or blank: a page
    without text comes out as the placeholder sentence.  The chunker
    therefore passes over none of these pages and hands each of them,
    placeholder included, to the splitter: for every chunk size and
    every overlap that is not larger, the texts of the chunks of each
    page are the pieces the splitter returns for the text of the
    page. *)
Theorem extract_text_from_pdf_without_ocr_not_blank
    (pdf_path : string) (w w' : World) (page_texts : list string)
    (total_pages chunk_size chunk_overlap : nat) :
  check_poppler_installed && PDF2IMAGE_AVAILABLE = false ->
  extract_text_from_pdf pdf_path w = (Ok (page_texts, total_pages), w') ->
  chunk_overlap <= chunk_size ->
  Forall (fun text => Py.whitespace_only text = false) page_texts
  /\ exists chunks,
       chunk_text page_texts chunk_size chunk_overlap = Ok chunks
       /\ forall p,
            p < List.length page_texts ->
            map Chunk.text (chunks_of_page (p + 1) chunks)
            = split_text chunk_size chunk_overlap
                         (nth p page_texts ""%string).
Proof.
  intros Hocr Hextract Hle.
  destruct (extract_text_from_pdf_result _ _ Hextract)
    as (pages & _ & _ & Htexts & _).
  rewrite Hocr in Htexts.
  assert (Hall : Forall (fun text => Py.whitespace_only text = false)
                        page_texts).
  { rewrite Htexts. apply Forall_forall. intros text Hin.
    apply in_map_iff in Hin as (e & <- & _).
    apply extract_page_text_without_ocr_not_blank. }
  split; [exact Hall|].
  exists (chunk_pages page_texts chunk_size chunk_overlap).
  split; [now apply chunk_text_eq|].
  intros p Hp. rewrite chunk_pages_texts.
  unfold page_pieces.
  destruct (Py.truthy (nth p page_texts ""%string)) eqn:Ht; [reflexivity|].
  apply PyFacts.truthy_false in Ht.
  rewrite Forall_forall in Hall.
  specialize (Hall _ (nth_In page_texts ""%string Hp)).
  rewrite Ht in Hall. discriminate.
Qed.

End DocumentProcessing.

(* ================================================================== *)
(** * Further properties of the client *)

Lemma lower_append s1 s2 :
  Py.lower (s1 ++ s2) = (Py.lower s1 ++ Py.lower s2)%string.
Proof.
  induction s1 as [|c s1 IH]; [reflexivity|]. cbn. now rewrite IH.
Qed.

Lemma lower_append_inv prefix :
  forall s suffix,
    Py.lower s = (prefix ++ suffix)%string ->
    exists s1 s2,
      s = (s1 ++ s2)%string /\ Py.lower s1 = prefix
      /\ Py.lower s2 = suffix.
Proof.
  induction prefix as [|c prefix IH]; intros s suffix H.
  - exists ""%string, s. repeat split. exact H.
  - destruct s as [|c0 s]; [discriminate|]. cbn in H.
    injection H as Hc Hs. destruct (IH s suffix Hs) as (s1 & s2 & -> & H1 & H2).
    exists (String c0 s1), s2. cbn. rewrite Hc, H1. repeat split. exact H2.
Qed.

Lemma substring_whole s : substring 0 (String.length s) s = s.
Proof.
  induction s as [|c s IH]; [reflexivity|]. cbn. now rewrite IH.
Qed.

Lemma substring_after_prefix prefix :
  forall s,
    substring (String.length prefix) (String.length s) (prefix ++ s) = s.
Proof.
  induction prefix as [|c prefix IH]; intros s; cbn.
  - apply substring_whole.
  - apply IH.
Qed.

Lemma substring_split s :
  forall n,
    n <= String.length s ->
    s = (substring 0 n s ++ substring n (String.length s - n) s)%string.
Proof.
  induction s as [|c s IH]; intros [|n] Hn; cbn in *; try reflexivity;
    try lia.
  - now rewrite substring_whole.
  - f_equal. apply IH. lia.
Qed.

Lemma endswith_append prefix suffix :
  Py.endswith (prefix ++ suffix) suffix = true.
Proof.
  unfold Py.endswith. rewrite PyFacts.length_append.
  replace (String.length prefix + String.length suffix
           - String.length suffix) with (String.length prefix) by lia.
  rewrite substring_after_prefix, String.eqb_refl.
  apply andb_true_iff. split; [apply Nat.leb_le; lia | reflexivity].
Qed.

Lemma endswith_inv s suffix :
  Py.endswith s suffix = true -> exists prefix, s = (prefix ++ suffix)%string.
Proof.
  unfold Py.endswith. intros H. apply andb_true_iff in H as [Hlen Heq].
  apply Nat.leb_le in Hlen. apply String.eqb_eq in Heq.
  exists (substring 0 (String.length s - String.length suffix) s).
  pose proof (@substring_split s
                (String.length s - String.length suffix)) as Hsplit.
  replace (String.length s - (String.length s - String.length suffix))
    with (String.length suffix) in Hsplit by lia.
  rewrite Heq in Hsplit. apply Hsplit. lia.
Qed.

Lemma path_name_from_suffix suffix :
  (forall acc, Py.path_name_from acc suffix = acc) ->
  forall prefix acc acc_prefix,
    acc = (acc_prefix ++ suffix)%string ->
    exists name_prefix,
      Py.path_name_from acc (prefix ++ suffix)
      = (name_prefix ++ suffix)%string.
Proof.
  intros Hsuffix. induction prefix as [|c prefix IH]; intros acc acc_prefix ->.
  - exists acc_prefix. apply Hsuffix.
  - cbn. destruct (Ascii.eqb c "/"%char).
    + now apply (IH _ prefix).
    + now apply (IH _ acc_prefix).
Qed.

Lemma pdf_suffix_without_slash suffix :
  Py.lower suffix = ".pdf"%string ->
  forall acc, Py.path_name_from acc suffix = acc.
Proof.
  intros H acc.
  destruct suffix as [|c1 [|c2 [|c3 [|c4 [|c5 rest]]]]]; try discriminate.
  cbn in H. injection H as H1 H2 H3 H4. cbn.
  destruct (Ascii.eqb_spec c1 "/"%char) as [->|_]; [discriminate|].
  destruct (Ascii.eqb_spec c2 "/"%char) as [->|_]; [discriminate|].
  destruct (Ascii.eqb_spec c3 "/"%char) as [->|_]; [discriminate|].
  destruct (Ascii.eqb_spec c4 "/"%char) as [->|_]; [discriminate|].
  reflexivity.
Qed.

Lemma os_path_basename_keeps_pdf_suffix pdf_file :
  Py.endswith (Py.lower pdf_file) ".pdf" = true ->
  Py.endswith (Py.lower (os_path_basename pdf_file)) ".pdf" = true.
Proof.
  intros H. apply endswith_inv in H as [prefix H].
  apply lower_append_inv in H as (s1 & s2 & -> & _ & Hs2).
  destruct (@path_name_from_suffix s2
              (@pdf_suffix_without_slash s2 Hs2) s1 _ s1 eq_refl)
    as [name_prefix Hname].
  unfold os_path_basename. rewrite Hname, lower_append, Hs2.
  apply endswith_append.
Qed.

Lemma prepare_files_spec w pdf_files :
  forall files uploads,
    prepare_files w pdf_files files = Some uploads ->
    exists new,
      uploads = files ++ new
      /\ Forall2
           (fun pdf_file upload =>
              UploadFile.filename upload = os_path_basename pdf_file
              /\ lookup_file pdf_file w = Some (UploadFile.content upload)
              /\ has_pdf_name upload = true)
           pdf_files new.
Proof.
  induction pdf_files as [|pdf_file rest IH]; intros files uploads H.
  - injection H as <-. exists []. rewrite app_nil_r. split; constructor.
  - cbn [prepare_files] in H.
    destruct (lookup_file pdf_file w) as [content|] eqn:Hfile;
      [|discriminate].
    destruct (Py.endswith (Py.lower pdf_file) ".pdf") eqn:Hpdf;
      [|discriminate].
    cbn [negb] in H. destruct (IH _ _ H) as (new & -> & Hnew).
    eexists. rewrite <- app_assoc. split; [reflexivity|].
    constructor; [|exact Hnew]. cbn. split; [reflexivity|].
    split; [exact Hfile|].
    unfold has_pdf_name. cbn [UploadFile.filename].
    now apply os_path_basename_keeps_pdf_suffix.
Qed.

Section Client.

Context {platform : Platform} {splitter : TextSplitter}.
Context {embedder : EmbeddingProvider}.

(** X19. What the client posts, the endpoint does not reject. For every
    file system and list of paths for which the client of [test_api.py]
    posts a request to [/ingest]: the request holds one upload for each
    path, in order, named by the last component of the path and holding
    the content of the file at that path; and whatever the state of the
    server, [ingest_documents] does not answer it with status 400: taking
    the last component of a path keeps its PDF suffix, so both
    validations of the endpoint pass. *)
Theorem client_request_passes_validation
    (w : World) (pdf_files : list string) (uploads : list UploadFile.t) :
  client_ingest_request w pdf_files = Some uploads ->
  Forall2
    (fun pdf_file upload =>
       UploadFile.filename upload = os_path_basename pdf_file
       /\ lookup_file pdf_file w = Some (UploadFile.content upload)
       /\ has_pdf_name upload = true)
    pdf_files uploads
  /\ forall server detail,
       fst (ingest_documents uploads server)
       <> Raise (HTTPException HTTP_400_BAD_REQUEST detail).
Proof.
  unfold client_ingest_request.
  destruct (Nat.ltb_spec (List.length pdf_files) 2) as [|Hlen];
    [discriminate|].
  intros H. apply prepare_files_spec in H as (new & -> & Hnew).
  cbn [app]. split; [exact Hnew|].
  intros server detail. rewrite ingest_documents_eq.
  rewrite <- (Forall2_length Hnew).
  destruct (Nat.ltb_spec (List.length pdf_files) 2) as [|_]; [lia|].
  assert (Hpdf : forallb has_pdf_name new = true).
  { clear Hlen. induction Hnew as [|pdf_file upload rest new' Hu _ IH];
      [reflexivity|].
    cbn [forallb]. destruct Hu as (_ & _ & ->). exact IH. }
  rewrite Hpdf.
  pose proof (ingest_files_result new [] server) as Hfiles.
  destruct (ingest_files new [] server) as [[summaries|e] server'];
    [discriminate|].
  destruct Hfiles as [(file & cause & _ & ->) _].
  cbn [fst]. unfold processing_error.
  destruct (Py.contains _ _); intros Heq; injection Heq as Hstatus _;
    discriminate Hstatus.
Qed.

End Client.

(* ================================================================== *)
(** * The model on concrete requests *)

(** The chunker on three pages, the second of blanks, the third empty,
    with the sizes of [process_pdf]: the indices of the first page. *)
Lemma chunk_text_indices_run :
  200 <= 1000
  /\ exists chunks,
       chunk_text (splitter := Demo.recursive_splitter)
         ["Alpha Beta"; "   "; ""]%string 1000 200 = Ok chunks
       /\ map Chunk.text (chunks_of_page 1 chunks) = ["Alpha Beta"%string]
       /\ map Chunk.chunk_index (chunks_of_page 1 chunks) = [0]
       /\ NoDup (map provenance chunks).
Proof.
  assert (Hle : 200 <= 1000) by lia.
  split; [exact Hle|].
  destruct (@chunk_text_contiguous_indices Demo.recursive_splitter
              ["Alpha Beta"; "   "; ""]%string 1000 200 0 Hle)
    as (chunks & Hrun & Htexts & Hindices & _ & Hnodup).
  exists chunks. split; [exact Hrun|]. split; [exact Htexts|].
  split; [exact Hindices | exact Hnodup].
Defined.

(** With a chunk size of 1 the page that holds one blank gives one
    chunk, the blank; with an overlap larger than the chunk size the
    chunker raises. *)
Lemma chunk_text_blank_page_kept :
  Py.whitespace_only " " = true
  /\ chunk_text (splitter := Demo.recursive_splitter) [" "%string] 1 0
     = Ok [ {| Chunk.text := " "; Chunk.page_number := 1;
               Chunk.chunk_index := 0; Chunk.embedding := None |} ]
  /\ exists msg,
       chunk_text (splitter := Demo.recursive_splitter) [" "%string] 100 200
       = Raise (ValueError msg).
Proof.
  split; [reflexivity|]. split; [reflexivity|].
  eexists. vm_compute. reflexivity.
Qed.

(** Extraction of the three-page scan where OCR is not available. *)
Lemma extract_scan_run :
  lookup_file "/tmp/scan.pdf" Demo.world_with_scan
  = Some (Some Demo.scanned_pdf)
  /\ exists page_texts,
       extract_text_from_pdf (platform := Demo.no_ocr_platform)
         "/tmp/scan.pdf" Demo.world_with_scan
       = (Ok (page_texts, 3), Demo.world_with_scan)
       /\ List.length page_texts = 3.
Proof.
  split; [reflexivity|].
  destruct (extract_text_from_pdf_one_text_per_page
              (platform := Demo.no_ocr_platform)
              "/tmp/scan.pdf" Demo.world_with_scan
              (pages := Demo.scanned_pdf) eq_refl)
    as (page_texts & Hrun & Hlen & _).
  exists page_texts. split; [exact Hrun | exact Hlen].
Defined.

(** The fallback answer on the empty store. *)
Lemma answer_query_empty_store_run :
  document_chunks empty_world = []
  /\ embed_query (EmbeddingProvider := Demo.axis_embedder) "What is Alpha?"
     = Ok (Demo.axis_of_text "What is Alpha?")
  /\ answer_query (embedder := Demo.axis_embedder) (chat := Demo.fixed_chat)
       (metric := Demo.unit_metric) (engine := Demo.oldest_first_engine)
       "What is Alpha?" empty_world
     = (Ok {| Answer.answer := NO_INFORMATION_ANSWER; Answer.sources := [] |},
        record_call (EmbedQuery "What is Alpha?") empty_world).
Proof.
  split; [reflexivity|]. split; [reflexivity|].
  apply (answer_query_empty_corpus
           (embedder := Demo.axis_embedder) (chat := Demo.fixed_chat)
           (metric := Demo.unit_metric) (contract := oldest_first_contract)
           "What is Alpha?" empty_world
           (query_embedding := Demo.axis_of_text "What is Alpha?")
           eq_refl eq_refl).
Defined.

(** top_k = 5 against a store of exactly two chunks: two chunks come
    back. *)
Lemma semantic_search_two_chunks_run :
  (1 <= 5)%Z
  /\ (Z.of_nat (List.length (document_chunks Demo.two_chunk_world)) < 5)%Z
  /\ same_dimension (Demo.axis 0) (document_chunks Demo.two_chunk_world)
  /\ exists rows,
       semantic_search (metric := Demo.unit_metric)
         (engine := Demo.oldest_first_engine) (Demo.axis 0) 5
         Demo.two_chunk_world
       = (Ok rows, Demo.two_chunk_world)
       /\ List.length rows = 2.
Proof.
  assert (H1 : (1 <= 5)%Z) by lia.
  assert (H2 : (Z.of_nat (List.length (document_chunks Demo.two_chunk_world))
                < 5)%Z) by (vm_compute; reflexivity).
  assert (H3 : same_dimension (Demo.axis 0)
                 (document_chunks Demo.two_chunk_world))
    by (apply same_dimension_forallb; vm_compute; reflexivity).
  split; [exact H1|]. split; [exact H2|]. split; [exact H3|].
  destruct (@semantic_search_limit_beyond_count Demo.unit_metric
              Demo.oldest_first_engine oldest_first_contract
              (Demo.axis 0) 5 Demo.two_chunk_world H1 H2)
    as [Hruns _].
  destruct Hruns as (rows & Hrun & _ & Hlen & _); [lia | exact H3 |].
  exists rows. split; [exact Hrun|].
  rewrite Hlen. vm_compute. reflexivity.
Defined.

(** Against the same store a limit of 2^63 is refused, and so is a
    query embedding of three entries. *)
Lemma semantic_search_refused_run :
  (1 <= 9223372036854775808)%Z
  /\ (Z.of_nat (List.length (document_chunks Demo.two_chunk_world))
      < 9223372036854775808)%Z
  /\ (exists msg,
        semantic_search (metric := Demo.unit_metric)
          (engine := Demo.oldest_first_engine) (Demo.axis 0)
          9223372036854775808 Demo.two_chunk_world
        = (Raise (DataError msg), Demo.two_chunk_world))
  /\ (exists msg,
        semantic_search (metric := Demo.unit_metric)
          (engine := Demo.oldest_first_engine) [1%Q; 0%Q; 0%Q]
          5 Demo.two_chunk_world
        = (Raise (DataError msg), Demo.two_chunk_world)).
Proof.
  split; [lia|]. split; [vm_compute; reflexivity|].
  split; eexists; vm_compute; reflexivity.
Qed.

(** Without ties the search returns the stored chunks in the order of
    their distances. *)
Lemma semantic_search_determined_run :
  exists a b,
    document_chunks Demo.two_chunk_world = [a; b]
    /\ distinct_distance (metric := Demo.unit_metric) (Demo.axis 0) a b
    /\ ranked (metric := Demo.unit_metric) (Demo.axis 0) [a; b]
    /\ semantic_search (metric := Demo.unit_metric)
         (engine := Demo.oldest_first_engine) (Demo.axis 0) 5
         Demo.two_chunk_world
       = (Ok [a; b], Demo.two_chunk_world).
Proof.
  assert (Hrows : exists a b,
             document_chunks Demo.two_chunk_world = [a; b]
             /\ distinct_distance (metric := Demo.unit_metric)
                  (Demo.axis 0) a b
             /\ nearer_or_equal (metric := Demo.unit_metric)
                  (Demo.axis 0) a b).
  { eexists. eexists. split; [vm_compute; reflexivity|]. split.
    - intros Heq. vm_compute in Heq. discriminate Heq.
    - apply Qle_bool_iff. vm_compute. reflexivity. }
  destruct Hrows as (a & b & Hrows & Hab & Hle).
  assert (Hranked : ranked (metric := Demo.unit_metric) (Demo.axis 0) [a; b])
    by (repeat constructor; exact Hle).
  assert (Hdim : same_dimension (Demo.axis 0)
                   (document_chunks Demo.two_chunk_world))
    by (apply same_dimension_forallb; vm_compute; reflexivity).
  assert (Hties : ForallOrdPairs
                    (distinct_distance (metric := Demo.unit_metric)
                       (Demo.axis 0))
                    (document_chunks Demo.two_chunk_world))
    by (rewrite Hrows; repeat constructor; exact Hab).
  assert (Hperm : Permutation (document_chunks Demo.two_chunk_world) [a; b])
    by (rewrite Hrows; apply Permutation_refl).
  assert (Hl : (0 <= 5 <= 9223372036854775807)%Z) by lia.
  exists a, b. split; [exact Hrows|]. split; [exact Hab|].
  split; [exact Hranked|].
  exact (@semantic_search_unique_without_ties Demo.unit_metric
           Demo.oldest_first_engine oldest_first_contract
           (Demo.axis 0) 5 Demo.two_chunk_world [a; b]
           Hl Hdim Hties Hperm Hranked).
Defined.

(** Five chunks at the same distance from the query, stored under the
    ids 1 to 5: with LIMIT 2 the sort of the database keeps a heap of
    two rows and hands over the chunk of id 2 before the chunk of
    id 1.  Among the two chunks of the store of twins, with LIMIT 5,
    it hands over the older first. *)
Lemma semantic_search_tie_not_insertion_order :
  map DocumentChunk.id (document_chunks Demo.five_copies_world)
  = [1; 2; 3; 4; 5]%Z
  /\ forallb (fun chunk =>
                Qeq_bool (cosine_distance (VectorMetric := Demo.unit_metric)
                            (DocumentChunk.embedding chunk) (Demo.axis 0))
                         0)
             (document_chunks Demo.five_copies_world) = true
  /\ (exists rows,
        semantic_search (metric := Demo.unit_metric)
          (engine := Demo.tuplesort_engine) (Demo.axis 0) 2
          Demo.five_copies_world
        = (Ok rows, Demo.five_copies_world)
        /\ map DocumentChunk.id rows = [2; 1]%Z)
  /\ (exists rows,
        semantic_search (metric := Demo.unit_metric)
          (engine := Demo.tuplesort_engine) (Demo.axis 0) 5
          Demo.twin_world
        = (Ok rows, Demo.twin_world)
        /\ map DocumentChunk.id rows = [1; 2]%Z).
Proof.
  split; [vm_compute; reflexivity|].
  split; [vm_compute; reflexivity|].
  split; eexists; split; vm_compute; reflexivity.
Qed.

(** top_k = 0 is answered with the empty list. *)
Lemma retrieve_top_k_zero_run :
  (0 <= 0)%Z
  /\ embed_query (EmbeddingProvider := Demo.axis_embedder) "What is Alpha?"
     = Ok (Demo.axis_of_text "What is Alpha?")
  /\ retrieve_relevant_chunks (embedder := Demo.axis_embedder)
       (metric := Demo.unit_metric) (engine := Demo.oldest_first_engine)
       "What is Alpha?" 0 Demo.two_chunk_world
     = (Ok [], record_call (EmbedQuery "What is Alpha?") Demo.two_chunk_world).
Proof.
  split; [lia|]. split; [reflexivity|].
  apply (retrieve_relevant_chunks_nonpositive_top_k
           (embedder := Demo.axis_embedder) (metric := Demo.unit_metric)
           (engine := Demo.oldest_first_engine)
           "What is Alpha?" Demo.two_chunk_world
           (query_embedding := Demo.axis_of_text "What is Alpha?")
           (Z.le_refl 0) eq_refl).
  reflexivity.
Defined.

(** top_k = 0 on a store of two chunks: no error. *)
Lemma retrieve_top_k_zero_not_rejected :
  (0 <= 0)%Z
  /\ fst (retrieve_relevant_chunks (embedder := Demo.axis_embedder)
            (metric := Demo.unit_metric) (engine := Demo.oldest_first_engine)
            "What is Alpha?" 0 Demo.two_chunk_world)
     = Ok [].
Proof. split; [lia | vm_compute; reflexivity]. Qed.

(** The sources of an answer over the store of two chunks. *)
Lemma answer_query_two_chunks_run :
  exists chunks sources w1 w2,
    retrieve_relevant_chunks (embedder := Demo.axis_embedder)
      (metric := Demo.unit_metric) (engine := Demo.oldest_first_engine)
      "What is Alpha?" 5 Demo.two_chunk_world
    = (Ok chunks, w1)
    /\ chunks <> []
    /\ generate_answer (chat := Demo.fixed_chat) "What is Alpha?" chunks w1
       = (Ok "Alpha is the first letter."%string, w2)
    /\ answer_query (embedder := Demo.axis_embedder) (chat := Demo.fixed_chat)
         (metric := Demo.unit_metric) (engine := Demo.oldest_first_engine)
         "What is Alpha?" Demo.two_chunk_world
       = (Ok {| Answer.answer := "Alpha is the first letter.";
                Answer.sources := sources |}, w2)
    /\ Forall2 source_shows chunks sources
    /\ map Source.text_snippet sources
       = ["Alpha Beta"; "Gamma Delta"]%string.
Proof.
  pose (chunks :=
          [ {| Retrieved.text := "Alpha Beta"; Retrieved.document_id := 1;
               Retrieved.page_number := 1; Retrieved.chunk_index := 0 |};
            {| Retrieved.text := "Gamma Delta"; Retrieved.document_id := 2;
               Retrieved.page_number := 1; Retrieved.chunk_index := 0 |} ]).
  pose (w1 := record_call (EmbedQuery "What is Alpha?") Demo.two_chunk_world).
  pose (w2 := snd (generate_answer (chat := Demo.fixed_chat)
                     "What is Alpha?" chunks w1)).
  assert (Hr : retrieve_relevant_chunks (embedder := Demo.axis_embedder)
                 (metric := Demo.unit_metric)
                 (engine := Demo.oldest_first_engine)
                 "What is Alpha?" 5 Demo.two_chunk_world
               = (Ok chunks, w1)) by (vm_compute; reflexivity).
  assert (Hne : chunks <> []) by discriminate.
  assert (Hg : generate_answer (chat := Demo.fixed_chat)
                 "What is Alpha?" chunks w1
               = (Ok "Alpha is the first letter."%string, w2))
    by reflexivity.
  destruct (@answer_query_sources Demo.axis_embedder Demo.fixed_chat
              Demo.unit_metric Demo.oldest_first_engine
              "What is Alpha?" Demo.two_chunk_world w1 w2 chunks
              "Alpha is the first letter." Hr Hne Hg)
    as (sources & Hrun & Hshow).
  exists chunks, sources, w1, w2.
  repeat (split; [assumption|]).
  apply (f_equal fst) in Hrun.
  assert (Hs : sources = map source_of chunks).
  { vm_compute in Hrun. injection Hrun as <-. reflexivity. }
  rewrite Hs. reflexivity.
Defined.

(** A stored text of 203 characters that ends in three dots comes back
    whole as its own snippet; the snippet of a text of 201 characters is
    longer than the text and no prefix of it. *)
Lemma answer_query_snippet_is_full_text :
  map DocumentChunk.text (document_chunks Demo.dotted_world)
  = [Demo.dotted_text; "Gamma Delta"%string]
  /\ String.length Demo.dotted_text = 203
  /\ text_snippet_of Demo.dotted_text = Demo.dotted_text
  /\ String.prefix
       (text_snippet_of (string_of_list_ascii (repeat "a"%char 201)))
       (string_of_list_ascii (repeat "a"%char 201)) = false
  /\ exists sources,
       fst (answer_query (embedder := Demo.axis_embedder)
              (chat := Demo.fixed_chat) (metric := Demo.unit_metric)
              (engine := Demo.oldest_first_engine)
              "What is Alpha?" Demo.dotted_world)
       = Ok {| Answer.answer := "Alpha is the first letter.";
               Answer.sources := sources |}
       /\ map Source.text_snippet sources
          = [Demo.dotted_text; "Gamma Delta"%string].
Proof.
  split; [vm_compute; reflexivity|].
  split; [vm_compute; reflexivity|].
  split; [vm_compute; reflexivity|].
  split; [vm_compute; reflexivity|].
  eexists. split; vm_compute; reflexivity.
Qed.

(** An upload interrupted while the chunks of its first document, of two
    pages and two chunks, are stored, the provider having returned a
    vector of three entries for the second chunk: the document row and
    the first of its two chunks stay. *)
Lemma ingest_documents_leaves_partial_document :
  (exists detail,
      fst Demo.interrupted_ingest
      = Raise (HTTPException HTTP_500_INTERNAL_SERVER_ERROR detail))
  /\ map Document.id (documents (snd Demo.interrupted_ingest)) = [1%Z]
  /\ map (fun c => (DocumentChunk.document_id c, DocumentChunk.text c))
         (document_chunks (snd Demo.interrupted_ingest))
     = [(1%Z, "Alpha Beta"%string)]
  /\ chunk_text (splitter := Demo.recursive_splitter)
       ["Alpha Beta"; "Gamma Delta"]%string 1000 200
     = Ok (Demo.two_page_chunks "Alpha Beta" "Gamma Delta").
Proof.
  split; [eexists; vm_compute; reflexivity|].
  split; [vm_compute; reflexivity|].
  split; vm_compute; reflexivity.
Qed.

(** A document whose second page holds a NUL, with a provider that
    returns a vector of the right dimension for every text: the
    document row and the row of the first chunk are written, the
    second chunk is refused, and the turn ends in the HTTP error
    500. *)
Lemma ingest_file_nul_text_run :
  exists processed_doc,
    fst (process_pdf (platform := Demo.no_ocr_platform)
           (splitter := Demo.recursive_splitter)
           (embedder := Demo.axis_embedder)
           (next_temp_path empty_world)
           (create_temp_file (next_temp_path empty_world)
              (UploadFile.content Demo.doc_nul) empty_world))
    = Ok processed_doc
    /\ List.length (ProcessedDoc.chunks processed_doc) = 2
    /\ map Document.id
         (documents
            (snd (ingest_file (platform := Demo.no_ocr_platform)
                    (splitter := Demo.recursive_splitter)
                    (embedder := Demo.axis_embedder)
                    Demo.doc_nul empty_world)))
       = [1%Z]
    /\ List.length
         (document_chunks
            (snd (ingest_file (platform := Demo.no_ocr_platform)
                    (splitter := Demo.recursive_splitter)
                    (embedder := Demo.axis_embedder)
                    Demo.doc_nul empty_world)))
       = 1.
Proof.
  pose proof (@ingest_file_keeps_committed_rows Demo.no_ocr_platform
                Demo.recursive_splitter Demo.axis_embedder
                Demo.doc_nul empty_world) as Hturn.
  cbv zeta in Hturn.
  assert (Hpdf : exists processed_doc,
             fst (process_pdf (platform := Demo.no_ocr_platform)
                    (splitter := Demo.recursive_splitter)
                    (embedder := Demo.axis_embedder)
                    (next_temp_path empty_world)
                    (create_temp_file (next_temp_path empty_world)
                       (UploadFile.content Demo.doc_nul) empty_world))
             = Ok processed_doc
             /\ List.length (ProcessedDoc.chunks processed_doc) = 2
             /\ document_taken (ProcessedDoc.filename processed_doc)
                  (ProcessedDoc.total_pages processed_doc) empty_world
                = true
             /\ List.length
                  (stored_rows (document_chunks_id_seq empty_world)
                     (Document.id (document_row empty_world processed_doc))
                     (ProcessedDoc.chunks processed_doc)) = 1)
    by (eexists; repeat split; vm_compute; reflexivity).
  destruct Hpdf as (processed_doc & Hpdf & Hchunks & Htaken & Hrows).
  rewrite Hpdf, Htaken in Hturn. destruct Hturn as (Hd & Hc & _).
  exists processed_doc. split; [exact Hpdf|]. split; [exact Hchunks|].
  rewrite Hd, Hc. split; [reflexivity|].
  rewrite length_app, Hrows. reflexivity.
Defined.

(** top_k = 1 against the store of the two documents: the chunk of the
    first document comes back for a question about Alpha. *)
Lemma semantic_search_top_one_run :
  (0 <= 1 <= 9223372036854775807)%Z
  /\ same_dimension (Demo.axis_of_text "What is Alpha?")
       (document_chunks Demo.two_chunk_world)
  /\ exists rows rest,
       semantic_search (metric := Demo.unit_metric)
         (engine := Demo.oldest_first_engine)
         (Demo.axis_of_text "What is Alpha?") 1 Demo.two_chunk_world
       = (Ok rows, Demo.two_chunk_world)
       /\ Permutation (document_chunks Demo.two_chunk_world) (rows ++ rest)
       /\ map DocumentChunk.text rows = ["Alpha Beta"%string].
Proof.
  assert (H0 : (0 <= 1 <= 9223372036854775807)%Z) by lia.
  assert (Hdim : same_dimension (Demo.axis_of_text "What is Alpha?")
                   (document_chunks Demo.two_chunk_world))
    by (apply same_dimension_forallb; vm_compute; reflexivity).
  split; [exact H0|]. split; [exact Hdim|].
  destruct (@semantic_search_returns_nearest Demo.unit_metric
              Demo.oldest_first_engine oldest_first_contract
              (Demo.axis_of_text "What is Alpha?") 1 Demo.two_chunk_world
              H0 Hdim)
    as (rows & rest & Hrun & Hperm & _).
  exists rows, rest. split; [exact Hrun|]. split; [exact Hperm|].
  apply (f_equal fst) in Hrun. vm_compute in Hrun.
  injection Hrun as <-. reflexivity.
Defined.

(** Referential integrity survives the interrupted upload. *)
Lemma interrupted_ingest_referential_integrity :
  referential_integrity empty_world
  /\ referential_integrity (snd Demo.interrupted_ingest).
Proof.
  assert (H0 : referential_integrity empty_world) by constructor.
  split; [exact H0|].
  apply (@ingest_documents_referential_integrity Demo.no_ocr_platform
           Demo.recursive_splitter Demo.first_only_embedder
           [Demo.doc_ab; Demo.doc_b] empty_world H0).
Defined.

(** A request with a text file among its two files is rejected. *)
Lemma ingest_text_file_run :
  exists detail,
    ingest_documents (platform := Demo.no_ocr_platform)
      (splitter := Demo.recursive_splitter) (embedder := Demo.axis_embedder)
      [Demo.doc_a; Demo.upload "notes.txt" "Gamma"] empty_world
    = (Raise (HTTPException HTTP_400_BAD_REQUEST detail), empty_world).
Proof.
  apply (@ingest_documents_rejects_invalid_request Demo.no_ocr_platform
           Demo.recursive_splitter Demo.axis_embedder
           [Demo.doc_a; Demo.upload "notes.txt" "Gamma"] empty_world
           (or_intror eq_refl)).
Defined.

(** The chunks of two pages get the two vectors of the batch. *)
Lemma create_embeddings_run :
  exists embedded,
    create_embeddings (embedder := Demo.axis_embedder)
      (Demo.two_page_chunks "Gamma" "Delta") empty_world
    = (Ok embedded,
       record_call (EmbedDocuments ["Gamma"; "Delta"]%string) empty_world)
    /\ map Chunk.embedding embedded = [Some (Demo.axis 1); Some (Demo.axis 0)].
Proof.
  destruct (@create_embeddings_in_order Demo.axis_embedder
              (Demo.two_page_chunks "Gamma" "Delta")
              [Demo.axis 1; Demo.axis 0] empty_world eq_refl eq_refl)
    as (embedded & Hrun & Hemb & _).
  exists embedded. split; [exact Hrun | exact Hemb].
Defined.

(** One request to the language model for the store of two chunks. *)
Lemma answer_query_one_request_run :
  exists chunks w1 user_prompt,
    retrieve_relevant_chunks (embedder := Demo.axis_embedder)
      (metric := Demo.unit_metric) (engine := Demo.oldest_first_engine)
      "What is Alpha?" 5 Demo.two_chunk_world
    = (Ok chunks, w1)
    /\ chunks <> []
    /\ provider_calls
         (snd (answer_query (embedder := Demo.axis_embedder)
                 (chat := Demo.fixed_chat) (metric := Demo.unit_metric)
                 (engine := Demo.oldest_first_engine)
                 "What is Alpha?" Demo.two_chunk_world))
       = provider_calls w1
           ++ [ChatCompletion "gpt-3.5-turbo" system_prompt user_prompt].
Proof.
  pose (chunks :=
          [ {| Retrieved.text := "Alpha Beta"; Retrieved.document_id := 1;
               Retrieved.page_number := 1; Retrieved.chunk_index := 0 |};
            {| Retrieved.text := "Gamma Delta"; Retrieved.document_id := 2;
               Retrieved.page_number := 1; Retrieved.chunk_index := 0 |} ]).
  pose (w1 := record_call (EmbedQuery "What is Alpha?") Demo.two_chunk_world).
  assert (Hr : retrieve_relevant_chunks (embedder := Demo.axis_embedder)
                 (metric := Demo.unit_metric)
                 (engine := Demo.oldest_first_engine)
                 "What is Alpha?" 5 Demo.two_chunk_world
               = (Ok chunks, w1)) by (vm_compute; reflexivity).
  assert (Hne : chunks <> []) by discriminate.
  destruct (@answer_query_single_generation_request Demo.axis_embedder
              Demo.fixed_chat Demo.unit_metric Demo.oldest_first_engine
              "What is Alpha?" Demo.two_chunk_world w1 chunks Hr Hne)
    as (user_prompt & Hcalls & _).
  exists chunks, w1, user_prompt.
  split; [exact Hr|]. split; [exact Hne | exact Hcalls].
Defined.

(** The response over the store of two chunks stays within the bounds. *)
Lemma answer_query_response_bounded_run :
  exists response w',
    answer_query (embedder := Demo.axis_embedder) (chat := Demo.fixed_chat)
      (metric := Demo.unit_metric) (engine := Demo.oldest_first_engine)
      "What is Alpha?" Demo.two_chunk_world
    = (Ok response, w')
    /\ List.length (Answer.sources response) <= 5
    /\ Forall (fun source =>
                 String.length (Source.text_snippet source) <= 203)
              (Answer.sources response).
Proof.
  assert (Hrun : exists response w',
             answer_query (embedder := Demo.axis_embedder)
               (chat := Demo.fixed_chat) (metric := Demo.unit_metric)
               (engine := Demo.oldest_first_engine)
               "What is Alpha?" Demo.two_chunk_world
             = (Ok response, w'))
    by (eexists; eexists; vm_compute; reflexivity).
  destruct Hrun as (response & w' & Hrun).
  exists response, w'. split; [exact Hrun|].
  apply (@answer_query_response_bounded Demo.axis_embedder Demo.fixed_chat
           Demo.unit_metric Demo.oldest_first_engine
           "What is Alpha?" Demo.two_chunk_world w' response Hrun).
Defined.

(** The prompt for two chunks holds the entry of the second. *)
Lemma generate_answer_prompt_run :
  exists before after,
    snd (generate_answer (chat := Demo.fixed_chat) "What is Gamma?"
           [ {| Retrieved.text := "Alpha Beta"; Retrieved.document_id := 1;
                Retrieved.page_number := 1; Retrieved.chunk_index := 0 |};
             {| Retrieved.text := "Gamma Delta"; Retrieved.document_id := 2;
                Retrieved.page_number := 1; Retrieved.chunk_index := 0 |} ]
           empty_world)
    = record_call
        (ChatCompletion "gpt-3.5-turbo" system_prompt
           ("Context:" ++ nl ++ before
              ++ context_entry
                   {| Retrieved.text := "Gamma Delta";
                      Retrieved.document_id := 2;
                      Retrieved.page_number := 1;
                      Retrieved.chunk_index := 0 |}
              ++ after ++ nl ++ nl ++ "Question: " ++ "What is Gamma?")%string)
        empty_world.
Proof.
  apply (@generate_answer_prompt_holds_chunk Demo.fixed_chat
           "What is Gamma?"
           [ {| Retrieved.text := "Alpha Beta"; Retrieved.document_id := 1;
                Retrieved.page_number := 1; Retrieved.chunk_index := 0 |};
             {| Retrieved.text := "Gamma Delta"; Retrieved.document_id := 2;
                Retrieved.page_number := 1; Retrieved.chunk_index := 0 |} ]
           empty_world
           {| Retrieved.text := "Gamma Delta"; Retrieved.document_id := 2;
              Retrieved.page_number := 1; Retrieved.chunk_index := 0 |}).
  right. left. reflexivity.
Defined.

(** A third document stored after the two of the store is found under
    id 3; a file name that holds a NUL is refused. *)
Lemma store_document_run :
  Forall (fun d => (Document.id d <= documents_id_seq Demo.two_chunk_world)%Z)
         (documents Demo.two_chunk_world)
  /\ (exists document w',
        store_document "c.pdf" 7 Demo.two_chunk_world = (Ok document, w')
        /\ Document.id document = 3%Z
        /\ get_document_details 3 w' = (Ok (Some document), w')
        /\ fst (get_document_details 4 w') = Ok None)
  /\ exists e,
       fst (store_document (String Ascii.zero "c.pdf") 7 Demo.two_chunk_world)
       = Raise e.
Proof.
  assert (H0 : Forall (fun d => (Document.id d
                                 <= documents_id_seq Demo.two_chunk_world)%Z)
                      (documents Demo.two_chunk_world)).
  { assert (Hrows : exists a b,
               documents Demo.two_chunk_world = [a; b]
               /\ (Document.id a <= documents_id_seq Demo.two_chunk_world)%Z
               /\ (Document.id b <= documents_id_seq Demo.two_chunk_world)%Z).
    { eexists. eexists. split; [vm_compute; reflexivity|].
      split; vm_compute; discriminate. }
    destruct Hrows as (a & b & -> & Ha & Hb). repeat constructor; assumption. }
  split; [exact H0|].
  assert (Htaken : document_taken "c.pdf" 7 Demo.two_chunk_world = true)
    by (vm_compute; reflexivity).
  assert (Hrefused : document_taken (String Ascii.zero "c.pdf") 7
                       Demo.two_chunk_world = false)
    by (vm_compute; reflexivity).
  split.
  - destruct (@store_document_then_get_document_details "c.pdf" 7
                Demo.two_chunk_world H0) as [Hstored _].
    destruct (Hstored Htaken)
      as (document & w' & Hrun & _ & _ & Hget & _ & Hunused).
    assert (Hid : Document.id document = 3%Z).
    { apply (f_equal fst) in Hrun. vm_compute in Hrun.
      injection Hrun as <-. reflexivity. }
    exists document, w'. split; [exact Hrun|]. split; [exact Hid|].
    rewrite Hid in Hget, Hunused. split; [exact Hget|].
    apply Hunused. lia.
  - destruct (@store_document_then_get_document_details
                (String Ascii.zero "c.pdf") 7 Demo.two_chunk_world H0)
      as [_ Hno].
    destruct (Hno Hrefused) as (e & He & _). now exists e.
Defined.

(** The keys are unique after the interrupted upload. *)
Lemma interrupted_ingest_primary_keys :
  well_keyed empty_world /\ well_keyed (snd Demo.interrupted_ingest).
Proof.
  assert (H0 : well_keyed empty_world) by (repeat constructor).
  split; [exact H0|].
  apply (@ingest_documents_keeps_primary_keys Demo.no_ocr_platform
           Demo.recursive_splitter Demo.first_only_embedder
           [Demo.doc_ab; Demo.doc_b] empty_world H0).
Defined.

(** The interrupted upload leaves the client's two files and nothing
    else. *)
Lemma interrupted_ingest_temporary_files :
  temp_names_fresh Demo.client_world
  /\ map fst
       (files (snd (ingest_documents (platform := Demo.no_ocr_platform)
                      (splitter := Demo.recursive_splitter)
                      (embedder := Demo.first_only_embedder)
                      [Demo.doc_ab; Demo.doc_b] Demo.client_world)))
     = ["/docs/a.pdf"; "/docs/B.PDF"]%string.
Proof.
  assert (H0 : temp_names_fresh Demo.client_world)
    by (intros n _; reflexivity).
  split; [exact H0|].
  destruct (@ingest_documents_removes_temporary_files Demo.no_ocr_platform
              Demo.recursive_splitter Demo.first_only_embedder
              [Demo.doc_ab; Demo.doc_b] Demo.client_world H0)
    as [Hfiles _].
  rewrite Hfiles. reflexivity.
Defined.

(** The upload of the two documents: two summaries, two document rows,
    two chunk rows. *)
Lemma ingest_two_documents_run :
  exists response,
    ingest_documents (platform := Demo.no_ocr_platform)
      (splitter := Demo.whole_page_splitter)
      (embedder := Demo.axis_embedder)
      [Demo.doc_a; Demo.doc_b] empty_world
    = (Ok response, Demo.two_chunk_world)
    /\ List.length (IngestResponse.documents response) = 2
    /\ IngestResponse.message response
       = "Successfully processed 2 documents"%string
    /\ List.length (documents Demo.two_chunk_world) = 2
    /\ List.length (document_chunks Demo.two_chunk_world)
       = list_sum (map Summary.total_chunks
                     (IngestResponse.documents response)).
Proof.
  assert (Hrun : exists response,
             ingest_documents (platform := Demo.no_ocr_platform)
               (splitter := Demo.whole_page_splitter)
               (embedder := Demo.axis_embedder)
               [Demo.doc_a; Demo.doc_b] empty_world
             = (Ok response, Demo.two_chunk_world))
    by (eexists; vm_compute; reflexivity).
  destruct Hrun as (response & Hrun).
  destruct (@ingest_documents_success_accounting Demo.no_ocr_platform
              Demo.whole_page_splitter Demo.axis_embedder
              [Demo.doc_a; Demo.doc_b] empty_world Demo.two_chunk_world
              response Hrun)
    as (_ & _ & Hlen & Hmsg & Hdocs & Hchunks).
  exists response. split; [exact Hrun|]. split; [exact Hlen|].
  split; [exact Hmsg|]. split; [exact Hdocs | exact Hchunks].
Defined.


(** One vector for two chunks: no error, the second chunk keeps no
    embedding, and storing the chunks fails. *)
Lemma create_embeddings_one_vector_run :
  embed_documents (EmbeddingProvider := Demo.one_vector_embedder)
    ["Alpha"; "Beta"]%string
  = Ok [Demo.axis 0]
  /\ is_ok (fst (create_embeddings (embedder := Demo.one_vector_embedder)
                   (Demo.two_page_chunks "Alpha" "Beta") empty_world))
     = true
  /\ is_ok (fst (store_chunks 1
                   (embed_chunks (Demo.two_page_chunks "Alpha" "Beta")
                                 [Demo.axis 0])
                   Demo.two_chunk_world))
     = false.
Proof.
  split; [reflexivity|].
  destruct (@create_embeddings_wrong_count Demo.one_vector_embedder
              (Demo.two_page_chunks "Alpha" "Beta")
              [Demo.axis 0] empty_world eq_refl)
    as [_ Hfew].
  destruct Hfew as (Hrun & _ & Hstore); [simpl; lia|].
  split; [rewrite Hrun; reflexivity|].
  eapply Hstore; reflexivity.
Defined.

(** The three-page scan, processed where OCR is not available. *)
Lemma process_pdf_scan_run :
  exists processed_doc w',
    process_pdf (platform := Demo.no_ocr_platform)
      (splitter := Demo.recursive_splitter) (embedder := Demo.axis_embedder)
      "/tmp/scan.pdf" Demo.world_with_scan
    = (Ok processed_doc, w')
    /\ ProcessedDoc.total_pages processed_doc = 3
    /\ ProcessedDoc.filename processed_doc = "scan.pdf"%string
    /\ NoDup (map provenance (ProcessedDoc.chunks processed_doc)).
Proof.
  assert (Hrun : exists processed_doc w',
             process_pdf (platform := Demo.no_ocr_platform)
               (splitter := Demo.recursive_splitter)
               (embedder := Demo.axis_embedder)
               "/tmp/scan.pdf" Demo.world_with_scan
             = (Ok processed_doc, w'))
    by (eexists; eexists; vm_compute; reflexivity).
  destruct Hrun as (processed_doc & w' & Hrun).
  destruct (@process_pdf_result Demo.no_ocr_platform Demo.recursive_splitter
              Demo.axis_embedder "/tmp/scan.pdf" Demo.world_with_scan w'
              processed_doc Hrun)
    as (pages & Hfile & Htotal & Hname & _ & Hnodup & _).
  exists processed_doc, w'. split; [exact Hrun|].
  split; [| split; [exact Hname | exact Hnodup]].
  rewrite Htotal. vm_compute in Hfile. injection Hfile as <-. reflexivity.
Defined.

(** The page texts of the scan where OCR is not available: none is
    blank, and each of the three pages has a chunk. *)
Lemma extract_scan_not_blank_run :
  exists page_texts chunks,
    extract_text_from_pdf (platform := Demo.no_ocr_platform)
      "/tmp/scan.pdf" Demo.world_with_scan
    = (Ok (page_texts, 3), Demo.world_with_scan)
    /\ Forall (fun text => Py.whitespace_only text = false) page_texts
    /\ chunk_text (splitter := Demo.recursive_splitter) page_texts 1000 200
       = Ok chunks
    /\ map Chunk.page_number chunks = [1; 2; 3].
Proof.
  assert (Hrun : exists page_texts,
             extract_text_from_pdf (platform := Demo.no_ocr_platform)
               "/tmp/scan.pdf" Demo.world_with_scan
             = (Ok (page_texts, 3), Demo.world_with_scan))
    by (eexists; vm_compute; reflexivity).
  destruct Hrun as (page_texts & Hrun).
  assert (Hle : 200 <= 1000) by lia.
  destruct (@extract_text_from_pdf_without_ocr_not_blank Demo.no_ocr_platform
              Demo.recursive_splitter "/tmp/scan.pdf" Demo.world_with_scan
              Demo.world_with_scan page_texts 3 1000 200 eq_refl Hrun Hle)
    as (Hall & chunks & Hchunks & _).
  exists page_texts, chunks. split; [exact Hrun|]. split; [exact Hall|].
  split; [exact Hchunks|].
  apply (f_equal fst) in Hrun. vm_compute in Hrun. injection Hrun as <-.
  vm_compute in Hchunks. injection Hchunks as <-. reflexivity.
Defined.

(** The client's request for its two files, one with an upper-case
    suffix. *)
Lemma client_request_run :
  exists uploads,
    client_ingest_request Demo.client_world
      ["/docs/a.pdf"; "/docs/B.PDF"]%string
    = Some uploads
    /\ map UploadFile.filename uploads = ["a.pdf"; "B.PDF"]%string
    /\ forall detail,
         fst (ingest_documents (platform := Demo.no_ocr_platform)
                (splitter := Demo.recursive_splitter)
                (embedder := Demo.axis_embedder) uploads empty_world)
         <> Raise (HTTPException HTTP_400_BAD_REQUEST detail).
Proof.
  assert (Hrun : exists uploads,
             client_ingest_request Demo.client_world
               ["/docs/a.pdf"; "/docs/B.PDF"]%string
             = Some uploads
             /\ map UploadFile.filename uploads = ["a.pdf"; "B.PDF"]%string)
    by (eexists; split; vm_compute; reflexivity).
  destruct Hrun as (uploads & Hrun & Hnames).
  exists uploads. split; [exact Hrun|]. split; [exact Hnames|].
  destruct (@client_request_passes_validation Demo.no_ocr_platform
              Demo.recursive_splitter Demo.axis_embedder Demo.client_world
              ["/docs/a.pdf"; "/docs/B.PDF"]%string uploads Hrun)
    as [_ Hserver].
  exact (Hserver empty_world).
Defined.
